(** * The 3x-ui panel client ([services/xui_client.py]) in Rocq

    A shallow embedding of [XUIClient]: the request executor with its
    single re-login, the client lifecycle operations, the cross-inbound
    scan and the three connection-link builders, followed by the
    properties of the specification that concern them.

    Conventions of the embedding.
    - A Python [str] is a Rocq [string] holding its UTF-8 encoding, one
      [ascii] per byte.  Equality, concatenation, [replace], [split] and
      substring search on ASCII patterns, percent-encoding and base64 are
      exact under this reading.  Case mapping is that of the ASCII letters.
    - A decoded JSON document is a [value]: [None], [bool], [int], [str],
      [list] or [dict].  Numbers are integers (the panel's ids, ports and
      counters); a [dict] is an association list in insertion order, read
      at the first binding of a key.
    - A Python exception is a constructor of [exn]; a computation that may
      raise returns a [result].
    - The HTTP client answers a request or raises an [httpx.RequestError],
      and the body of an answer is text that [json.loads] decodes or
      refuses.  What else the HTTP library may raise (a URL it cannot
      parse, a body that is not UTF-8) is outside the embedding: [login]
      would turn it into an [XUIClientError], [_make_request] would let it
      through.
    - Calls to [log] and the timing of requests have no effect on results
      and are left out.

    Embedded from the source: [__init__], [__aenter__], [login],
    [_make_request], [get_inbound], [get_inbound_list],
    [find_client_in_all_inbounds], [create_client], [get_client_traffic],
    [update_client_status], [delete_client],
    [delete_client_from_all_inbounds], [get_client_link] and the builders
    [_build_vless_link], [_build_vmess_link] and [_build_trojan_link];
    and, from the handlers of the bot, what they do with the client: the
    [async with XUIClient()] block, the traffic line of [show_profile]
    and [show_user_info], the link of [show_connection] and the alert of
    [approve_request]. *)

From Stdlib Require Import ZArith NArith List String Ascii Bool Lia.
From Stdlib Require Import Numbers.DecimalString.
Import ListNotations.

Local Open Scope string_scope.
Local Open Scope Z_scope.

(** ** Python strings *)

Module PyStr.

Definition chr (n : nat) : string := String (ascii_of_nat n) EmptyString.

Fixpoint of_bytes (l : list nat) : string :=
  match l with
  | [] => EmptyString
  | n :: l' => String (ascii_of_nat n) (of_bytes l')
  end.

(** The double quote, line feed and friends, by code. *)
Definition dquote : string := chr 34.
Definition backslash : string := chr 92.
Definition newline : ascii := ascii_of_nat 10.

(** [str(n)] for an [int]. *)
Definition of_int (n : Z) : string := NilZero.string_of_int (Z.to_int n).

(** [s.startswith(p)] *)
Definition startswith (p s : string) : bool := String.prefix p s.

(** [p in s] for two strings. *)
Fixpoint contains (p s : string) : bool :=
  startswith p s ||
  match s with
  | EmptyString => false
  | String _ s' => contains p s'
  end.

(** [s.replace(old, new)] for a non-empty [old]: occurrences are replaced
    from the left and do not overlap.  [skip] counts the bytes of an
    occurrence still to be dropped. *)
Fixpoint replace_from (old new : string) (skip : nat) (s : string) : string :=
  match s with
  | EmptyString => EmptyString
  | String c s' =>
      match skip with
      | S k => replace_from old new k s'
      | O =>
          if startswith old s
          then new ++ replace_from old new (Nat.pred (String.length old)) s'
          else String c (replace_from old new O s')
      end
  end.

Definition replace (old new s : string) : string := replace_from old new O s.

(** [s.split(sep)[0]] for a one-character separator: the text before the
    first separator, the whole string when there is none. *)
Fixpoint split_head (sep : ascii) (s : string) : string :=
  match s with
  | EmptyString => EmptyString
  | String c s' => if Ascii.eqb c sep then EmptyString else String c (split_head sep s')
  end.

(** [s.rstrip(c)] for a one-character set. *)
Fixpoint rstrip_char (c : ascii) (s : string) : string :=
  match s with
  | EmptyString => EmptyString
  | String a s' =>
      let r := rstrip_char c s' in
      if String.eqb r EmptyString && Ascii.eqb a c then EmptyString else String a r
  end.

Definition lower_ascii (c : ascii) : ascii :=
  let n := nat_of_ascii c in
  if (Nat.leb 65 n && Nat.leb n 90)%bool then ascii_of_nat (n + 32) else c.

Definition upper_ascii (c : ascii) : ascii :=
  let n := nat_of_ascii c in
  if (Nat.leb 97 n && Nat.leb n 122)%bool then ascii_of_nat (n - 32) else c.

Fixpoint map_chars (f : ascii -> ascii) (s : string) : string :=
  match s with
  | EmptyString => EmptyString
  | String c s' => String (f c) (map_chars f s')
  end.

(** [s.lower()] and [s.upper()] *)
Definition lower : string -> string := map_chars lower_ascii.
Definition upper : string -> string := map_chars upper_ascii.

(** The characters [str.strip()] removes, in UTF-8: the ASCII controls
    9-13 and 28-31, the space, and the Unicode spaces U+0085, U+00A0,
    U+1680, U+2000-U+200A, U+2028, U+2029, U+202F, U+205F, U+3000. *)
Definition whitespace : list string :=
  map chr [9; 10; 11; 12; 13; 28; 29; 30; 31; 32]%nat ++
  map of_bytes
    [ [194; 133]; [194; 160]; [225; 154; 128];
      [226; 128; 128]; [226; 128; 129]; [226; 128; 130]; [226; 128; 131];
      [226; 128; 132]; [226; 128; 133]; [226; 128; 134]; [226; 128; 135];
      [226; 128; 136]; [226; 128; 137]; [226; 128; 138];
      [226; 128; 168]; [226; 128; 169]; [226; 128; 175];
      [226; 129; 159]; [227; 128; 128] ]%nat.

Fixpoint drop (n : nat) (s : string) : string :=
  match n, s with
  | O, _ => s
  | S _, EmptyString => EmptyString
  | S k, String _ s' => drop k s'
  end.

(** The rest of [s] after one leading whitespace character, if any. *)
Definition drop_space (s : string) : option string :=
  match List.find (fun w => startswith w s) whitespace with
  | Some w => Some (drop (String.length w) s)
  | None => None
  end.

Fixpoint lstrip_fuel (fuel : nat) (s : string) : string :=
  match fuel with
  | O => s
  | S k => match drop_space s with
           | Some s' => lstrip_fuel k s'
           | None => s
           end
  end.

(** [s.lstrip()]: every whitespace character takes at least one byte, so
    [length s] rounds suffice. *)
Definition lstrip (s : string) : string := lstrip_fuel (String.length s) s.

Definition all_space (s : string) : bool := String.eqb (lstrip s) EmptyString.

(** [s.rstrip()] *)
Fixpoint rstrip (s : string) : string :=
  match s with
  | EmptyString => EmptyString
  | String a s' => if all_space s then EmptyString else String a (rstrip s')
  end.

(** [s.strip()] *)
Definition strip (s : string) : string := lstrip (rstrip s).

(** Every byte of [s] satisfies [f]. *)
Fixpoint all (f : ascii -> bool) (s : string) : bool :=
  match s with
  | EmptyString => true
  | String c s' => f c && all f s'
  end.

(** [sep.join(parts)] *)
Definition join (sep : string) (parts : list string) : string := String.concat sep parts.

(** The number of bytes of the UTF-8 character that starts with [c]. *)
Definition utf8_width (c : ascii) : nat :=
  let n := nat_of_ascii c in
  if Nat.ltb n 192 then 1 else if Nat.ltb n 224 then 2 else if Nat.ltb n 240 then 3 else 4.

Fixpoint take (n : nat) (s : string) : string :=
  match n, s with
  | O, _ => EmptyString
  | S _, EmptyString => EmptyString
  | S k, String c s' => String c (take k s')
  end.

(** [s[0]] of a non-empty string: its first character. *)
Definition first_char (s : string) : string :=
  match s with
  | EmptyString => EmptyString
  | String c _ => take (utf8_width c) s
  end.

Fixpoint chars_fuel (fuel : nat) (s : string) : list string :=
  match fuel, s with
  | O, _ => []
  | _, EmptyString => []
  | S k, String c _ => first_char s :: chars_fuel k (drop (utf8_width c) s)
  end.

(** [list(s)]: the characters of [s]. *)
Definition chars (s : string) : list string := chars_fuel (String.length s) s.

End PyStr.

(** ** Python values and exceptions *)

(** What [json.loads] and [response.json()] produce. *)
#[warnings="-register-all"]
Inductive value : Type :=
| VNone
| VBool (b : bool)
| VInt (n : Z)
| VStr (s : string)
| VList (items : list value)
| VDict (fields : list (string * value)).

(** The exceptions the client can meet.  Those whose message the code
    interpolates into another message carry it; an [httpx.RequestError]
    also carries the name of its class and whether that class derives from
    [ConnectError] or [TimeoutException].  The messages of [TypeError],
    [KeyError] and [IndexError] are only ever logged. *)
Inductive request_error_kind : Type :=
| ConnectError
| TimeoutException
| OtherRequestError.

Inductive exn : Type :=
| XUIClientError (msg : string)
| JSONDecodeError (msg : string)
| RequestError (kind : request_error_kind) (class_name msg : string)
| AttributeError (msg : string)
| TypeError
| KeyError
| IndexError.

Inductive result (A : Type) : Type :=
| Ok (a : A)
| Raise (e : exn).

Arguments Ok {A} a.
Arguments Raise {A} e.

Definition rbind {A B : Type} (r : result A) (k : A -> result B) : result B :=
  match r with
  | Ok a => k a
  | Raise e => Raise e
  end.

Declare Scope result_scope.
Delimit Scope result_scope with result.
Notation "x <- r ;; k" := (rbind r (fun x => k))
  (at level 61, r at next level, right associativity) : result_scope.

Module Py.

(** Truth value of an object, as tested by [if], [not] and [and]. *)
Definition truthy (v : value) : bool :=
  match v with
  | VNone => false
  | VBool b => b
  | VInt n => negb (n =? 0)
  | VStr s => negb (String.eqb s EmptyString)
  | VList l => match l with [] => false | _ => true end
  | VDict d => match d with [] => false | _ => true end
  end.

(** [v == s] for a string [s]: only an equal [str] compares equal. *)
Definition eq_str (v : value) (s : string) : bool :=
  match v with
  | VStr t => String.eqb t s
  | _ => false
  end.

Fixpoint lookup (k : string) (d : list (string * value)) : option value :=
  match d with
  | [] => None
  | (k', v) :: d' => if String.eqb k' k then Some v else lookup k d'
  end.

(** [d.get(k, default)] on a [dict]. *)
Definition dict_get (d : list (string * value)) (k : string) (default : value) : value :=
  match lookup k d with
  | Some v => v
  | None => default
  end.

(** [type(v).__name__] *)
Definition type_name (v : value) : string :=
  match v with
  | VNone => "NoneType"
  | VBool _ => "bool"
  | VInt _ => "int"
  | VStr _ => "str"
  | VList _ => "list"
  | VDict _ => "dict"
  end.

Definition no_attribute (v : value) (attr : string) : exn :=
  AttributeError ("'" ++ type_name v ++ "' object has no attribute '" ++ attr ++ "'").

(** [v.get(k, default)] on any object: only a [dict] has [get]. *)
Definition get (v : value) (k : string) (default : value) : result value :=
  match v with
  | VDict d => Ok (dict_get d k default)
  | _ => Raise (no_attribute v "get")
  end.

(** [d[k] = v] on a [dict]: in place when the key is bound, appended
    otherwise. *)
Fixpoint dict_set {A : Type} (d : list (string * A)) (k : string) (v : A) : list (string * A) :=
  match d with
  | [] => [(k, v)]
  | (k', v') :: d' => if String.eqb k' k then (k', v) :: d' else (k', v') :: dict_set d' k v
  end.

(** The items a [for] loop visits: the elements of a [list], the keys of
    a [dict], the characters of a [str]; other objects are not iterable. *)
Definition iter (v : value) : result (list value) :=
  match v with
  | VList l => Ok l
  | VDict d => Ok (map (fun kv => VStr (fst kv)) d)
  | VStr s => Ok (map VStr (PyStr.chars s))
  | _ => Raise TypeError
  end.

(** [v[0]] *)
Definition item0 (v : value) : result value :=
  match v with
  | VList (x :: _) => Ok x
  | VList [] => Raise IndexError
  | VStr s => if String.eqb s EmptyString then Raise IndexError else Ok (VStr (PyStr.first_char s))
  | VDict _ => Raise KeyError
  | _ => Raise TypeError
  end.

(** [a + b]: integers (a [bool] counts as 0 or 1) are added, strings and
    lists concatenated. *)
Definition as_int (v : value) : option Z :=
  match v with
  | VInt n => Some n
  | VBool b => Some (if b then 1 else 0)
  | _ => None
  end.

Definition add (a b : value) : result value :=
  match as_int a, as_int b with
  | Some x, Some y => Ok (VInt (x + y))
  | _, _ =>
      match a, b with
      | VStr s, VStr t => Ok (VStr (s ++ t))
      | VList l, VList m => Ok (VList (l ++ m))
      | _, _ => Raise TypeError
      end
  end.

(** [s in v] for a string [s]: substring of a [str], element of a [list],
    key of a [dict]. *)
Definition contains (s : string) (v : value) : result bool :=
  match v with
  | VStr t => Ok (PyStr.contains s t)
  | VList l => Ok (existsb (fun x => eq_str x s) l)
  | VDict d => Ok (existsb (fun kv => String.eqb (fst kv) s) d)
  | _ => Raise TypeError
  end.

(** [v[k]] for a string key. *)
Definition getitem (v : value) (k : string) : result value :=
  match v with
  | VDict d => match lookup k d with
               | Some x => Ok x
               | None => Raise KeyError
               end
  | _ => Raise TypeError
  end.

Fixpoint strings_of (l : list value) : result (list string) :=
  match l with
  | [] => Ok []
  | VStr s :: l' => (rest <- strings_of l' ;; Ok (s :: rest))%result
  | _ :: _ => Raise TypeError
  end.

(** [sep.join(v)]: [v] must be an iterable of strings. *)
Definition join (sep : string) (v : value) : result string :=
  (items <- iter v ;;
   parts <- strings_of items ;;
   Ok (PyStr.join sep parts))%result.

(** [v.lower()]: only a [str] has it. *)
Definition lower (v : value) : result string :=
  match v with
  | VStr s => Ok (PyStr.lower s)
  | _ => Raise (no_attribute v "lower")
  end.

End Py.

(** The part of the interpreter's library that is taken as given: the
    JSON decoder, with the message of its [JSONDecodeError], and [repr]
    of a [list] or [dict], which [str()] and f-strings fall back on. *)
Class Runtime : Type := {
  json_loads : string -> string + value;
  py_repr : value -> string
}.

Section WithRuntime.

Context `{RT : Runtime}.

(** [str(v)], also what an f-string field [{v}] expands to. *)
Definition py_str (v : value) : string :=
  match v with
  | VNone => "None"
  | VBool true => "True"
  | VBool false => "False"
  | VInt n => PyStr.of_int n
  | VStr s => s
  | VList _ | VDict _ => py_repr v
  end.

(** [json.loads(v)]: decoding anything but text is a [TypeError]. *)
Definition py_json_loads (v : value) : result value :=
  match v with
  | VStr s =>
      match json_loads s with
      | inr doc => Ok doc
      | inl msg => Raise (JSONDecodeError msg)
      end
  | _ => Raise TypeError
  end.

End WithRuntime.

(** ** [json.dumps], [base64.b64encode], [urllib.parse] and [re] *)

Module Hex.

Definition digit (digits : string) (n : N) : string :=
  String.substring (N.to_nat n) 1 digits.

Definition lower_digits : string := "0123456789abcdef".
Definition upper_digits : string := "0123456789ABCDEF".

(** Two upper-case digits, as in [%2F]. *)
Definition byte_upper (n : N) : string :=
  (digit upper_digits (n / 16) ++ digit upper_digits (n mod 16))%N.

(** Four lower-case digits, as in the escape of U+00E9, [u00e9]. *)
Definition word_lower (n : N) : string :=
  (digit lower_digits (n / 4096 mod 16) ++ digit lower_digits (n / 256 mod 16) ++
   digit lower_digits (n / 16 mod 16) ++ digit lower_digits (n mod 16))%N.

End Hex.

Module Json.

(** The code point of one UTF-8 character. *)
Definition code_point (ch : string) : N :=
  match map N_of_ascii (list_ascii_of_string ch) with
  | [b0] => b0
  | [b0; b1] => (b0 mod 32) * 64 + b1 mod 64
  | [b0; b1; b2] => (b0 mod 16) * 4096 + (b1 mod 64) * 64 + b2 mod 64
  | [b0; b1; b2; b3] => (b0 mod 8) * 262144 + (b1 mod 64) * 4096 + (b2 mod 64) * 64 + b3 mod 64
  | _ => 0
  end%N.

(** One character of a string literal under [ensure_ascii=True]: the
    short escapes, printable ASCII as it is, everything else as [\uXXXX]
    (a surrogate pair above U+FFFF). *)
Definition escape_char (ch : string) : string :=
  let cp := code_point ch in
  if (cp =? 34)%N then PyStr.backslash ++ PyStr.dquote
  else if (cp =? 92)%N then PyStr.backslash ++ PyStr.backslash
  else if (cp =? 10)%N then PyStr.backslash ++ "n"
  else if (cp =? 13)%N then PyStr.backslash ++ "r"
  else if (cp =? 9)%N then PyStr.backslash ++ "t"
  else if (cp =? 12)%N then PyStr.backslash ++ "f"
  else if (cp =? 8)%N then PyStr.backslash ++ "b"
  else if ((32 <=? cp) && (cp <=? 126))%N then ch
  else if (cp <? 65536)%N then PyStr.backslash ++ "u" ++ Hex.word_lower cp
  else
    let v := (cp - 65536)%N in
    PyStr.backslash ++ "u" ++ Hex.word_lower (55296 + v / 1024)%N ++
    PyStr.backslash ++ "u" ++ Hex.word_lower (56320 + v mod 1024)%N.

Definition dumps_str (s : string) : string :=
  PyStr.dquote ++ String.concat EmptyString (map escape_char (PyStr.chars s)) ++ PyStr.dquote.

(** [json.dumps(v)] with its default separators. *)
Fixpoint dumps (v : value) : string :=
  match v with
  | VNone => "null"
  | VBool true => "true"
  | VBool false => "false"
  | VInt n => PyStr.of_int n
  | VStr s => dumps_str s
  | VList l => "[" ++ PyStr.join ", " (map dumps l) ++ "]"
  | VDict d =>
      "{" ++ PyStr.join ", " (map (fun '(k, x) => dumps_str k ++ ": " ++ dumps x) d) ++ "}"
  end.

End Json.

Module Base64.

Definition alphabet : string :=
  "ABCDEFGHIJKLMNOPQRSTUVWXYZabcdefghijklmnopqrstuvwxyz0123456789+/".

Definition sextet (n : N) : string := String.substring (N.to_nat n) 1 alphabet.

Fixpoint encode_bytes (l : list N) : string :=
  match l with
  | [] => EmptyString
  | [a] => sextet (a / 4) ++ sextet (a mod 4 * 16) ++ "=="
  | [a; b] => sextet (a / 4) ++ sextet (a mod 4 * 16 + b / 16) ++ sextet (b mod 16 * 4) ++ "="
  | a :: b :: c :: rest =>
      sextet (a / 4) ++ sextet (a mod 4 * 16 + b / 16) ++
      sextet (b mod 16 * 4 + c / 64) ++ sextet (c mod 64) ++ encode_bytes rest
  end%N.

(** [base64.b64encode(s.encode()).decode()] *)
Definition b64encode (s : string) : string :=
  encode_bytes (map N_of_ascii (list_ascii_of_string s)).





End Base64.

Module Re.

Definition duplicate_prefix : string := "Duplicate email: ".

(** [re.search(r'Duplicate email: (.+)', s)], giving [group(1)]: the
    leftmost place where the literal is followed by at least one
    character other than a line feed, and the text from there to the end
    of that line. *)
Fixpoint search_duplicate_email (s : string) : option string :=
  let here :=
    if PyStr.startswith duplicate_prefix s
    then PyStr.split_head PyStr.newline (PyStr.drop (String.length duplicate_prefix) s)
    else EmptyString in
  if negb (String.eqb here EmptyString) then Some here
  else
    match s with
    | EmptyString => None
    | String _ s' => search_duplicate_email s'
    end.

End Re.

Module Urllib.

Section WithRuntime.

Context `{RT : Runtime}.

Definition always_safe : string :=
  "ABCDEFGHIJKLMNOPQRSTUVWXYZabcdefghijklmnopqrstuvwxyz0123456789_.-~".

Definition is_safe (safe : string) (c : ascii) : bool :=
  PyStr.contains (String c EmptyString) (always_safe ++ safe).

(** [quote(s, safe)]: every byte of the UTF-8 text outside the safe set
    becomes [%XX]. *)
Fixpoint quote (safe s : string) : string :=
  match s with
  | EmptyString => EmptyString
  | String c s' =>
      (if is_safe safe c then String c EmptyString else "%" ++ Hex.byte_upper (N_of_ascii c))
      ++ quote safe s'
  end.

(** [quote(v, safe)] on any object: anything but text is a [TypeError]. *)
Definition quote_value (safe : string) (v : value) : result string :=
  match v with
  | VStr s => Ok (quote safe s)
  | _ => Raise TypeError
  end.

(** [quote_plus(s, safe)] *)
Definition quote_plus (safe s : string) : string :=
  if PyStr.contains " " s
  then PyStr.replace " " "+" (quote (safe ++ " ") s)
  else quote safe s.

(** [urlencode(query, safe=safe)]: keys and values go through [str()] and
    [quote_plus]. *)
Definition urlencode_pair (safe : string) (kv : string * value) : string :=
  quote_plus safe (fst kv) ++ "=" ++ quote_plus safe (py_str (snd kv)).

Definition urlencode (query : list (string * value)) (safe : string) : string :=
  PyStr.join "&" (map (urlencode_pair safe) query).

End WithRuntime.

End Urllib.

(** ** The HTTP transport *)

Inductive body : Type :=
| NoBody
| JsonBody (data : option value)
| FormBody (fields : list (string * string)).

Record request : Type := {
  req_method : string;
  req_url : string;
  req_headers : list (string * string);
  req_body : body
}.

Record response : Type := {
  status_code : Z;
  cookies : list (string * string);
  text : string
}.

(** What sending a request leads to: a response, or an
    [httpx.RequestError]. *)
Inductive outcome : Type :=
| Responded (r : response)
| Failed (kind : request_error_kind) (class_name msg : string).

(** The panel and the network between: the outcome of a request given
    the requests sent before it, oldest first. *)
Definition transport : Type := list request -> request -> outcome.

(** [core.config.settings], as far as the client reads it. *)
Record Settings : Type := {
  XUI_BASE_URL : string;
  XUI_USERNAME : string;
  XUI_PASSWORD : string
}.

(** The mutable part of an [XUIClient]: the session cookie and whether
    [self.client] is set.  [sent] is not a field of the object: it records
    the requests that went out, in order. *)
Record state : Type := {
  session_cookie : option string;
  http_client : bool;
  sent : list request
}.

(** The state once [req] has gone out. *)
Definition sending (req : request) (st : state) : state :=
  {| session_cookie := session_cookie st;
     http_client := http_client st;
     sent := sent st ++ [req] |}.

(** A method of the client: it may send requests, replace the cookie,
    and raise. *)
Definition M (A : Type) : Type := state -> result A * state.

Definition ret {A : Type} (a : A) : M A := fun st => (Ok a, st).

Definition raise {A : Type} (e : exn) : M A := fun st => (Raise e, st).

Definition bind {A B : Type} (m : M A) (k : A -> M B) : M B :=
  fun st =>
    match m st with
    | (Ok a, st') => k a st'
    | (Raise e, st') => (Raise e, st')
    end.

(** [try: m except Exception as e: handler(e)] *)
Definition catch {A : Type} (m : M A) (handler : exn -> M A) : M A :=
  fun st =>
    match m st with
    | (Ok a, st') => (Ok a, st')
    | (Raise e, st') => handler e st'
    end.

Definition lift {A : Type} (r : result A) : M A := fun st => (r, st).

Declare Scope client_scope.
Delimit Scope client_scope with client.
Notation "x <- m ;; k" := (bind m (fun x => k))
  (at level 61, m at next level, right associativity) : client_scope.
Notation "m ;;; k" := (bind m (fun _ => k))
  (at level 61, right associativity) : client_scope.

(** ** [class XUIClient] *)

Section XUIClient.

Context `{RT : Runtime}.
Variable settings : Settings.
Variable panel : transport.

Local Open Scope client_scope.

(** [__init__] *)
Definition base_url : string := PyStr.rstrip_char "/" (XUI_BASE_URL settings).
Definition username : string := XUI_USERNAME settings.
Definition password : string := XUI_PASSWORD settings.

Definition init : state :=
  {| session_cookie := None; http_client := false; sent := [] |}.

(** [await self.client.get(...)] or [.post(...)]: the request goes out and
    the transport answers, or raises. *)
Definition send (req : request) : M response :=
  fun st =>
    match panel (sent st) req with
    | Responded r => (Ok r, sending req st)
    | Failed kind class_name msg => (Raise (RequestError kind class_name msg), sending req st)
    end.

Definition set_session_cookie (c : string) : M unit :=
  fun st =>
    (Ok tt, {| session_cookie := Some c; http_client := http_client st; sent := sent st |}).

Definition login_url : string := base_url ++ "/login".

Definition login_request : request :=
  {| req_method := "POST";
     req_url := login_url;
     req_headers := [("Content-Type", "application/x-www-form-urlencoded")];
     req_body := FormBody [("username", username); ("password", password)] |}.

(** [type(e).__name__] and [str(e)] of a caught exception.  The
    message of a [TypeError], [KeyError] or [IndexError] is not modelled;
    none arises where a message is read. *)
Definition exn_name (e : exn) : string :=
  match e with
  | XUIClientError _ => "XUIClientError"
  | JSONDecodeError _ => "JSONDecodeError"
  | RequestError _ class_name _ => class_name
  | AttributeError _ => "AttributeError"
  | TypeError => "TypeError"
  | KeyError => "KeyError"
  | IndexError => "IndexError"
  end.

Definition exn_message (e : exn) : string :=
  match e with
  | XUIClientError msg | JSONDecodeError msg | RequestError _ _ msg | AttributeError msg => msg
  | TypeError | KeyError | IndexError => EmptyString
  end.

(** [login]: the body of its [try], then its four [except] clauses. *)
Definition login_attempt : M bool :=
  fun st =>
    if negb (http_client st)
    then (Raise (Py.no_attribute VNone "post"), st)
    else
      (response <- send login_request ;;
       if status_code response =? 200 then
         match cookies response with
         | _ :: _ =>
             let cookie_parts := map (fun '(name, v) => name ++ "=" ++ v) (cookies response) in
             set_session_cookie (PyStr.join "; " cookie_parts) ;;;
             ret true
         | [] => raise (XUIClientError "No session cookie received")
         end
       else
         raise (XUIClientError
                  ("Authentication failed with status " ++ PyStr.of_int (status_code response))))
        st.

Definition login : M bool :=
  catch login_attempt
    (fun e =>
       match e with
       | RequestError ConnectError _ _ =>
           raise (XUIClientError ("Connection failed: Cannot connect to " ++ login_url))
       | RequestError TimeoutException _ _ =>
           raise (XUIClientError ("Connection timeout to " ++ login_url))
       | _ =>
           raise (XUIClientError ("Login failed: " ++ exn_name e ++ " - " ++ exn_message e))
       end).

(** [__aenter__] *)
Definition aenter : M unit :=
  fun st =>
    (login ;;; ret tt)
      {| session_cookie := session_cookie st; http_client := true; sent := sent st |}.

Definition cookie_header (st : state) : list (string * string) :=
  match session_cookie st with
  | Some c => if String.eqb c EmptyString then [] else [("Cookie", c)]
  | None => []
  end.

(** [response.json()] *)
Definition response_json (r : response) : result value :=
  match json_loads (text r) with
  | inr doc => Ok doc
  | inl msg => Raise (JSONDecodeError msg)
  end.

(** The request [_make_request] issues: [client.get(url, headers=...)]
    for GET, [client.post(url, json=data, headers=...)] for POST, none
    for another method. *)
Definition api_request (st : state) (method endpoint : string) (data : option value)
    : option request :=
  let url := base_url ++ endpoint in
  let headers := cookie_header st in
  if String.eqb (PyStr.upper method) "GET" then
    Some {| req_method := "GET"; req_url := url; req_headers := headers; req_body := NoBody |}
  else if String.eqb (PyStr.upper method) "POST" then
    Some {| req_method := "POST"; req_url := url; req_headers := headers;
            req_body := JsonBody data |}
  else None.

(** The body of [_make_request].  Its only recursive call passes
    [retry_on_auth_error=False], so the recursion is two deep:
    [on_expiry = Some again] is the body with the flag on, [again] being
    that recursive call, and [on_expiry = None] the body with the flag
    off. *)
Definition attempt (on_expiry : option (M value))
    (method endpoint : string) (data : option value) : M value :=
  fun st =>
    if negb (http_client st)
    then (Raise (XUIClientError "Client not initialized. Use async context manager."), st)
    else
      catch
        (response <-
           match api_request st method endpoint data with
           | Some req => send req
           | None => raise (XUIClientError ("Unsupported HTTP method: " ++ method))
           end ;;
         match (status_code response =? 401), on_expiry with
         | true, Some again => login ;;; again
         | _, _ =>
             if status_code response >=? 400 then
               raise (XUIClientError
                        ("API request failed with status " ++ PyStr.of_int (status_code response)))
             else lift (response_json response)
         end)
        (fun e =>
           match e with
           | RequestError _ _ msg => raise (XUIClientError ("Network error: " ++ msg))
           | JSONDecodeError msg => raise (XUIClientError ("Invalid JSON response: " ++ msg))
           | _ => raise e
           end)
        st.

Definition _make_request (method endpoint : string) (data : option value)
    (retry_on_auth_error : bool) : M value :=
  if retry_on_auth_error
  then attempt (Some (attempt None method endpoint data)) method endpoint data
  else attempt None method endpoint data.

(** A call with the default [retry_on_auth_error=True], as every method
    below makes it. *)
Definition call (method endpoint : string) (data : option value) : M value :=
  _make_request method endpoint data true.

Definition get_inbound (inbound_id : Z) : M value :=
  call "GET" ("/panel/api/inbounds/get/" ++ PyStr.of_int inbound_id) None.

Definition list_endpoint : string := "/panel/api/inbounds/list".

Definition get_inbound_list : M value :=
  result <- call "GET" list_endpoint None ;;
  success <- lift (Py.get result "success" VNone) ;;
  if Py.truthy success then lift (Py.get result "obj" (VList []))
  else ret (VList []).

(** The loop [for client in clients: if client.get("email") == email],
    which [find_client_in_all_inbounds] leaves by [return] and
    [get_client_link] by [break]: the first client with that email. *)
Fixpoint first_client_with_email (email : string) (clients : list value)
    : result (option value) :=
  match clients with
  | [] => Ok None
  | client :: rest =>
      (e <- Py.get client "email" VNone ;;
       if Py.eq_str e email then Ok (Some client)
       else first_client_with_email email rest)%result
  end.

(** One round of the loop over the inbounds: [Some] match when it
    returns, [None] when it goes on to the next inbound. *)
Definition scan_inbound (email : string) (inbound : value) : result (option value) :=
  (inbound_id <- Py.get inbound "id" VNone ;;
   settings_str <- Py.get inbound "settings" (VStr "{}") ;;
   match
     (settings_dict <- py_json_loads settings_str ;;
      clients <- Py.get settings_dict "clients" (VList []) ;;
      items <- Py.iter clients ;;
      first_client_with_email email items)
   with
   | Ok (Some client) =>
       inbound_remark <- Py.get inbound "remark" (VStr "Unknown") ;;
       Ok (Some (VDict [("inbound_id", inbound_id);
                        ("inbound_remark", inbound_remark);
                        ("client", client)]))
   | Ok None => Ok None
   | Raise (JSONDecodeError _) => Ok None
   | Raise e => Raise e
   end)%result.

Fixpoint scan_inbounds (email : string) (inbounds : list value) : result value :=
  match inbounds with
  | [] => Ok VNone
  | inbound :: rest =>
      (found <- scan_inbound email inbound ;;
       match found with
       | Some info => Ok info
       | None => scan_inbounds email rest
       end)%result
  end.

Definition find_client_in_all_inbounds (email : string) : M value :=
  inbounds <- get_inbound_list ;;
  lift (items <- Py.iter inbounds ;; scan_inbounds email items)%result.

(** [re.search(pattern, v)]: searching anything but text is a
    [TypeError]. *)
Definition search_duplicate (v : value) : result (option string) :=
  match v with
  | VStr s => Ok (Re.search_duplicate_email s)
  | _ => Raise TypeError
  end.

Definition client_exists_message (inbound_remark : string) : string :=
  "Клиент с таким именем уже существует в инбаунде '" ++ inbound_remark ++
  "'. Попросите пользователя выбрать другое имя.".

Definition duplicate_email_message (duplicate_email : string) : string :=
  "В 3x-ui уже существует клиент с email '" ++ duplicate_email ++
  "'. Удалите его через панель 3x-ui.".

Definition new_client (email uuid : string) (enable : bool) : value :=
  VDict [("id", VStr uuid); ("email", VStr email); ("enable", VBool enable);
         ("flow", VStr EmptyString); ("limitIp", VInt 0); ("totalGB", VInt 0);
         ("expiryTime", VInt 0); ("tgId", VStr EmptyString);
         ("subId", VStr EmptyString); ("reset", VInt 0)].

Definition add_client_endpoint : string := "/panel/api/inbounds/addClient".

Definition request_data (email uuid : string) (inbound_id : Z) (enable : bool) : value :=
  VDict [("id", VInt inbound_id);
         ("settings",
          VStr (Json.dumps (VDict [("clients", VList [new_client email uuid enable])])))].

(** [create_client] after its check for an existing client: the request
    to the create endpoint and the reading of its answer. *)
Definition add_client (email uuid : string) (inbound_id : Z) (enable : bool) : M bool :=
  result <- call "POST" add_client_endpoint
              (Some (request_data email uuid inbound_id enable)) ;;
  success <- lift (Py.get result "success" VNone) ;;
  if Py.truthy success then ret true
  else
    error_msg <- lift (Py.get result "msg" (VStr "Unknown error")) ;;
    mentions_duplicate <- lift (Py.contains "Duplicate email" error_msg) ;;
    (if mentions_duplicate : bool then
       found <- lift (search_duplicate error_msg) ;;
       match found with
       | Some group1 =>
           raise (XUIClientError (duplicate_email_message (PyStr.strip group1)))
       | None => ret tt
       end
     else ret tt) ;;;
    raise (XUIClientError ("Failed to create client: " ++ py_str error_msg)).

Definition create_client (email uuid : string) (inbound_id : Z) (enable : bool) : M bool :=
  existing_client <- find_client_in_all_inbounds email ;;
  if Py.truthy existing_client then
    inbound_remark <- lift (Py.getitem existing_client "inbound_remark") ;;
    raise (XUIClientError (client_exists_message (py_str inbound_remark)))
  else add_client email uuid inbound_id enable.

Definition zero_traffic : value :=
  VDict [("up", VInt 0); ("down", VInt 0); ("total", VInt 0)].

Definition get_client_traffic (email : string) : M value :=
  result <- call "GET" ("/panel/api/inbounds/getClientTraffics/" ++ email) None ;;
  success <- lift (Py.get result "success" VNone) ;;
  data <- (if Py.truthy success then lift (Py.get result "obj" VNone) else ret success) ;;
  if Py.truthy data then
    obj <- lift (Py.getitem result "obj") ;;
    up <- lift (Py.get obj "up" (VInt 0)) ;;
    down <- lift (Py.get obj "down" (VInt 0)) ;;
    total <- lift (Py.add up down) ;;
    ret (VDict [("up", up); ("down", down); ("total", total)])
  else ret zero_traffic.

Definition delete_client (uuid inbound_id : value) : M bool :=
  result <- call "POST"
              ("/panel/api/inbounds/" ++ py_str inbound_id ++ "/delClient/" ++ py_str uuid)
              (Some (VDict [])) ;;
  success <- lift (Py.get result "success" VNone) ;;
  if Py.truthy success then ret true
  else
    msg <- lift (Py.get result "msg" (VStr "Unknown error")) ;;
    raise (XUIClientError ("Failed to delete client: " ++ py_str msg)).

Definition delete_client_from_all_inbounds (email : string) : M bool :=
  client_info <- find_client_in_all_inbounds email ;;
  if negb (Py.truthy client_info) then ret false
  else
    inbound_id <- lift (Py.getitem client_info "inbound_id") ;;
    client <- lift (Py.getitem client_info "client") ;;
    uuid <- lift (Py.get client "id" VNone) ;;
    catch (delete_client uuid inbound_id ;;; ret true) (fun _ => ret false).

(** *** The link builders *)

(** The server address, computed by the same three lines in each builder
    (481-484, 581-583 and 629-631). *)
Definition server_address (inbound : value) : result value :=
  (server <- Py.get inbound "listen" (VStr "0.0.0.0") ;;
   if Py.eq_str server "0.0.0.0" || Py.eq_str server EmptyString then
     Ok (VStr (PyStr.split_head ":"
                 (PyStr.replace "http://" EmptyString
                    (PyStr.replace "https://" EmptyString base_url))))
   else Ok server)%result.

Definition params : Type := list (string * value).

(** The [tls] and [reality] branches of [_build_vless_link]. *)
Definition vless_security_params (stream_settings security : value) (params0 : params)
    : result params :=
  (if Py.eq_str security "tls" then
     let params1 := Py.dict_set params0 "security" (VStr "tls") in
     tls_settings <- Py.get stream_settings "tlsSettings" (VDict []) ;;
     sni <- Py.get tls_settings "serverName" (VStr EmptyString) ;;
     let params2 := if Py.truthy sni then Py.dict_set params1 "sni" sni else params1 in
     alpn <- Py.get tls_settings "alpn" (VList []) ;;
     if Py.truthy alpn then
       joined <- Py.join "," alpn ;;
       Ok (Py.dict_set params2 "alpn" (VStr joined))
     else Ok params2
   else if Py.eq_str security "reality" then
     let params1 := Py.dict_set params0 "security" (VStr "reality") in
     reality_settings <- Py.get stream_settings "realitySettings" (VDict []) ;;
     pbk <- Py.get reality_settings "publicKey" (VStr EmptyString) ;;
     let params2 := if Py.truthy pbk then Py.dict_set params1 "pbk" pbk else params1 in
     fp <- Py.get reality_settings "fingerprint" (VStr EmptyString) ;;
     let params3 := if Py.truthy fp then Py.dict_set params2 "fp" fp else params2 in
     server_names <- Py.get reality_settings "serverNames" (VList []) ;;
     params4 <- (if Py.truthy server_names then
                   first <- Py.item0 server_names ;;
                   Ok (Py.dict_set params3 "sni" first)
                 else Ok params3) ;;
     short_ids <- Py.get reality_settings "shortIds" (VList []) ;;
     params5 <- (if Py.truthy short_ids then
                   first <- Py.item0 short_ids ;;
                   Ok (Py.dict_set params4 "sid" first)
                 else Ok params4) ;;
     spider_x <- Py.get reality_settings "spiderX" (VStr EmptyString) ;;
     if Py.truthy spider_x then
       quoted <- Urllib.quote_value "/" spider_x ;;
       Ok (Py.dict_set params5 "spx" (VStr quoted))
     else Ok params5
   else Ok params0)%result.

(** The [ws], [grpc] and [tcp] branches of [_build_vless_link]. *)
Definition vless_network_params (stream_settings network : value) (params0 : params)
    : result params :=
  (if Py.eq_str network "ws" then
     ws_settings <- Py.get stream_settings "wsSettings" (VDict []) ;;
     path <- Py.get ws_settings "path" (VStr "/") ;;
     quoted <- Urllib.quote_value "/" path ;;
     let params1 := Py.dict_set params0 "path" (VStr quoted) in
     headers <- Py.get ws_settings "headers" (VDict []) ;;
     host <- Py.get headers "Host" (VStr EmptyString) ;;
     Ok (if Py.truthy host then Py.dict_set params1 "host" host else params1)
   else if Py.eq_str network "grpc" then
     grpc_settings <- Py.get stream_settings "grpcSettings" (VDict []) ;;
     service_name <- Py.get grpc_settings "serviceName" (VStr EmptyString) ;;
     Ok (if Py.truthy service_name then Py.dict_set params0 "serviceName" service_name
         else params0)
   else if Py.eq_str network "tcp" then
     tcp_settings <- Py.get stream_settings "tcpSettings" (VDict []) ;;
     header <- Py.get tcp_settings "header" (VDict []) ;;
     header_type <- Py.get header "type" (VStr "none") ;;
     Ok (if negb (Py.eq_str header_type "none") then Py.dict_set params0 "headerType" header_type
         else params0)
   else Ok params0)%result.

(** The query parameters of a vless link, in the order they are set. *)
Definition vless_params (flow stream_settings network security : value) : result params :=
  (let params0 := [("type", network); ("encryption", VStr "none")] in
   params1 <- vless_security_params stream_settings security params0 ;;
   let params2 := if Py.truthy flow then Py.dict_set params1 "flow" flow else params1 in
   vless_network_params stream_settings network params2)%result.

Definition _build_vless_link (client inbound stream_settings port network security : value)
    : result string :=
  (uuid <- Py.get client "id" VNone ;;
   email <- Py.get client "email" (VStr EmptyString) ;;
   flow <- Py.get client "flow" (VStr EmptyString) ;;
   server <- server_address inbound ;;
   query <- vless_params flow stream_settings network security ;;
   let query_string := Urllib.urlencode query "/:," in
   fragment <- Urllib.quote_value "/" email ;;
   Ok ("vless://" ++ py_str uuid ++ "@" ++ py_str server ++ ":" ++ py_str port ++
       "?" ++ query_string ++ "#" ++ fragment))%result.

(** The object a vmess link encodes. *)
Definition vmess_config (client inbound stream_settings port network security : value)
    : result value :=
  (uuid <- Py.get client "id" VNone ;;
   email <- Py.get client "email" (VStr EmptyString) ;;
   server <- server_address inbound ;;
   let config :=
     [("v", VStr "2"); ("ps", email); ("add", server); ("port", VStr (py_str port));
      ("id", uuid); ("aid", VStr "0"); ("net", network); ("type", VStr "none");
      ("host", VStr EmptyString); ("path", VStr EmptyString);
      ("tls", if Py.eq_str security "tls" then security else VStr EmptyString)] in
   if Py.eq_str network "ws" then
     ws_settings <- Py.get stream_settings "wsSettings" (VDict []) ;;
     path <- Py.get ws_settings "path" (VStr "/") ;;
     let config1 := Py.dict_set config "path" path in
     headers <- Py.get ws_settings "headers" (VDict []) ;;
     host <- Py.get headers "Host" (VStr EmptyString) ;;
     Ok (VDict (Py.dict_set config1 "host" host))
   else Ok (VDict config))%result.

Definition _build_vmess_link (client inbound stream_settings port network security : value)
    : result string :=
  (config <- vmess_config client inbound stream_settings port network security ;;
   let vmess_json := Json.dumps config in
   let vmess_base64 := Base64.b64encode vmess_json in
   Ok ("vmess://" ++ vmess_base64))%result.

Definition _build_trojan_link (client inbound stream_settings port network security : value)
    : result string :=
  (password <- Py.get client "password" (VStr EmptyString) ;;
   email <- Py.get client "email" (VStr EmptyString) ;;
   server <- server_address inbound ;;
   let params0 := [("type", network); ("security", security)] in
   params1 <- (if Py.eq_str security "tls" then
                 tls_settings <- Py.get stream_settings "tlsSettings" (VDict []) ;;
                 sni <- Py.get tls_settings "serverName" (VStr EmptyString) ;;
                 Ok (if Py.truthy sni then Py.dict_set params0 "sni" sni else params0)
               else Ok params0) ;;
   let query_string := Urllib.urlencode params1 EmptyString in
   fragment <- Urllib.quote_value "/" email ;;
   Ok ("trojan://" ++ py_str password ++ "@" ++ py_str server ++ ":" ++ py_str port ++
       "?" ++ query_string ++ "#" ++ fragment))%result.

(** The body of the [try] in [get_client_link], once the inbound has been
    fetched. *)
Definition link_of_inbound (inbound_data : value) (email : string) : result (option string) :=
  (success <- Py.get inbound_data "success" VNone ;;
   if negb (Py.truthy success) then Ok None
   else
     obj <- Py.get inbound_data "obj" VNone ;;
     if negb (Py.truthy obj) then Ok None
     else
       settings_str <- Py.get obj "settings" (VStr "{}") ;;
       settings_dict <- py_json_loads settings_str ;;
       clients <- Py.get settings_dict "clients" (VList []) ;;
       items <- Py.iter clients ;;
       found <- first_client_with_email email items ;;
       let target_client := match found with Some client => client | None => VNone end in
       if negb (Py.truthy target_client) then Ok None
       else
         tag <- Py.get obj "protocol" (VStr EmptyString) ;;
         protocol <- Py.lower tag ;;
         port <- Py.get obj "port" VNone ;;
         stream_settings_str <- Py.get obj "streamSettings" (VStr "{}") ;;
         stream_settings <- (match stream_settings_str with
                             | VStr _ => py_json_loads stream_settings_str
                             | _ => Ok stream_settings_str
                             end) ;;
         network <- Py.get stream_settings "network" (VStr "tcp") ;;
         security <- Py.get stream_settings "security" (VStr "none") ;;
         if String.eqb protocol "vless" then
           link <- _build_vless_link target_client obj stream_settings port network security ;;
           Ok (Some link)
         else if String.eqb protocol "vmess" then
           link <- _build_vmess_link target_client obj stream_settings port network security ;;
           Ok (Some link)
         else if String.eqb protocol "trojan" then
           link <- _build_trojan_link target_client obj stream_settings port network security ;;
           Ok (Some link)
         else Ok None)%result.

Definition get_client_link (inbound_id : Z) (email : string) : M (option string) :=
  catch
    (inbound_data <- get_inbound inbound_id ;;
     lift (link_of_inbound inbound_data email))
    (fun _ => ret None).

End XUIClient.

(** ** A runtime for worked examples

    A decoder for the JSON documents the examples use (no fractions, no
    exponents, no [\u] escapes in strings), and [repr] for lists and
    dicts of such values.  The properties below are proved for every
    [Runtime]; this one serves to run the client on concrete panels. *)

Module Fragment.

Definition is_ws (c : ascii) : bool :=
  let n := nat_of_ascii c in
  (Nat.eqb n 32 || Nat.eqb n 9 || Nat.eqb n 10 || Nat.eqb n 13)%bool.

Fixpoint skip_ws (s : string) : string :=
  match s with
  | String c s' => if is_ws c then skip_ws s' else s
  | EmptyString => s
  end.

Definition is_digit (c : ascii) : bool :=
  let n := nat_of_ascii c in (Nat.leb 48 n && Nat.leb n 57)%bool.

Fixpoint digits (s : string) (acc : Z) : Z * string :=
  match s with
  | String c s' =>
      if is_digit c then digits s' (acc * 10 + Z.of_nat (nat_of_ascii c - 48)) else (acc, s)
  | EmptyString => (acc, s)
  end.

Definition starts_fraction (s : string) : bool :=
  match s with
  | String c _ => (Ascii.eqb c "." || Ascii.eqb c "e" || Ascii.eqb c "E")%bool
  | EmptyString => false
  end.

Definition number (s : string) : option (value * string) :=
  let '(negative, s1) :=
    match s with
    | String "-" s' => (true, s')
    | _ => (false, s)
    end in
  match s1 with
  | String c s2 =>
      if is_digit c then
        let '(n, rest) := if Ascii.eqb c "0" then (0, s2) else digits s1 0 in
        if starts_fraction rest then None
        else Some (VInt (if negative : bool then - n else n), rest)
      else None
  | EmptyString => None
  end.

Definition unescape (c : ascii) : option ascii :=
  let n := nat_of_ascii c in
  if (Nat.eqb n 34 || Nat.eqb n 92 || Nat.eqb n 47)%bool then Some c
  else if Ascii.eqb c "b" then Some (ascii_of_nat 8)
  else if Ascii.eqb c "f" then Some (ascii_of_nat 12)
  else if Ascii.eqb c "n" then Some (ascii_of_nat 10)
  else if Ascii.eqb c "r" then Some (ascii_of_nat 13)
  else if Ascii.eqb c "t" then Some (ascii_of_nat 9)
  else None.

Definition push (c : ascii) (r : option (string * string)) : option (string * string) :=
  match r with
  | Some (s, rest) => Some (String c s, rest)
  | None => None
  end.

(** The text of a string literal after its opening quote, and what
    follows the closing one. *)
Fixpoint string_body (s : string) : option (string * string) :=
  match s with
  | EmptyString => None
  | String c s' =>
      let n := nat_of_ascii c in
      if Nat.eqb n 34 then Some (EmptyString, s')
      else if Nat.eqb n 92 then
        match s' with
        | String e s'' =>
            match unescape e with
            | Some u => push u (string_body s'')
            | None => None
            end
        | EmptyString => None
        end
      else if Nat.ltb n 32 then None
      else push c (string_body s')
  end.

Definition parser : Type := string -> option (value * string).

(** The elements of an array after the first bracket, [s] at an element. *)
Fixpoint elements (element : parser) (fuel : nat) (s : string) (acc : list value)
    : option (value * string) :=
  match fuel with
  | O => None
  | S fuel' =>
      match element s with
      | Some (v, rest) =>
          match skip_ws rest with
          | String "," rest' => elements element fuel' rest' (v :: acc)
          | String "]" rest' => Some (VList (rev (v :: acc)), rest')
          | _ => None
          end
      | None => None
      end
  end.

(** The members of an object after the brace, [s] at a key.  A repeated
    key keeps its place and takes the later value. *)
Fixpoint members (element : parser) (fuel : nat) (s : string) (acc : list (string * value))
    : option (value * string) :=
  match fuel with
  | O => None
  | S fuel' =>
      match skip_ws s with
      | String q s1 =>
          if Nat.eqb (nat_of_ascii q) 34 then
            match string_body s1 with
            | Some (k, s2) =>
                match skip_ws s2 with
                | String ":" s3 =>
                    match element s3 with
                    | Some (v, rest) =>
                        match skip_ws rest with
                        | String "," rest' => members element fuel' rest' (Py.dict_set acc k v)
                        | String "}" rest' => Some (VDict (Py.dict_set acc k v), rest')
                        | _ => None
                        end
                    | None => None
                    end
                | _ => None
                end
            | None => None
            end
          else None
      | EmptyString => None
      end
  end.

Fixpoint element (fuel : nat) (s : string) : option (value * string) :=
  match fuel with
  | O => None
  | S fuel' =>
      match skip_ws s with
      | EmptyString => None
      | String c rest as s0 =>
          if Nat.eqb (nat_of_ascii c) 34 then
            match string_body rest with
            | Some (t, rest') => Some (VStr t, rest')
            | None => None
            end
          else if Ascii.eqb c "[" then
            match skip_ws rest with
            | String "]" rest' => Some (VList [], rest')
            | _ => elements (element fuel') (String.length rest) rest []
            end
          else if Ascii.eqb c "{" then
            match skip_ws rest with
            | String "}" rest' => Some (VDict [], rest')
            | _ => members (element fuel') (String.length rest) rest []
            end
          else if PyStr.startswith "null" s0 then Some (VNone, PyStr.drop 4 s0)
          else if PyStr.startswith "true" s0 then Some (VBool true, PyStr.drop 4 s0)
          else if PyStr.startswith "false" s0 then Some (VBool false, PyStr.drop 5 s0)
          else number s0
      end
  end.

Definition loads (s : string) : string + value :=
  match element (S (String.length s)) s with
  | Some (v, rest) =>
      match skip_ws rest with
      | EmptyString => inr v
      | _ => inl "Extra data"
      end
  | None => inl "Expecting value"
  end.

Definition repr_char (quote_mark c : ascii) : string :=
  let n := nat_of_ascii c in
  if Nat.eqb n 92 then PyStr.backslash ++ PyStr.backslash
  else if Ascii.eqb c quote_mark then PyStr.backslash ++ String c EmptyString
  else if Nat.eqb n 10 then PyStr.backslash ++ "n"
  else if Nat.eqb n 13 then PyStr.backslash ++ "r"
  else if Nat.eqb n 9 then PyStr.backslash ++ "t"
  else if (Nat.ltb n 32 || Nat.eqb n 127)%bool then
    PyStr.backslash ++ "x" ++ Hex.digit Hex.lower_digits (N.of_nat n / 16)
                    ++ Hex.digit Hex.lower_digits (N.of_nat n mod 16)
  else String c EmptyString.

Definition repr_str (s : string) : string :=
  let quote_mark :=
    if (PyStr.contains "'" s && negb (PyStr.contains PyStr.dquote s))%bool
    then ascii_of_nat 34 else "'"%char in
  String quote_mark
    (String.concat EmptyString (map (repr_char quote_mark) (list_ascii_of_string s))
     ++ String quote_mark EmptyString).

Fixpoint repr (v : value) : string :=
  match v with
  | VNone => "None"
  | VBool true => "True"
  | VBool false => "False"
  | VInt n => PyStr.of_int n
  | VStr s => repr_str s
  | VList l => "[" ++ PyStr.join ", " (map repr l) ++ "]"
  | VDict d => "{" ++ PyStr.join ", " (map (fun '(k, x) => repr_str k ++ ": " ++ repr x) d) ++ "}"
  end.

Definition runtime : Runtime := {| json_loads := loads; py_repr := repr |}.

End Fragment.

(** ** The vocabulary of the specification

    What the specification calls a well-formed listing, a malformed
    settings blob, an inbound that contains a label, and so on, read off
    the decoded documents without running the client. *)

Section Vocabulary.

Context `{RT : Runtime}.

Definition is_dict (v : value) : bool :=
  match v with
  | VDict _ => true
  | _ => false
  end.

(** The client entry carries this email label. *)
Definition has_email (email : string) (client : value) : bool :=
  match client with
  | VDict d => Py.eq_str (Py.dict_get d "email" VNone) email
  | _ => false
  end.

(** The settings blob of an inbound, [{}] when it has none. *)
Definition settings_text (inbound : value) : option string :=
  match inbound with
  | VDict d =>
      match Py.dict_get d "settings" (VStr "{}") with
      | VStr s => Some s
      | _ => None
      end
  | _ => None
  end.

(** The settings blob fails to decode as JSON. *)
Definition malformed_settings (inbound : value) : bool :=
  match settings_text inbound with
  | Some s => match json_loads s with
              | inl _ => true
              | inr _ => false
              end
  | None => false
  end.

(** The decoded client list of a well-formed inbound: its settings
    decode to an object whose [clients], if any, is a list of objects. *)
Definition decoded_clients (inbound : value) : option (list value) :=
  match settings_text inbound with
  | Some s =>
      match json_loads s with
      | inr (VDict sd) =>
          match Py.dict_get sd "clients" (VList []) with
          | VList cs => if forallb is_dict cs then Some cs else None
          | _ => None
          end
      | _ => None
      end
  | None => None
  end.

Definition well_formed_inbound (inbound : value) : bool :=
  match decoded_clients inbound with
  | Some _ => true
  | None => false
  end.

(** The inbound's decoded client list contains the label. *)
Definition lists_email (email : string) (inbound : value) : bool :=
  match decoded_clients inbound with
  | Some cs => existsb (has_email email) cs
  | None => false
  end.

(** The match reported for a client found in an inbound. *)
Definition found_info (inbound client : value) : value :=
  match inbound with
  | VDict d =>
      VDict [("inbound_id", Py.dict_get d "id" VNone);
             ("inbound_remark", Py.dict_get d "remark" (VStr "Unknown"));
             ("client", client)]
  | _ => VNone
  end.

(** The envelope of a response: its success flag and its object. *)
Definition success_flag (envelope : value) : bool :=
  match envelope with
  | VDict d => Py.truthy (Py.dict_get d "success" VNone)
  | _ => false
  end.

Definition envelope_object (envelope : value) : value :=
  match envelope with
  | VDict d => Py.dict_get d "obj" VNone
  | _ => VNone
  end.

(** The clients listed in the settings of a fetched inbound, as far as
    they can be read. *)
Definition listed_clients (obj : value) : list value :=
  match settings_text obj with
  | Some s =>
      match json_loads s with
      | inr (VDict sd) =>
          match Py.iter (Py.dict_get sd "clients" (VList [])) with
          | Ok cs => cs
          | Raise _ => []
          end
      | _ => []
      end
  | None => []
  end.

(** The protocol of a fetched inbound: its tag in lower case. *)
Definition protocol_of (obj : value) : string :=
  match obj with
  | VDict d =>
      match Py.dict_get d "protocol" (VStr EmptyString) with
      | VStr tag => PyStr.lower tag
      | _ => EmptyString
      end
  | _ => EmptyString
  end.

Definition supported_protocol (p : string) : bool :=
  (String.eqb p "vless" || String.eqb p "vmess" || String.eqb p "trojan")%bool.

(** The host portion of an address [scheme://host:port/path]: what
    follows the scheme, up to the first colon, slash, question mark or
    hash. *)
Definition ends_host (c : ascii) : bool :=
  (Ascii.eqb c ":" || Ascii.eqb c "/" || Ascii.eqb c "?" || Ascii.eqb c "#")%bool.

Fixpoint until_delimiter (s : string) : string :=
  match s with
  | EmptyString => EmptyString
  | String c s' => if ends_host c then EmptyString else String c (until_delimiter s')
  end.

Definition port_digit (c : ascii) : bool :=
  let n := nat_of_ascii c in (Nat.leb 48 n && Nat.leb n 57)%bool.

Definition host_portion (address : string) : string :=
  until_delimiter
    (if PyStr.startswith "https://" address then PyStr.drop 8 address
     else if PyStr.startswith "http://" address then PyStr.drop 7 address
     else address).

End Vocabulary.

(** ** Panels and settings for worked examples *)

Module Example.

(** A panel that answers the n-th request it receives with the n-th
    outcome of a script, and fails to connect once the script is over. *)
Definition scripted (script : list outcome) : transport :=
  fun history _ =>
    nth (List.length history) script (Failed ConnectError "ConnectError" "All connection attempts failed").

Definition answers (status : Z) (doc : value) : outcome :=
  Responded {| status_code := status; cookies := []; text := Json.dumps doc |}.

Definition session_expired : outcome :=
  Responded {| status_code := 401; cookies := []; text := EmptyString |}.

Definition logged_in : outcome :=
  Responded {| status_code := 200; cookies := [("3x-ui", "s3cr3t")];
               text := Json.dumps (VDict [("success", VBool true)]) |}.

Definition login_refused : outcome :=
  Responded {| status_code := 200; cookies := [];
               text := Json.dumps (VDict [("success", VBool false);
                                         ("msg", VStr "Invalid username or password.")]) |}.

Definition settings : Settings :=
  {| XUI_BASE_URL := "https://panel.example.com:2053/";
     XUI_USERNAME := "admin";
     XUI_PASSWORD := "hunter2" |}.

(** A panel reached through a reverse proxy: no port, a path. *)
Definition proxied_settings : Settings :=
  {| XUI_BASE_URL := "https://vpn.example.com/panel";
     XUI_USERNAME := "admin";
     XUI_PASSWORD := "hunter2" |}.

(** A client inside [async with XUIClient()], after a first login. *)
Definition ready : state :=
  {| session_cookie := Some "3x-ui=0ld"; http_client := true; sent := [] |}.

Definition envelope (obj : value) : value :=
  VDict [("success", VBool true); ("msg", VStr EmptyString); ("obj", obj)].

Definition failure (msg : string) : value :=
  VDict [("success", VBool false); ("msg", VStr msg); ("obj", VNone)].

Definition client_entry (email uuid : string) : value :=
  VDict [("id", VStr uuid); ("email", VStr email); ("enable", VBool true);
         ("flow", VStr EmptyString)].

Definition inbound_entry (id : Z) (remark protocol : string) (settings_blob : string) : value :=
  VDict [("id", VInt id); ("remark", VStr remark); ("protocol", VStr protocol);
         ("port", VInt 443); ("listen", VStr EmptyString); ("settings", VStr settings_blob);
         ("streamSettings",
          VStr (Json.dumps (VDict [("network", VStr "tcp"); ("security", VStr "none")])))].

Definition clients_blob (clients : list value) : string :=
  Json.dumps (VDict [("clients", VList clients)]).

(** Two inbounds: [main] holds alice and bob, [backup] holds carol. *)
Definition main_inbound : value :=
  inbound_entry 1 "main" "vless"
    (clients_blob [client_entry "alice" "11111111-aaaa"; client_entry "bob" "22222222-bbbb"]).

Definition backup_inbound : value :=
  inbound_entry 2 "backup" "vmess" (clients_blob [client_entry "carol" "33333333-cccc"]).

(** An inbound whose settings blob is cut short. *)
Definition broken_inbound : value :=
  inbound_entry 3 "broken" "vless" "{not json".

(** The listing of the given inbounds. *)
Definition listing (inbounds : list value) : outcome :=
  answers 200 (envelope (VList inbounds)).

(** A REALITY transport with one server name and one short id. *)
Definition reality_key : string := "qpo0PCKZtjw4yRmo1bYg5BUWGyL1cfYzIr8yoWxq3TM".

Definition reality_settings : list (string * value) :=
  [("publicKey", VStr reality_key); ("fingerprint", VStr "chrome");
   ("serverNames", VList [VStr "example.com"]); ("shortIds", VList [VStr "ab"]);
   ("spiderX", VStr "/")].

Definition reality_stream : list (string * value) :=
  [("network", VStr "tcp"); ("security", VStr "reality");
   ("realitySettings", VDict reality_settings)].

(** A websocket transport under TLS. *)
Definition ws_headers : list (string * value) := [("Host", VStr "h.example")].

Definition ws_settings : list (string * value) :=
  [("path", VStr "/foo"); ("headers", VDict ws_headers)].

Definition ws_stream : list (string * value) :=
  [("network", VStr "ws"); ("security", VStr "tls"); ("wsSettings", VDict ws_settings)].

Definition alice : value := client_entry "alice" "11111111-aaaa".

Definition trojan_client : value :=
  VDict [("password", VStr "s3same"); ("email", VStr "dave")].

End Example.

(** ** [update_client_status], and the client in the handlers of the bot *)

Section Callers.

Context `{RT : Runtime}.
Variable settings : Settings.
Variable panel : transport.

Local Open Scope client_scope.

(** [obj[k] = v] for a string key: only a [dict] takes it. *)
Definition setitem (obj : value) (k : string) (v : value) : result value :=
  match obj with
  | VDict d => Ok (VDict (Py.dict_set d k v))
  | _ => Raise TypeError
  end.

(** The loop of [update_client_status]: the first client with that email
    or that id, once its [enable] is written; [None] when the loop ends
    with [client_found] still false. *)
Fixpoint first_match_enabled (email uuid : string) (enable : bool) (clients : list value)
    : result (option value) :=
  match clients with
  | [] => Ok None
  | client :: rest =>
      (e <- Py.get client "email" VNone ;;
       matched <- (if Py.eq_str e email then Ok true
                   else i <- Py.get client "id" VNone ;; Ok (Py.eq_str i uuid)) ;;
       if matched : bool then
         updated <- setitem client "enable" (VBool enable) ;;
         Ok (Some updated)
       else first_match_enabled email uuid enable rest)%result
  end.

Definition update_client_endpoint (uuid : string) : string :=
  "/panel/api/inbounds/updateClient/" ++ uuid.

Definition status_data (uuid : string) (inbound_id : Z) (enable : bool) : value :=
  VDict [("id", VStr uuid); ("inboundId", VInt inbound_id); ("enable", VBool enable)].

(** [update_client_status] once the client is found: the request to the
    update endpoint and the reading of its answer. *)
Definition push_client_status (uuid : string) (inbound_id : Z) (enable : bool) : M bool :=
  result <- call settings panel "POST" (update_client_endpoint uuid)
              (Some (status_data uuid inbound_id enable)) ;;
  success <- lift (Py.get result "success" VNone) ;;
  if Py.truthy success then ret true
  else
    msg <- lift (Py.get result "msg" (VStr "Unknown error")) ;;
    raise (XUIClientError ("Failed to update client: " ++ py_str msg)).

(** The client written in the decoded settings stays local to the call:
    the request carries [status_data] only. *)
Definition update_client_status (email uuid : string) (inbound_id : Z) (enable : bool)
    : M bool :=
  inbound_data <- get_inbound settings panel inbound_id ;;
  success <- lift (Py.get inbound_data "success" VNone) ;;
  if negb (Py.truthy success) then
    raise (XUIClientError "Failed to get inbound configuration")
  else
    obj <- lift (Py.get inbound_data "obj" VNone) ;;
    settings_str <- lift (Py.get obj "settings" (VStr "{}")) ;;
    settings_dict <- lift (py_json_loads settings_str) ;;
    clients <- lift (Py.get settings_dict "clients" (VList [])) ;;
    items <- lift (Py.iter clients) ;;
    found <- lift (first_match_enabled email uuid enable items) ;;
    match found with
    | Some _ => push_client_status uuid inbound_id enable
    | None => raise (XUIClientError ("Client not found: " ++ email))
    end.

(** [async with XUIClient() as xui: body], as every handler uses the
    client: a new object, [__aenter__], the body.  [__aexit__] closes
    the HTTP client and returns [None], so what the body raises reaches
    the handler; when [__aenter__] raises, the body is not run. *)
Definition with_client {A : Type} (body : M A) : result A * state :=
  (aenter settings panel ;;; body) init.

(** [utils.formatters.format_traffic_gb] and
    [utils.qr_generator.generate_vless_link] (called with the server,
    port and SNI of the settings): any functions that return text or
    raise. *)
Variable format_traffic_gb : value -> result string.
Variable generate_vless_link : string -> string -> result string.

(** The traffic line of [show_user_info] ([handlers/admin.py]) and of
    [show_profile] ([handlers/user.py]): the [try] around the traffic
    call and its [except Exception]. *)
Definition traffic_text (email : string) : string :=
  match
    with_client
      (traffic <- get_client_traffic settings panel email ;;
       total <- lift (Py.getitem traffic "total") ;;
       lift (format_traffic_gb total))
  with
  | (Ok formatted, _) => formatted
  | (Raise _, _) => "Недоступно"
  end.

(** The link [show_connection] ([handlers/user.py]) sends, for a user
    whose [inbound_id] column is [None] or a number: the link of the
    panel, or the one generated locally when there is none.  What is
    raised here is answered with the error message of the handler. *)
Definition connection_link (inbound_id : option Z) (uuid email : string) : result string :=
  (connection_link <-
     match inbound_id with
     | Some id =>
         if id =? 0 then Ok None
         else fst (with_client (get_client_link settings panel id email))
     | None => Ok None
     end ;;
   match connection_link with
   | Some link =>
       if String.eqb link EmptyString then generate_vless_link uuid email else Ok link
   | None => generate_vless_link uuid email
   end)%result.

End Callers.

(** The client entry carries this id, and: it is the one
    [update_client_status] looks for. *)
Definition has_id (uuid : string) (client : value) : bool :=
  match client with
  | VDict d => Py.eq_str (Py.dict_get d "id" VNone) uuid
  | _ => false
  end.

Definition email_or_id (email uuid : string) (client : value) : bool :=
  has_email email client || has_id uuid client.

(** A request that changes nothing on the panel: the login, or a GET of
    the endpoint. *)
Definition reads (settings : Settings) (endpoint : string) (r : request) : Prop :=
  r = login_request settings
  \/ (req_method r = "GET" /\ req_url r = base_url settings ++ endpoint /\ req_body r = NoBody).

(** The cookie header value [login] builds from the cookies of a
    response. *)
Definition cookie_of (r : response) : string :=
  PyStr.join "; " (map (fun '(name, v) => name ++ "=" ++ v) (cookies r)).

(** The login is accepted: status 200 and at least one cookie. *)
Definition accepted (o : outcome) : bool :=
  match o with
  | Responded r => (status_code r =? 200) && match cookies r with [] => false | _ => true end
  | Failed _ _ _ => false
  end.

(** Between two states of the client only such requests went out. *)
Definition only_reads (settings : Settings) (endpoint : string) (before after : state) : Prop :=
  exists new : list request,
    sent after = (sent before ++ new)%list /\ Forall (reads settings endpoint) new.

(** [s[:n]]: the first [n] characters. *)
Definition slice_to (n : nat) (s : string) : string :=
  String.concat EmptyString (firstn n (PyStr.chars s)).

Definition duplicate_alert (user_email : string) : string :=
  "❌ Клиент с email '" ++ user_email ++ "' уже существует в 3x-ui."
  ++ String PyStr.newline "Удалите его из панели или используйте другой инбаунд.".

Definition creation_error_alert (error_msg : string) : string :=
  "❌ Ошибка при создании клиента в 3x-ui:" ++ String PyStr.newline (slice_to 100 error_msg).

(** The alert [approve_request] ([handlers/admin.py]) answers with when
    [create_client] raises an [XUIClientError] with this message.  The
    case mapping of the ASCII letters decides the test in lower case:
    the only characters outside ASCII whose lower case holds an ASCII
    letter are U+0130, which gives an [i] followed by a combining dot,
    and the Kelvin sign, which gives a [k]; the word has no [k], and its
    [i] is followed by a [c]. *)
Definition approval_error_alert (user_email error_msg : string) : string :=
  if PyStr.contains "Duplicate email" error_msg
     || PyStr.contains "duplicate" (PyStr.lower error_msg)
  then duplicate_alert user_email
  else creation_error_alert error_msg.

Module Example2.

(** A TLS transport that names its server and two ALPN protocols. *)
Definition tls_settings : list (string * value) :=
  [("serverName", VStr "vpn.example.com"); ("alpn", VList [VStr "h2"; VStr "http/1.1"])].

Definition tls_stream : list (string * value) :=
  [("network", VStr "tcp"); ("security", VStr "tls"); ("tlsSettings", VDict tls_settings)].

(** A websocket transport whose path has a space. *)
Definition spaced_ws_settings : list (string * value) := [("path", VStr "/a b")].

Definition spaced_ws_stream : list (string * value) :=
  [("network", VStr "ws"); ("security", VStr "none"); ("wsSettings", VDict spaced_ws_settings)].

End Example2.

(** ** Text of links

    What the specification says of a link is said of its text: the
    parameters of a query are the pieces between [&], a JSON object is
    its members between braces.  These are written with the functions of
    the standard library only. *)

(** The characters a URL keeps as they are: the ASCII letters, the
    digits and [_.-~]. *)
Definition unreserved (c : ascii) : bool :=
  let n := nat_of_ascii c in
  (Nat.leb 65 n && Nat.leb n 90) || (Nat.leb 97 n && Nat.leb n 122)
  || (Nat.leb 48 n && Nat.leb n 57)
  || Nat.eqb n 95 || Nat.eqb n 46 || Nat.eqb n 45 || Nat.eqb n 126.

(** Those and the slash, which a path keeps; those and [/:,], which the
    query of a vless link keeps. *)
Definition path_safe (c : ascii) : bool := unreserved c || Ascii.eqb c "/".

Definition query_safe (c : ascii) : bool :=
  path_safe c || Ascii.eqb c ":" || Ascii.eqb c ",".

(** The parameter [part] of a query has this name. *)
Definition named (name part : string) : bool := String.prefix (name ++ "=") part.

(** The names of the parameters a vless link can carry. *)
Definition vless_keys : list string :=
  ["type"; "encryption"; "security"; "sni"; "alpn"; "pbk"; "fp"; "sid"; "spx"; "flow";
   "path"; "host"; "serviceName"; "headerType"].

(** A JSON string of plain text, and a member of a JSON object. *)
Definition quoted (s : string) : string := PyStr.dquote ++ s ++ PyStr.dquote.



(** The characters of a parameter of a query: those the encoding keeps,
    [%] of an escape, [+] for a space and [=] between name and value.
    None of them is [&], [#] or [?]. *)
Definition part_char (c : ascii) : bool :=
  query_safe c || Ascii.eqb c "%" || Ascii.eqb c "+" || Ascii.eqb c "=".

Definition parameter (part : string) : bool := PyStr.all part_char part.

(** [s.isascii()]: every byte of the text is an ASCII character. *)
Definition isascii (s : string) : bool :=
  PyStr.all (fun c => Nat.ltb (nat_of_ascii c) 128) s.

(** * Properties *)

(** ** The library functions on sample inputs

    Each line is the answer of the Python function on the same input. *)

Example replace_scheme :
  PyStr.replace "https://" EmptyString "https://panel.example.com:2053" = "panel.example.com:2053".
Proof. reflexivity. Qed.

Example split_head_port : PyStr.split_head ":" "panel.example.com:2053" = "panel.example.com".
Proof. reflexivity. Qed.

Example rstrip_slashes : PyStr.rstrip_char "/" "http://h:1//" = "http://h:1".
Proof. reflexivity. Qed.

Example strip_spaces : PyStr.strip (" a b" ++ PyStr.of_bytes [194; 160; 10]%nat) = "a b".
Proof. reflexivity. Qed.

Example lower_mixed : PyStr.lower "VLess-1" = "vless-1".
Proof. reflexivity. Qed.

Example of_int_negative : PyStr.of_int (-2053) = "-2053".
Proof. reflexivity. Qed.

Example quote_path : Urllib.quote "/" "/a b/%" = "/a%20b/%25".
Proof. reflexivity. Qed.

Example quote_two_bytes : Urllib.quote "/" (PyStr.of_bytes [195; 188]%nat) = "%C3%BC".
Proof. reflexivity. Qed.

Example urlencode_mixed :
  Urllib.urlencode (RT := Fragment.runtime)
    [("type", VStr "ws"); ("path", VStr "/a%20b"); ("x", VInt 5); ("y", VStr "a b+c,d:e")] "/:,"
  = "type=ws&path=/a%2520b&x=5&y=a+b%2Bc,d:e".
Proof. reflexivity. Qed.

Example b64encode_padding :
  Base64.b64encode "hello world!" = "aGVsbG8gd29ybGQh"
  /\ Base64.b64encode "hello world" = "aGVsbG8gd29ybGQ="
  /\ Base64.b64encode "hello worl" = "aGVsbG8gd29ybA==".
Proof. repeat split. Qed.

Example dumps_numbers : Json.dumps (VList [VInt 1; VInt (-5); VBool true; VNone]) = "[1, -5, true, null]".
Proof. reflexivity. Qed.

Example dumps_escapes :
  Json.dumps (VStr (PyStr.of_bytes [208; 154; 10; 127; 240; 159; 152; 128]%nat))
  = PyStr.dquote ++ "\u041a\n\u007f\ud83d\ude00" ++ PyStr.dquote.
Proof. reflexivity. Qed.

Example search_first_line :
  Re.search_duplicate_email ("Failed: Duplicate email: bob  " ++ PyStr.chr 10 ++ "more")
  = Some "bob  ".
Proof. reflexivity. Qed.

Example search_skips_empty_match :
  Re.search_duplicate_email ("Duplicate email: " ++ PyStr.chr 10 ++ "Duplicate email: x")
  = Some "x"
  /\ Re.search_duplicate_email "Duplicate email: " = None.
Proof. split; reflexivity. Qed.

(** ** Strings *)

Lemma append_cancel_l (p s t : string) : p ++ s = p ++ t -> s = t.
Proof.
  induction p as [|c p IH]; simpl; intros H.
  - exact H.
  - injection H as H. now apply IH.
Qed.

(** ** The session manager and the request executor *)

Section Executor.

Context `{RT : Runtime}.
Variable settings : Settings.
Variable panel : transport.

(** [login] sends its one request whatever the answer, and leaves
    [self.client] alone. *)
Lemma login_sent (st : state) :
  http_client st = true ->
  sent (snd (login settings panel st)) = (sent st ++ [login_request settings])%list
  /\ http_client (snd (login settings panel st)) = true.
Proof.
  intros Hc. unfold login, catch, login_attempt. rewrite Hc. simpl.
  unfold bind, send.
  destruct (panel (sent st) (login_request settings)) as [r | kind cls msg].
  - destruct (status_code r =? 200).
    + destruct (cookies r) as [|c cs]; simpl; auto.
    + simpl. auto.
  - destruct kind; simpl; auto.
Qed.

(** Whatever goes wrong inside [login] leaves it as an [XUIClientError]. *)
Lemma login_raises_xui (st : state) (e : exn) :
  fst (login settings panel st) = Raise e -> exists msg, e = XUIClientError msg.
Proof.
  unfold login, catch. destruct (login_attempt settings panel st) as [[b | e0] st'].
  - simpl. discriminate.
  - destruct e0 as [m | m | kind cls m | m | | | ];
      try destruct kind; simpl; intros H; injection H as <-; eauto.
Qed.

(** The body with the flag off: one request, then the reading of the
    response; no login. *)
Lemma attempt_once (st : state) (method endpoint : string) (data : option value)
    (req : request) :
  http_client st = true ->
  api_request settings st method endpoint data = Some req ->
  attempt settings panel None method endpoint data st =
    (match panel (sent st) req with
     | Responded r =>
         if status_code r >=? 400 then
           Raise (XUIClientError ("API request failed with status " ++ PyStr.of_int (status_code r)))
         else
           match json_loads (text r) with
           | inr doc => Ok doc
           | inl msg => Raise (XUIClientError ("Invalid JSON response: " ++ msg))
           end
     | Failed _ _ msg => Raise (XUIClientError ("Network error: " ++ msg))
     end,
     sending req st).
Proof.
  intros Hc Hreq. unfold attempt. rewrite Hc. simpl.
  unfold catch, bind. rewrite Hreq. unfold send.
  destruct (panel (sent st) req) as [r | kind cls msg]; [|reflexivity].
  destruct (status_code r =? 401); destruct (status_code r >=? 400); simpl; try reflexivity;
    unfold lift, response_json; destruct (json_loads (text r)); reflexivity.
Qed.

Lemma attempt_once_raises_xui (st : state) (method endpoint : string) (data : option value)
    (e : exn) :
  fst (attempt settings panel None method endpoint data st) = Raise e ->
  exists msg, e = XUIClientError msg.
Proof.
  unfold attempt. destruct (http_client st); simpl.
  2: { intros H; injection H as <-; eauto. }
  unfold catch, bind.
  destruct (api_request settings st method endpoint data) as [req|].
  2: { simpl. intros H; injection H as <-; eauto. }
  unfold send. destruct (panel (sent st) req) as [r | kind cls msg].
  2: { simpl. intros H; injection H as <-; eauto. }
  assert (Hs : forall b : bool,
             (if b then
                if status_code r >=? 400
                then raise (XUIClientError ("API request failed with status "
                                            ++ PyStr.of_int (status_code r)))
                else lift (response_json r)
              else
                if status_code r >=? 400
                then raise (XUIClientError ("API request failed with status "
                                            ++ PyStr.of_int (status_code r)))
                else lift (response_json r)) =
             (if status_code r >=? 400
              then raise (XUIClientError ("API request failed with status "
                                          ++ PyStr.of_int (status_code r)))
              else lift (response_json r) : M value))
    by (intros []; reflexivity).
  rewrite Hs. destruct (status_code r >=? 400); simpl.
  - intros H; injection H as <-; eauto.
  - unfold lift, response_json. destruct (json_loads (text r)); simpl.
    + intros H; injection H as <-; eauto.
    + discriminate.
Qed.

Lemma api_request_url (st : state) (method endpoint : string) (data : option value)
    (req : request) :
  api_request settings st method endpoint data = Some req ->
  req_url req = base_url settings ++ endpoint.
Proof.
  unfold api_request.
  destruct (String.eqb (PyStr.upper method) "GET");
    [|destruct (String.eqb (PyStr.upper method) "POST")];
    intros H; inversion H; reflexivity.
Qed.

(** Whether a request is issued depends on the method alone. *)
Lemma api_request_any_state (st st' : state) (method endpoint : string) (data : option value)
    (req : request) :
  api_request settings st method endpoint data = Some req ->
  exists req', api_request settings st' method endpoint data = Some req'.
Proof.
  unfold api_request.
  destruct (String.eqb (PyStr.upper method) "GET");
    [|destruct (String.eqb (PyStr.upper method) "POST")];
    intros H; inversion H; eauto.
Qed.

(** A call whose first response is a 401: the login, then, only if it
    succeeded, the body once more with the flag off. *)
Lemma make_request_expired (st : state) (method endpoint : string) (data : option value)
    (req1 : request) (r1 : response) :
  http_client st = true ->
  api_request settings st method endpoint data = Some req1 ->
  panel (sent st) req1 = Responded r1 ->
  status_code r1 = 401 ->
  _make_request settings panel method endpoint data true st =
    match login settings panel (sending req1 st) with
    | (Ok _, st2) => attempt settings panel None method endpoint data st2
    | (Raise e, st2) => (Raise e, st2)
    end.
Proof.
  intros Hc Hreq Hresp H401. unfold _make_request.
  unfold attempt at 1. rewrite Hc. simpl.
  unfold catch at 1. unfold bind at 1. rewrite Hreq.
  unfold send. rewrite Hresp. rewrite H401. simpl.
  unfold bind.
  pose proof (login_raises_xui (sending req1 st)) as Hl.
  destruct (login settings panel (sending req1 st)) as [[b | e] st2].
  - pose proof (attempt_once_raises_xui st2 method endpoint data) as Ha.
    destruct (attempt settings panel None method endpoint data st2) as [[v | e] st3].
    + reflexivity.
    + destruct (Ha e eq_refl) as [msg ->]. reflexivity.
  - destruct (Hl e eq_refl) as [msg ->]. reflexivity.
Qed.

(** A call whose first response is not a 401 is the body run once. *)
Lemma make_request_direct (st : state) (method endpoint : string) (data : option value)
    (req1 : request) :
  http_client st = true ->
  api_request settings st method endpoint data = Some req1 ->
  (forall r1, panel (sent st) req1 = Responded r1 -> status_code r1 <> 401) ->
  _make_request settings panel method endpoint data true st =
    attempt settings panel None method endpoint data st.
Proof.
  intros Hc Hreq Hresp. unfold _make_request, attempt. rewrite Hc. simpl.
  unfold catch, bind. rewrite Hreq. unfold send.
  destruct (panel (sent st) req1) as [r | kind cls msg]; [|reflexivity].
  specialize (Hresp r eq_refl).
  destruct (status_code r =? 401) eqn:E; [|reflexivity].
  apply Z.eqb_eq in E. contradiction.
Qed.

(** C1 (as amended).  A call made with the default
    [retry_on_auth_error=True] whose first response has status 401 makes
    exactly one login attempt.  When that login fails, its error
    propagates and no call is retried: the requests sent are the call and
    the login.  When it succeeds, the call is retried exactly once, with
    the flag off: the requests sent are the call, the login and the
    retried call, and a 401 on the retried call is raised as
    "API request failed with status 401" without another login. *)
Theorem C1_session_expiry_single_relogin :
  forall (st : state) (method endpoint : string) (data : option value)
         (req1 : request) (r1 : response),
    http_client st = true ->
    api_request settings st method endpoint data = Some req1 ->
    panel (sent st) req1 = Responded r1 ->
    status_code r1 = 401 ->
    let final := _make_request settings panel method endpoint data true st in
    match login settings panel (sending req1 st) with
    | (Raise e, st2) =>
        final = (Raise e, st2)
        /\ sent (snd final) = (sent st ++ [req1; login_request settings])%list
    | (Ok _, st2) =>
        exists req2 : request,
          api_request settings st2 method endpoint data = Some req2
          /\ sent (snd final) = (sent st ++ [req1; login_request settings; req2])%list
          /\ (forall r2 : response,
                 panel (sent st ++ [req1; login_request settings])%list req2 = Responded r2 ->
                 status_code r2 = 401 ->
                 fst final = Raise (XUIClientError "API request failed with status 401"))
    end.
Proof.
  intros st method endpoint data req1 r1 Hc Hreq Hresp H401 final.
  subst final. rewrite (make_request_expired st method endpoint data req1 r1 Hc Hreq Hresp H401).
  destruct (login_sent (sending req1 st) Hc) as [Hsent Hc2].
  destruct (login settings panel (sending req1 st)) as [[b | e] st2]; simpl in Hsent, Hc2;
    rewrite <- app_assoc in Hsent; simpl in Hsent.
  - destruct (api_request_any_state st st2 method endpoint data req1 Hreq) as [req2 Hreq2].
    exists req2. rewrite (attempt_once st2 method endpoint data req2 Hc2 Hreq2).
    simpl. rewrite Hsent.
    split; [exact Hreq2|]. split; [rewrite <- app_assoc; reflexivity|].
    intros r2 Hr2 H2. rewrite Hr2, H2. reflexivity.
  - split; [reflexivity|]. exact Hsent.
Qed.

(** The requests a call sends go to its endpoint or to the login
    endpoint. *)
Lemma call_requests (st : state) (method endpoint : string) (data : option value) :
  exists new : list request,
    sent (snd (call settings panel method endpoint data st)) = (sent st ++ new)%list
    /\ Forall (fun r => req_url r = base_url settings ++ endpoint
                        \/ req_url r = login_url settings) new.
Proof.
  unfold call.
  destruct (http_client st) eqn:Hc.
  2: { exists []. unfold _make_request, attempt. rewrite Hc. simpl.
       rewrite app_nil_r. auto. }
  destruct (api_request settings st method endpoint data) as [req1|] eqn:Hreq.
  2: { exists []. unfold _make_request, attempt. rewrite Hc. simpl.
       unfold catch, bind. rewrite Hreq. simpl. rewrite app_nil_r. auto. }
  pose proof (api_request_url st method endpoint data req1 Hreq) as Hu1.
  destruct (panel (sent st) req1) as [r1 | kind cls msg] eqn:Hresp.
  - destruct (Z.eq_dec (status_code r1) 401) as [H401 | Hne].
    + rewrite (make_request_expired st method endpoint data req1 r1 Hc Hreq Hresp H401).
      destruct (login_sent (sending req1 st) Hc) as [Hsent Hc2].
      destruct (login settings panel (sending req1 st)) as [[b | e] st2]; simpl in Hsent, Hc2;
        rewrite <- app_assoc in Hsent; simpl in Hsent.
      * destruct (api_request_any_state st st2 method endpoint data req1 Hreq) as [req2 Hreq2].
        rewrite (attempt_once st2 method endpoint data req2 Hc2 Hreq2). simpl.
        exists [req1; login_request settings; req2].
        rewrite Hsent. rewrite <- app_assoc. split; [reflexivity|].
        pose proof (api_request_url st2 method endpoint data req2 Hreq2) as Hu2.
        constructor; [left; exact Hu1|].
        constructor; [right; reflexivity|].
        constructor; [left; exact Hu2|]. constructor.
      * exists [req1; login_request settings]. simpl. rewrite Hsent.
        split; [reflexivity|].
        constructor; [left; exact Hu1|].
        constructor; [right; reflexivity|]. constructor.
    + rewrite (make_request_direct st method endpoint data req1 Hc Hreq).
      2: { intros r Hr. rewrite Hresp in Hr. injection Hr as <-. exact Hne. }
      rewrite (attempt_once st method endpoint data req1 Hc Hreq). simpl.
      exists [req1]. split; [reflexivity|]. constructor; [left; exact Hu1|]. constructor.
  - rewrite (make_request_direct st method endpoint data req1 Hc Hreq).
    2: { intros r Hr. rewrite Hresp in Hr. discriminate. }
    rewrite (attempt_once st method endpoint data req1 Hc Hreq). simpl.
    exists [req1]. split; [reflexivity|]. constructor; [left; exact Hu1|]. constructor.
Qed.

End Executor.

(** ** The scan over the inbounds *)

Section Scan.

Context `{RT : Runtime}.

Lemma first_client_of_dicts (email : string) (cs : list value) :
  forallb is_dict cs = true ->
  first_client_with_email email cs = Ok (List.find (has_email email) cs).
Proof.
  induction cs as [|c cs IH]; simpl; intros H; [reflexivity|].
  apply andb_true_iff in H as [Hc Hcs].
  destruct c; try discriminate. simpl.
  destruct (Py.eq_str (Py.dict_get fields "email" VNone) email); [reflexivity|].
  exact (IH Hcs).
Qed.

(** A well-formed inbound yields its first client with the label, if it
    has one. *)
Lemma scan_inbound_well_formed (email : string) (inbound : value) (cs : list value) :
  decoded_clients inbound = Some cs ->
  scan_inbound email inbound =
    Ok (match List.find (has_email email) cs with
        | Some client => Some (found_info inbound client)
        | None => None
        end).
Proof.
  unfold decoded_clients, settings_text, scan_inbound.
  destruct inbound as [| | | | |d]; try discriminate. simpl.
  destruct (Py.dict_get d "settings" (VStr "{}")) as [| | |s| |]; try discriminate. simpl.
  destruct (json_loads s) as [msg|doc]; try discriminate.
  destruct doc as [| | | | |sd]; try discriminate. simpl.
  destruct (Py.dict_get sd "clients" (VList [])) as [| | | |items|]; try discriminate. simpl.
  destruct (forallb is_dict items) eqn:Hd; try discriminate.
  intros H. injection H as <-.
  rewrite (first_client_of_dicts email items Hd).
  destruct (List.find (has_email email) items); reflexivity.
Qed.

(** An inbound whose settings do not decode is passed over. *)
Lemma scan_inbound_malformed (email : string) (inbound : value) :
  malformed_settings inbound = true -> scan_inbound email inbound = Ok None.
Proof.
  unfold malformed_settings, settings_text, scan_inbound.
  destruct inbound as [| | | | |d]; try discriminate. simpl.
  destruct (Py.dict_get d "settings" (VStr "{}")) as [| | |s| |]; try discriminate. simpl.
  destruct (json_loads s) as [msg|doc]; try discriminate. reflexivity.
Qed.

Lemma scan_inbounds_app_skipped (email : string) (pre rest : list value) :
  (forall inbound, In inbound pre -> scan_inbound email inbound = Ok None) ->
  scan_inbounds email (pre ++ rest) = scan_inbounds email rest.
Proof.
  induction pre as [|x pre IH]; simpl; intros H; [reflexivity|].
  rewrite (H x (or_introl eq_refl)). simpl. apply IH. intros y Hy. apply H. now right.
Qed.

Lemma scan_inbounds_drop_malformed (email : string) (l : list value) :
  scan_inbounds email l =
  scan_inbounds email (filter (fun inbound => negb (malformed_settings inbound)) l).
Proof.
  induction l as [|x l IH]; simpl; [reflexivity|].
  destruct (malformed_settings x) eqn:Hm; simpl.
  - rewrite (scan_inbound_malformed email x Hm). simpl. exact IH.
  - destruct (scan_inbound email x) as [[info|]|e]; simpl; try reflexivity. exact IH.
Qed.

Lemma find_none_iff_no_email (email : string) (cs : list value) :
  existsb (has_email email) cs = false -> List.find (has_email email) cs = None.
Proof.
  induction cs as [|c cs IH]; simpl; [reflexivity|].
  destruct (has_email email c); simpl; [discriminate | exact IH].
Qed.

Lemma find_some_of_email (email : string) (cs : list value) :
  existsb (has_email email) cs = true ->
  exists client, List.find (has_email email) cs = Some client /\ has_email email client = true.
Proof.
  induction cs as [|c cs IH]; simpl; [discriminate|].
  destruct (has_email email c) eqn:Hc; simpl; [eauto | exact IH].
Qed.

Lemma scan_inbound_without_email (email : string) (inbound : value) :
  well_formed_inbound inbound = true ->
  lists_email email inbound = false ->
  scan_inbound email inbound = Ok None.
Proof.
  unfold well_formed_inbound, lists_email.
  destruct (decoded_clients inbound) as [cs|] eqn:Hd; [|discriminate].
  intros _ Hno. rewrite (scan_inbound_well_formed email inbound cs Hd).
  now rewrite (find_none_iff_no_email email cs Hno).
Qed.

(** What the scan returns is [None] or a match with its three keys. *)
Lemma scan_inbounds_shape (email : string) (l : list value) (info : value) :
  scan_inbounds email l = Ok info ->
  info = VNone
  \/ exists inbound_id inbound_remark client,
       info = VDict [("inbound_id", inbound_id); ("inbound_remark", inbound_remark);
                     ("client", client)]
       /\ has_email email client = true.
Proof.
  induction l as [|x l IH]; simpl.
  - intros H. injection H as <-. now left.
  - unfold scan_inbound at 1.
    destruct (Py.get x "id" VNone) as [i|e]; simpl; [|discriminate].
    destruct (Py.get x "settings" (VStr "{}")) as [s|e]; simpl; [|discriminate].
    destruct (py_json_loads s) as [sd|e]; simpl.
    2: { destruct e; simpl; try discriminate. exact IH. }
    destruct (Py.get sd "clients" (VList [])) as [cl|e]; simpl.
    2: { destruct e; simpl; try discriminate. exact IH. }
    destruct (Py.iter cl) as [items|e]; simpl.
    2: { destruct e; simpl; try discriminate. exact IH. }
    destruct (first_client_with_email email items) as [[c|]|e] eqn:Hf; simpl.
    + destruct (Py.get x "remark" (VStr "Unknown")) as [r|e]; simpl; [|discriminate].
      intros H. injection H as <-. right. exists i, r, c. split; [reflexivity|].
      clear -Hf. induction items as [|y items IHi]; simpl in Hf; [discriminate|].
      destruct (Py.get y "email" VNone) as [em|e] eqn:Hy; simpl in Hf; [|discriminate].
      destruct (Py.eq_str em email) eqn:He.
      * injection Hf as <-. destruct y; try discriminate. simpl in Hy.
        injection Hy as Hy. simpl. rewrite Hy. exact He.
      * exact (IHi Hf).
    + exact IH.
    + destruct e; simpl; try discriminate. exact IH.
Qed.

End Scan.

(** ** The lifecycle operations *)

Section Lifecycle.

Context `{RT : Runtime}.
Variable settings : Settings.
Variable panel : transport.

(** The listing read off the envelope of the list call. *)
Lemma get_inbound_list_of_envelope (st st' : state) (d : list (string * value)) :
  call settings panel "GET" list_endpoint None st = (Ok (VDict d), st') ->
  get_inbound_list settings panel st =
    (Ok (if Py.truthy (Py.dict_get d "success" VNone)
         then Py.dict_get d "obj" (VList [])
         else VList []), st').
Proof.
  intros H. unfold get_inbound_list, bind. rewrite H. simpl.
  destruct (Py.truthy (Py.dict_get d "success" VNone)); reflexivity.
Qed.

(** The scan runs over whatever the listing returned. *)
Lemma find_of_listing (st st' : state) (email : string) (l : list value) :
  get_inbound_list settings panel st = (Ok (VList l), st') ->
  find_client_in_all_inbounds settings panel email st = (scan_inbounds email l, st').
Proof.
  intros H. unfold find_client_in_all_inbounds, bind. rewrite H. simpl.
  unfold lift. simpl. reflexivity.
Qed.

(** C3.  On a well-formed listing, [find_client_in_all_inbounds]
    returns the match of the first inbound, in list order, whose decoded
    client list contains a client with the email, the client being the
    first such in that inbound; and it returns [None] when no inbound
    contains one. *)
Theorem C3_first_match_in_list_order :
  forall (st st' : state) (email : string) (l : list value),
    get_inbound_list settings panel st = (Ok (VList l), st') ->
    forallb well_formed_inbound l = true ->
    (forall (pre post : list value) (inbound : value),
        l = (pre ++ inbound :: post)%list ->
        forallb (fun x => negb (lists_email email x)) pre = true ->
        lists_email email inbound = true ->
        exists (cs : list value) (client : value),
          decoded_clients inbound = Some cs
          /\ List.find (has_email email) cs = Some client
          /\ find_client_in_all_inbounds settings panel email st
             = (Ok (found_info inbound client), st'))
    /\ (forallb (fun x => negb (lists_email email x)) l = true ->
        find_client_in_all_inbounds settings panel email st = (Ok VNone, st')).
Proof.
  intros st st' email l Hl Hwf. rewrite (find_of_listing st st' email l Hl). split.
  - intros pre post inbound -> Hpre Hin.
    rewrite forallb_app in Hwf. apply andb_true_iff in Hwf as [Hwpre Hwrest].
    simpl in Hwrest. apply andb_true_iff in Hwrest as [Hwi _].
    rewrite scan_inbounds_app_skipped.
    2: { intros x Hx. apply scan_inbound_without_email.
         - rewrite forallb_forall in Hwpre. now apply Hwpre.
         - rewrite forallb_forall in Hpre. specialize (Hpre x Hx).
           now apply negb_true_iff in Hpre. }
    unfold lists_email in Hin. unfold well_formed_inbound in Hwi.
    destruct (decoded_clients inbound) as [cs|] eqn:Hd; [|discriminate].
    destruct (find_some_of_email email cs Hin) as [client [Hf _]].
    exists cs, client. split; [reflexivity|]. split; [exact Hf|].
    simpl. rewrite (scan_inbound_well_formed email inbound cs Hd), Hf. reflexivity.
  - intros Hno. f_equal.
    rewrite <- (app_nil_r l). apply scan_inbounds_app_skipped.
    intros x Hx. apply scan_inbound_without_email.
    + rewrite forallb_forall in Hwf. now apply Hwf.
    + rewrite forallb_forall in Hno. specialize (Hno x Hx). now apply negb_true_iff in Hno.
Qed.

(** C4.  An inbound whose settings blob fails to decode as JSON is
    skipped: the scan gives what it gives on the listing without such
    inbounds.  In particular a label held by a well-formed inbound is
    found when every inbound before it is malformed or well-formed
    without the label, and a listing of malformed inbounds only yields
    [None]; neither fails. *)
Theorem C4_malformed_settings_skipped :
  forall (st st' : state) (email : string) (l : list value),
    get_inbound_list settings panel st = (Ok (VList l), st') ->
    find_client_in_all_inbounds settings panel email st
    = (scan_inbounds email (filter (fun x => negb (malformed_settings x)) l), st')
    /\ (forall (pre post : list value) (inbound : value),
           l = (pre ++ inbound :: post)%list ->
           forallb (fun x => malformed_settings x
                             || (well_formed_inbound x && negb (lists_email email x))) pre = true ->
           lists_email email inbound = true ->
           exists (cs : list value) (client : value),
             decoded_clients inbound = Some cs
             /\ List.find (has_email email) cs = Some client
             /\ find_client_in_all_inbounds settings panel email st
                = (Ok (found_info inbound client), st'))
    /\ (forallb malformed_settings l = true ->
        find_client_in_all_inbounds settings panel email st = (Ok VNone, st')).
Proof.
  intros st st' email l Hl. rewrite (find_of_listing st st' email l Hl).
  split; [|split].
  - f_equal. apply scan_inbounds_drop_malformed.
  - intros pre post inbound -> Hpre Hin.
    rewrite scan_inbounds_app_skipped.
    2: { intros x Hx. rewrite forallb_forall in Hpre. specialize (Hpre x Hx).
         apply orb_true_iff in Hpre as [Hm | Hw].
         - now apply scan_inbound_malformed.
         - apply andb_true_iff in Hw as [Hw Hno]. apply negb_true_iff in Hno.
           now apply scan_inbound_without_email. }
    unfold lists_email in Hin.
    destruct (decoded_clients inbound) as [cs|] eqn:Hd; [|discriminate].
    destruct (find_some_of_email email cs Hin) as [client [Hf _]].
    exists cs, client. split; [reflexivity|]. split; [exact Hf|].
    simpl. rewrite (scan_inbound_well_formed email inbound cs Hd), Hf. reflexivity.
  - intros Hall. f_equal. rewrite <- (app_nil_r l). apply scan_inbounds_app_skipped.
    intros x Hx. apply scan_inbound_malformed. rewrite forallb_forall in Hall. now apply Hall.
Qed.

(** C10.  When the list call returns an envelope whose success flag is
    false, [get_inbound_list] returns the empty list, exactly as for an
    envelope that succeeds with no inbounds.  On either,
    [find_client_in_all_inbounds] reports [None],
    [delete_client_from_all_inbounds] reports [False], and
    [create_client] passes its check and goes on to the create
    endpoint; the failure of the listing is not raised. *)
Theorem C10_failed_listing_reads_as_empty :
  forall (st st' : state) (d : list (string * value)),
    call settings panel "GET" list_endpoint None st = (Ok (VDict d), st') ->
    Py.truthy (Py.dict_get d "success" VNone) = false
    \/ Py.dict_get d "obj" (VList []) = VList [] ->
    get_inbound_list settings panel st = (Ok (VList []), st')
    /\ (forall email : string,
           find_client_in_all_inbounds settings panel email st = (Ok VNone, st')
           /\ delete_client_from_all_inbounds settings panel email st = (Ok false, st')
           /\ forall (uuid : string) (inbound_id : Z) (enable : bool),
                create_client settings panel email uuid inbound_id enable st
                = add_client settings panel email uuid inbound_id enable st').
Proof.
  intros st st' d Hcall Hd.
  assert (Hl : get_inbound_list settings panel st = (Ok (VList []), st')).
  { rewrite (get_inbound_list_of_envelope st st' d Hcall).
    destruct Hd as [-> | ->]; [reflexivity|].
    destruct (Py.truthy (Py.dict_get d "success" VNone)); reflexivity. }
  split; [exact Hl|]. intros email.
  assert (Hf : find_client_in_all_inbounds settings panel email st = (Ok VNone, st'))
    by (rewrite (find_of_listing st st' email [] Hl); reflexivity).
  split; [exact Hf|]. split.
  - unfold delete_client_from_all_inbounds, bind. rewrite Hf. reflexivity.
  - intros uuid inbound_id enable. unfold create_client, bind. rewrite Hf. reflexivity.
Qed.

Lemma prefix_of_longer (p q s : string) :
  PyStr.startswith (p ++ q) s = true -> PyStr.startswith p s = true.
Proof.
  unfold PyStr.startswith. revert s.
  induction p as [|c p IH]; intros s; simpl.
  - destruct s; reflexivity.
  - destruct s as [|a s]; [discriminate|]. cbn [String.prefix].
    destruct (ascii_dec c a); [apply IH | discriminate].
Qed.

(** A message the pattern matches mentions ["Duplicate email"]. *)
Lemma search_duplicate_mentions (m group1 : string) :
  Re.search_duplicate_email m = Some group1 -> PyStr.contains "Duplicate email" m = true.
Proof.
  induction m as [|c m IH].
  - cbn. discriminate.
  - intros H. cbn [Re.search_duplicate_email] in H.
    cbn [PyStr.contains].
    destruct (PyStr.startswith Re.duplicate_prefix (String c m)) eqn:Hp.
    + apply (prefix_of_longer "Duplicate email" ": ") in Hp. rewrite Hp. reflexivity.
    + simpl in H. rewrite (IH H). apply orb_true_r.
Qed.

(** C2 (as amended).  When the scan before creation finds the label in
    any inbound, [create_client] raises an [XUIClientError] whose message
    names the remark of the inbound that holds it, and sends nothing to
    the create endpoint.  When the scan finds nothing and the panel
    answers the creation with a failure whose message matches
    [Duplicate email: (.+)], the matched label, trimmed, is reported in
    an [XUIClientError], the one class of every error of the client. *)
Theorem C2_duplicate_client_errors :
  forall (st : state) (email uuid : string) (inbound_id : Z) (enable : bool),
    (forall (info : value) (st' : state),
        find_client_in_all_inbounds settings panel email st = (Ok info, st') ->
        Py.truthy info = true ->
        exists (inbound_remark : value) (new : list request),
          Py.getitem info "inbound_remark" = Ok inbound_remark
          /\ create_client settings panel email uuid inbound_id enable st
             = (Raise (XUIClientError (client_exists_message (py_str inbound_remark))), st')
          /\ sent st' = (sent st ++ new)%list
          /\ Forall (fun r => req_url r <> base_url settings ++ add_client_endpoint) new)
    /\ (forall (st1 st2 : state) (d : list (string * value)) (m group1 : string),
           find_client_in_all_inbounds settings panel email st = (Ok VNone, st1) ->
           call settings panel "POST" add_client_endpoint
             (Some (request_data email uuid inbound_id enable)) st1 = (Ok (VDict d), st2) ->
           Py.truthy (Py.dict_get d "success" VNone) = false ->
           Py.dict_get d "msg" (VStr "Unknown error") = VStr m ->
           Re.search_duplicate_email m = Some group1 ->
           create_client settings panel email uuid inbound_id enable st
           = (Raise (XUIClientError (duplicate_email_message (PyStr.strip group1))), st2)).
Proof.
  intros st email uuid inbound_id enable. split.
  - intros info st' Hfind Htrue.
    assert (Hshape : exists i r c,
               info = VDict [("inbound_id", i); ("inbound_remark", r); ("client", c)]).
    { unfold find_client_in_all_inbounds, bind in Hfind.
      destruct (get_inbound_list settings panel st) as [[inbounds | e] st0]; [|discriminate].
      unfold lift in Hfind. injection Hfind as Hscan _.
      destruct (Py.iter inbounds) as [items|e]; simpl in Hscan; [|discriminate].
      destruct (scan_inbounds_shape email items info Hscan) as [-> | [i [r [c [-> _]]]]].
      - discriminate.
      - eauto. }
    destruct Hshape as [i [r [c ->]]].
    assert (Hsent : exists new,
               sent st' = (sent st ++ new)%list
               /\ Forall (fun q => req_url q <> base_url settings ++ add_client_endpoint) new).
    { unfold find_client_in_all_inbounds, bind in Hfind.
      unfold get_inbound_list, bind in Hfind.
      destruct (call_requests settings panel st "GET" list_endpoint None) as [new [Hnew Hall]].
      destruct (call settings panel "GET" list_endpoint None st) as [[res | e] st0];
        [|discriminate].
      simpl in Hnew.
      assert (st' = st0) as ->.
      { unfold lift in Hfind.
        destruct (Py.get res "success" VNone) as [s|e]; [|discriminate].
        destruct (Py.truthy s).
        - destruct (Py.get res "obj" (VList [])); [|discriminate].
          now injection Hfind as _ <-.
        - unfold ret in Hfind. now injection Hfind as _ <-. }
      exists new. split; [exact Hnew|].
      eapply Forall_impl; [|exact Hall]. intros q [Hq | Hq] Habs; rewrite Hq in Habs.
      - apply append_cancel_l in Habs. discriminate.
      - unfold login_url in Habs. apply append_cancel_l in Habs. discriminate. }
    destruct Hsent as [new [Hnew Hall]].
    exists r, new. split; [reflexivity|]. split; [|split; assumption].
    unfold create_client, bind. rewrite Hfind. reflexivity.
  - intros st1 st2 d m group1 Hfind Hcall Hfail Hmsg Hre.
    unfold create_client, bind. rewrite Hfind. simpl.
    unfold add_client, bind. rewrite Hcall. simpl. rewrite Hfail. simpl.
    rewrite Hmsg. simpl. rewrite (search_duplicate_mentions m group1 Hre). simpl.
    rewrite Hre. reflexivity.
Qed.

(** C5.  When the envelope of the traffic call lacks a true success
    flag or carries no data object, [get_client_traffic] returns the
    zeroed sample, [up], [down] and [total] all 0, and does not raise.  When it carries a data object,
    the sample holds its [up] and [down] counters (0 for an absent one)
    and their sum as [total]. *)
Theorem C5_traffic_zero_or_sum :
  forall (st st' : state) (email : string) (d : list (string * value)),
    call settings panel "GET" ("/panel/api/inbounds/getClientTraffics/" ++ email) None st
    = (Ok (VDict d), st') ->
    (Py.truthy (Py.dict_get d "success" VNone) = false
     \/ Py.truthy (Py.dict_get d "obj" VNone) = false ->
     get_client_traffic settings panel email st
     = (Ok (VDict [("up", VInt 0); ("down", VInt 0); ("total", VInt 0)]), st'))
    /\ (forall (o : list (string * value)) (up down : Z),
           Py.truthy (Py.dict_get d "success" VNone) = true ->
           Py.dict_get d "obj" VNone = VDict o ->
           o <> [] ->
           Py.dict_get o "up" (VInt 0) = VInt up ->
           Py.dict_get o "down" (VInt 0) = VInt down ->
           get_client_traffic settings panel email st
           = (Ok (VDict [("up", VInt up); ("down", VInt down); ("total", VInt (up + down))]),
              st')).
Proof.
  intros st st' email d Hcall. split.
  - intros Hno. unfold get_client_traffic, bind. rewrite Hcall. simpl.
    destruct (Py.truthy (Py.dict_get d "success" VNone)) eqn:Hs; simpl.
    + destruct Hno as [Hno | Hno]; [discriminate|]. rewrite Hno. reflexivity.
    + rewrite Hs. reflexivity.
  - intros o up down Hs Ho Hne Hup Hdown.
    unfold get_client_traffic, bind. rewrite Hcall. simpl. rewrite Hs. simpl.
    rewrite Ho. destruct o as [|kv o']; [contradiction|]. simpl.
    unfold Py.getitem.
    assert (Hl : Py.lookup "obj" d = Some (VDict (kv :: o'))).
    { unfold Py.dict_get in Ho. destruct (Py.lookup "obj" d); [now subst | discriminate]. }
    rewrite Hl. simpl. rewrite Hup, Hdown. reflexivity.
Qed.

End Lifecycle.

(** ** Base64 *)

Section Base64Roundtrip.

Local Open Scope N_scope.











Lemma list_ascii_of_append (s t : string) :
  list_ascii_of_string (s ++ t) = (list_ascii_of_string s ++ list_ascii_of_string t)%list.
Proof. induction s as [|c s IH]; simpl; [reflexivity | now rewrite IH]. Qed.




End Base64Roundtrip.

(** ** The link builders *)

Lemma rbind_ok {A B : Type} (r : result A) (k : A -> result B) (b : B) :
  rbind r k = Ok b -> exists a, r = Ok a /\ k a = Ok b.
Proof. destruct r as [a|e]; simpl; [eauto | discriminate]. Qed.

Lemma lookup_in (k : string) (d : list (string * value)) (v : value) :
  Py.lookup k d = Some v -> In (k, v) d.
Proof.
  induction d as [|[k' v'] d IH]; simpl; [discriminate|].
  destruct (String.eqb k' k) eqn:E.
  - apply String.eqb_eq in E. intros H. injection H as <-. subst. now left.
  - intros H. right. now apply IH.
Qed.

(** Text made of safe characters is its own percent-encoding. *)
Lemma quote_safe_text `{RT : Runtime} (safe s : string) :
  PyStr.all (Urllib.is_safe safe) s = true -> Urllib.quote safe s = s.
Proof.
  induction s as [|c s IH]; simpl; [reflexivity|].
  intros H. apply andb_true_iff in H as [Hc Hs]. rewrite Hc, (IH Hs). reflexivity.
Qed.

Lemma no_space_in_safe_text (s : string) :
  PyStr.all (Urllib.is_safe "/:,") s = true -> PyStr.contains " " s = false.
Proof.
  induction s as [|c s IH]; [reflexivity|].
  intros H. cbn [PyStr.all] in H. apply andb_true_iff in H as [Hc Hs].
  cbn [PyStr.contains]. rewrite (IH Hs), orb_false_r.
  unfold PyStr.startswith. cbn [String.prefix].
  destruct (ascii_dec " " c) as [<- | _]; [|reflexivity].
  vm_compute in Hc. discriminate.
Qed.

Lemma quote_plus_safe_text `{RT : Runtime} (s : string) :
  PyStr.all (Urllib.is_safe "/:,") s = true -> Urllib.quote_plus "/:," s = s.
Proof.
  intros H. unfold Urllib.quote_plus.
  rewrite (no_space_in_safe_text s H). now apply quote_safe_text.
Qed.

Lemma append_assoc (a b c : string) : (a ++ b) ++ c = a ++ (b ++ c).
Proof. induction a as [|x a IH]; simpl; [reflexivity | now rewrite IH]. Qed.

Lemma lookup_dict_set_other (d : list (string * value)) (k k' : string) (v : value) :
  String.eqb k' k = false -> Py.lookup k (Py.dict_set d k' v) = Py.lookup k d.
Proof.
  intros Hk. induction d as [|[k0 v0] d IH]; simpl.
  - now rewrite Hk.
  - destruct (String.eqb k0 k') eqn:E; simpl.
    + apply String.eqb_eq in E. subst k0. now rewrite Hk.
    + now rewrite IH.
Qed.

(** ** The text of a query *)

Lemma is_safe_path (c : ascii) : Urllib.is_safe "/" c = path_safe c.
Proof. destruct c as [[] [] [] [] [] [] [] []]; reflexivity. Qed.

Lemma is_safe_query (c : ascii) : Urllib.is_safe "/:," c = query_safe c.
Proof. destruct c as [[] [] [] [] [] [] [] []]; reflexivity. Qed.

Lemma all_ext (f g : ascii -> bool) (s : string) :
  (forall c, f c = g c) -> PyStr.all f s = PyStr.all g s.
Proof.
  intros H. induction s as [|c s IH]; cbn [PyStr.all]; [reflexivity | now rewrite H, IH].
Qed.

(** Text of characters the query keeps is written as it is. *)
Lemma quote_plus_query_safe `{RT : Runtime} (s : string) :
  PyStr.all query_safe s = true -> Urllib.quote_plus "/:," s = s.
Proof.
  intros H. apply quote_plus_safe_text.
  now rewrite (all_ext (Urllib.is_safe "/:,") query_safe s is_safe_query).
Qed.

Lemma unreserved_query_safe (s : string) :
  PyStr.all unreserved s = true -> PyStr.all query_safe s = true.
Proof.
  induction s as [|c s IH]; cbn [PyStr.all]; [reflexivity|].
  intros H. apply andb_true_iff in H as [Hc Hs]. rewrite (IH Hs), andb_true_r.
  unfold query_safe, path_safe. now rewrite Hc.
Qed.

Lemma known_key_text `{RT : Runtime} (k : string) :
  In k vless_keys -> Urllib.quote_plus "/:," k = k.
Proof.
  intros H. apply quote_plus_query_safe. simpl in H.
  repeat (destruct H as [<- | H]; [reflexivity|]). contradiction.
Qed.

(** A parameter is written [name=value]. *)
Lemma parameter_text `{RT : Runtime} (k : string) (v : value) :
  In k vless_keys ->
  Urllib.urlencode_pair "/:," (k, v) = k ++ "=" ++ Urllib.quote_plus "/:," (py_str v).
Proof.
  intros H. unfold Urllib.urlencode_pair. cbn [fst snd]. now rewrite (known_key_text k H).
Qed.

(** It does not read as a parameter of another name. *)
Lemma parameter_name `{RT : Runtime} (k name : string) (v : value) :
  In k vless_keys -> In name vless_keys -> k <> name ->
  named name (Urllib.urlencode_pair "/:," (k, v)) = false.
Proof.
  intros Hk Hname Hne. rewrite (parameter_text k v Hk). unfold named.
  simpl in Hk, Hname.
  repeat (destruct Hk as [<- | Hk];
          [repeat (destruct Hname as [<- | Hname];
                   [first [reflexivity | contradiction Hne; reflexivity]|]);
           contradiction|]).
  contradiction.
Qed.

Lemma lookup_none (k k' : string) (v : value) (d : list (string * value)) :
  Py.lookup k d = None -> In (k', v) d -> k' <> k.
Proof.
  induction d as [|[k0 v0] d IH]; simpl; [contradiction|].
  destruct (String.eqb k0 k) eqn:E; [discriminate|].
  intros Hnone [Hin | Hin].
  - injection Hin as <- _. now apply String.eqb_neq.
  - now apply IH.
Qed.

(** A name that the parameters do not bind is the name of no part of
    the text. *)
Lemma absent_from_text `{RT : Runtime} (query : list (string * value)) (name : string) :
  Forall (fun kv => In (fst kv) vless_keys) query ->
  In name vless_keys ->
  Py.lookup name query = None ->
  Forall (fun part => named name part = false) (map (Urllib.urlencode_pair "/:,") query).
Proof.
  intros Hkeys Hname Hnone. apply Forall_forall. intros part Hpart.
  apply in_map_iff in Hpart as [[k v] [<- Hin]].
  rewrite Forall_forall in Hkeys. apply parameter_name.
  - exact (Hkeys (k, v) Hin).
  - exact Hname.
  - exact (lookup_none name k v query Hnone Hin).
Qed.

(** A name bound to text of characters the query keeps is written
    [name=text]. *)
Lemma present_in_text `{RT : Runtime} (query : list (string * value)) (name text : string) :
  In name vless_keys ->
  Py.lookup name query = Some (VStr text) ->
  In (name ++ "=" ++ Urllib.quote_plus "/:," text) (map (Urllib.urlencode_pair "/:,") query).
Proof.
  intros Hname Hl. rewrite <- (parameter_text name (VStr text) Hname).
  apply in_map. now apply lookup_in.
Qed.

Lemma dict_set_keys (keys : list string) (d : list (string * value)) (k : string) (v : value) :
  Forall (fun kv => In (fst kv) keys) d -> In k keys ->
  Forall (fun kv => In (fst kv) keys) (Py.dict_set d k v).
Proof.
  intros Hd Hk. induction d as [|[k0 v0] d IH]; simpl.
  - constructor; [exact Hk | constructor].
  - inversion_clear Hd as [|? ? H0 Hrest].
    destruct (String.eqb k0 k); constructor; auto.
Qed.

(** Setting another key leaves the first two bindings in place. *)
Lemma dict_set_after_two (a b : string * value) (d : list (string * value))
    (k : string) (v : value) :
  String.eqb (fst a) k = false -> String.eqb (fst b) k = false ->
  Py.dict_set (a :: b :: d) k v = a :: b :: Py.dict_set d k v.
Proof. destruct a, b. simpl. now intros -> ->. Qed.

(** *** The characters of a parameter *)

Lemma all_append (f : ascii -> bool) (s t : string) :
  PyStr.all f (s ++ t) = PyStr.all f s && PyStr.all f t.
Proof.
  induction s as [|c s IH]; cbn [append PyStr.all]; [reflexivity|].
  now rewrite IH, andb_assoc.
Qed.

Lemma all_impl (f g : ascii -> bool) (s : string) :
  (forall c, f c = true -> g c = true) -> PyStr.all f s = true -> PyStr.all g s = true.
Proof.
  intros H. induction s as [|c s IH]; cbn [PyStr.all]; [reflexivity|].
  intros Hs. apply andb_true_iff in Hs as [Hc Hs]. now rewrite (H c Hc), (IH Hs).
Qed.

(** The two digits of an escape are unreserved characters. *)
Lemma escape_digits (c : ascii) :
  PyStr.all unreserved (Hex.byte_upper (N_of_ascii c)) = true.
Proof. destruct c as [[] [] [] [] [] [] [] []]; reflexivity. Qed.

Lemma unreserved_is_safe (safe : string) (c : ascii) :
  unreserved c = true -> Urllib.is_safe safe c = true.
Proof.
  assert (H : implb (unreserved c) (Urllib.is_safe safe c) = true)
    by (destruct safe; destruct c as [[] [] [] [] [] [] [] []]; reflexivity).
  intros Hc. rewrite Hc in H. exact H.
Qed.

(** [quote] writes safe characters and escapes. *)
Lemma quote_chars (safe s : string) :
  PyStr.all (fun c => Urllib.is_safe safe c || Ascii.eqb c "%") (Urllib.quote safe s) = true.
Proof.
  induction s as [|c s IH]; cbn [Urllib.quote]; [reflexivity|].
  rewrite all_append, IH, andb_true_r.
  destruct (Urllib.is_safe safe c) eqn:E.
  - cbn [PyStr.all]. now rewrite E.
  - rewrite all_append. apply andb_true_iff. split.
    + cbn [PyStr.all]. now rewrite orb_true_r.
    + apply (all_impl unreserved); [|apply escape_digits].
      intros d Hd. now rewrite (unreserved_is_safe safe d Hd).
Qed.

(** Replacing each space by [+]. *)
Lemma replace_space_chars (f : ascii -> bool) (s : string) :
  f "+"%char = true ->
  PyStr.all (fun c => f c || Ascii.eqb c " ") s = true ->
  PyStr.all f (PyStr.replace " " "+" s) = true.
Proof.
  intros Hplus. unfold PyStr.replace.
  induction s as [|c s IH]; cbn [PyStr.replace_from PyStr.all]; [reflexivity|].
  intros H. apply andb_true_iff in H as [Hc Hs].
  unfold PyStr.startswith. cbn [String.prefix String.length Nat.pred].
  destruct (ascii_dec " " c) as [<-|Hne].
  - replace (String.prefix EmptyString s) with true by (now destruct s).
    cbn [append PyStr.all]. now rewrite Hplus, (IH Hs).
  - cbn [PyStr.all]. rewrite (IH Hs), andb_true_r.
    apply orb_true_iff in Hc as [Hc | Hc]; [exact Hc|].
    apply Ascii.eqb_eq in Hc. congruence.
Qed.

Lemma safe_is_part_char (c : ascii) :
  Urllib.is_safe "/:," c || Ascii.eqb c "%" = true -> part_char c = true.
Proof.
  assert (H : implb (Urllib.is_safe "/:," c || Ascii.eqb c "%") (part_char c) = true)
    by (destruct c as [[] [] [] [] [] [] [] []]; reflexivity).
  intros Hc. rewrite Hc in H. exact H.
Qed.

Lemma safe_or_space_is_part_char (c : ascii) :
  Urllib.is_safe ("/:," ++ " ") c || Ascii.eqb c "%" = true ->
  part_char c || Ascii.eqb c " " = true.
Proof.
  assert (H : implb (Urllib.is_safe ("/:," ++ " ") c || Ascii.eqb c "%")
                (part_char c || Ascii.eqb c " ") = true)
    by (destruct c as [[] [] [] [] [] [] [] []]; reflexivity).
  intros Hc. rewrite Hc in H. exact H.
Qed.

Lemma quote_plus_chars (s : string) : PyStr.all part_char (Urllib.quote_plus "/:," s) = true.
Proof.
  unfold Urllib.quote_plus. destruct (PyStr.contains " " s).
  - apply replace_space_chars; [reflexivity|].
    apply (all_impl _ _ _ safe_or_space_is_part_char), quote_chars.
  - apply (all_impl _ _ _ safe_is_part_char), quote_chars.
Qed.

(** Every parameter that [urlencode] writes is made of the characters
    of a parameter: the [&] between two of them is not in them. *)
Lemma parameters_of_query `{RT : Runtime} (query : list (string * value)) :
  Forall (fun part => parameter part = true) (map (Urllib.urlencode_pair "/:,") query).
Proof.
  apply Forall_forall. intros part Hpart. apply in_map_iff in Hpart as [[k v] [<- _]].
  unfold parameter, Urllib.urlencode_pair. cbn [fst snd].
  now rewrite !all_append, !quote_plus_chars.
Qed.

Section QueryOfVlessLink.

Context `{RT : Runtime}.
Variable settings : Settings.

(** Reading an equation between results: bindings one at a time, the
    branches of its tests, the values it returns. *)
Ltac crack :=
  repeat match goal with
         | H : rbind ?r _ = Ok _ |- _ =>
             let a := fresh "x" in
             let E := fresh "E" in
             destruct r as [a|] eqn:E; cbn [rbind] in H; [|discriminate H]
         | H : (if ?b then _ else _) = Ok _ |- _ => destruct b eqn:?
         | H : Ok _ = Ok _ |- _ => injection H as H; subst
         end.

Ltac branches :=
  repeat match goal with |- context [if ?b then _ else _] => destruct b end.

Lemma security_params_keys (stream_settings security : value) (p q : params) :
  vless_security_params stream_settings security p = Ok q ->
  Forall (fun kv => In (fst kv) vless_keys) p ->
  Forall (fun kv => In (fst kv) vless_keys) q.
Proof.
  intros H Hp. unfold vless_security_params in H. crack; branches;
    repeat (apply dict_set_keys; [|simpl; tauto]); exact Hp.
Qed.

Lemma network_params_keys (stream_settings network : value) (p q : params) :
  vless_network_params stream_settings network p = Ok q ->
  Forall (fun kv => In (fst kv) vless_keys) p ->
  Forall (fun kv => In (fst kv) vless_keys) q.
Proof.
  intros H Hp. unfold vless_network_params in H. crack; branches;
    repeat (apply dict_set_keys; [|simpl; tauto]); exact Hp.
Qed.

Lemma security_params_first (stream_settings security : value) (a b : string * value)
    (d : params) (q : params) :
  fst a = "type" -> fst b = "encryption" ->
  vless_security_params stream_settings security (a :: b :: d) = Ok q ->
  exists d' : params, q = a :: b :: d'.
Proof.
  intros Ha Hb H. destruct a as [ka va], b as [kb vb]. cbn [fst] in Ha, Hb. subst ka kb.
  unfold vless_security_params in H. cbv zeta in H. crack; branches;
    repeat rewrite dict_set_after_two by reflexivity; eexists; reflexivity.
Qed.

Lemma network_params_first (stream_settings network : value) (a b : string * value)
    (d : params) (q : params) :
  fst a = "type" -> fst b = "encryption" ->
  vless_network_params stream_settings network (a :: b :: d) = Ok q ->
  exists d' : params, q = a :: b :: d'.
Proof.
  intros Ha Hb H. destruct a as [ka va], b as [kb vb]. cbn [fst] in Ha, Hb. subst ka kb.
  unfold vless_network_params in H. cbv zeta in H. crack; branches;
    repeat rewrite dict_set_after_two by reflexivity; eexists; reflexivity.
Qed.

(** The parameters of a vless link: [type] and [encryption] first, and
    no name but the fourteen. *)
Lemma vless_params_shape (flow stream_settings network security : value) (query : params) :
  vless_params flow stream_settings network security = Ok query ->
  (exists rest : params,
      query = ("type", network) :: ("encryption", VStr "none") :: rest)
  /\ Forall (fun kv => In (fst kv) vless_keys) query.
Proof.
  intros H. unfold vless_params in H.
  destruct (vless_security_params stream_settings security
              [("type", network); ("encryption", VStr "none")]) as [secured|] eqn:Hsec;
    cbn [rbind] in H; [|discriminate H].
  split.
  - destruct (security_params_first stream_settings security
                ("type", network) ("encryption", VStr "none") [] secured
                eq_refl eq_refl Hsec) as [d1 ->].
    destruct (Py.truthy flow).
    + rewrite dict_set_after_two in H by reflexivity.
      exact (network_params_first stream_settings network
               ("type", network) ("encryption", VStr "none") _ query eq_refl eq_refl H).
    + exact (network_params_first stream_settings network
               ("type", network) ("encryption", VStr "none") _ query eq_refl eq_refl H).
  - apply (network_params_keys _ _ _ _ H).
    assert (Hsecured : Forall (fun kv => In (fst kv) vless_keys) secured).
    { apply (security_params_keys _ _ _ _ Hsec).
      repeat (constructor; [simpl; tauto|]). constructor. }
    destruct (Py.truthy flow); [|exact Hsecured].
    apply dict_set_keys; [exact Hsecured | simpl; tauto].
Qed.

(** The text of a vless link. *)
Lemma vless_link_text (client inbound stream_settings port network security : value)
    (link : string) :
  _build_vless_link settings client inbound stream_settings port network security = Ok link ->
  exists (uuid email flow server : value) (fragment : string) (query : params),
    Py.get client "id" VNone = Ok uuid
    /\ Py.get client "email" (VStr EmptyString) = Ok email
    /\ Py.get client "flow" (VStr EmptyString) = Ok flow
    /\ server_address settings inbound = Ok server
    /\ Urllib.quote_value "/" email = Ok fragment
    /\ vless_params flow stream_settings network security = Ok query
    /\ link = "vless://" ++ py_str uuid ++ "@" ++ py_str server ++ ":" ++ py_str port
              ++ "?" ++ String.concat "&" (map (Urllib.urlencode_pair "/:,") query)
              ++ "#" ++ fragment.
Proof.
  intros H. unfold _build_vless_link in H.
  destruct (Py.get client "id" VNone) as [uuid|] eqn:Huuid; cbn [rbind] in H;
    [|discriminate H].
  destruct (Py.get client "email" (VStr EmptyString)) as [email|] eqn:Hemail;
    cbn [rbind] in H; [|discriminate H].
  destruct (Py.get client "flow" (VStr EmptyString)) as [flow|] eqn:Hflow;
    cbn [rbind] in H; [|discriminate H].
  destruct (server_address settings inbound) as [server|] eqn:Hserver;
    cbn [rbind] in H; [|discriminate H].
  destruct (vless_params flow stream_settings network security) as [query|] eqn:Hquery;
    cbn [rbind] in H; [|discriminate H].
  destruct (Urllib.quote_value "/" email) as [fragment|] eqn:Hfragment;
    cbn [rbind] in H; [|discriminate H].
  exists uuid, email, flow, server, fragment, query.
  repeat (split; [reflexivity|]). now injection H as <-.
Qed.

End QueryOfVlessLink.

Section Links.

Context `{RT : Runtime}.
Variable settings : Settings.

(** Reading a result equation one binding at a time. *)
Ltac step H :=
  match type of H with
  | rbind ?r _ = Ok _ =>
      let a := fresh "x" in
      let E := fresh "E" in
      destruct r as [a|] eqn:E; cbn [rbind] in H; [|discriminate H]
  end.

(** The transport branches set none of the security parameters. *)
Lemma vless_network_params_keep (stream_settings network : value) (p q : params) (k : string) :
  vless_network_params stream_settings network p = Ok q ->
  String.eqb "path" k = false -> String.eqb "host" k = false ->
  String.eqb "serviceName" k = false -> String.eqb "headerType" k = false ->
  Py.lookup k q = Py.lookup k p.
Proof.
  intros H Hpath Hhost Hsvc Hhdr. unfold vless_network_params in H.
  destruct (Py.eq_str network "ws"); [|destruct (Py.eq_str network "grpc");
                                       [|destruct (Py.eq_str network "tcp")]];
    repeat step H; injection H as <-;
    repeat match goal with |- context [if ?b then _ else _] => destruct b end;
    repeat rewrite lookup_dict_set_other by assumption; reflexivity.
Qed.

(** The flow and the transport add none of the security parameters. *)
Lemma vless_params_keep (flow stream_settings network : value) (secured query : params)
    (k : string) :
  vless_network_params stream_settings network
    (if Py.truthy flow then Py.dict_set secured "flow" flow else secured) = Ok query ->
  String.eqb "flow" k = false ->
  String.eqb "path" k = false -> String.eqb "host" k = false ->
  String.eqb "serviceName" k = false -> String.eqb "headerType" k = false ->
  Py.lookup k query = Py.lookup k secured.
Proof.
  intros H Hflow Hpath Hhost Hsvc Hhdr.
  rewrite (vless_network_params_keep _ _ _ _ k H Hpath Hhost Hsvc Hhdr).
  destruct (Py.truthy flow); [now apply lookup_dict_set_other | reflexivity].
Qed.

(** The parameters the [reality] branch sets. *)
Lemma vless_reality_params (ss rs : list (string * value)) (network : value)
    (K : string) (more_names more_ids : list value) (p : params) :
  Py.dict_get ss "realitySettings" (VDict []) = VDict rs ->
  Py.dict_get rs "serverNames" (VList []) = VList (VStr "example.com" :: more_names) ->
  Py.dict_get rs "shortIds" (VList []) = VList (VStr "ab" :: more_ids) ->
  Py.dict_get rs "publicKey" (VStr EmptyString) = VStr K ->
  vless_security_params (VDict ss) (VStr "reality")
    [("type", network); ("encryption", VStr "none")] = Ok p ->
  Py.lookup "sni" p = Some (VStr "example.com")
  /\ Py.lookup "sid" p = Some (VStr "ab")
  /\ Py.lookup "pbk" p = (if String.eqb K EmptyString then None else Some (VStr K))
  /\ Py.lookup "alpn" p = None.
Proof.
  intros Hrs Hnames Hids Hkey H.
  unfold vless_security_params in H.
  change (Py.eq_str (VStr "reality") "tls") with false in H.
  change (Py.eq_str (VStr "reality") "reality") with true in H.
  cbn [Py.get rbind] in H. rewrite Hrs in H. cbn [Py.get rbind] in H.
  rewrite Hkey, Hnames, Hids in H. cbn [Py.truthy Py.item0 rbind] in H.
  destruct (String.eqb K EmptyString); cbn [negb] in H;
    destruct (Py.truthy (Py.dict_get rs "fingerprint" (VStr EmptyString)));
    destruct (Py.truthy (Py.dict_get rs "spiderX" (VStr EmptyString)));
    try step H; injection H as <-; repeat split; reflexivity.
Qed.

(** C7 (as amended).  For a vless inbound with [security=reality] whose
    reality settings carry [example.com] as first server name, [ab] as
    first short id and a public key [K], the link built is
    [vless://<id>@<server>:<port>?<query>#<email>], and the parameters
    of its query, the pieces between [&] (none of them holds an [&]),
    include [sni=example.com] and [sid=ab] and none named [alpn].  For a key that is not empty they
    include [pbk=] followed by the key percent-encoded, which is [pbk=K]
    for a key of unreserved characters, as the keys of REALITY are; for
    an empty key they include none named [pbk]. *)
Theorem C7_reality_link_parameters :
  forall (client inbound stream_settings port network : value)
         (ss rs : list (string * value)) (K link : string) (more_names more_ids : list value),
    stream_settings = VDict ss ->
    Py.dict_get ss "realitySettings" (VDict []) = VDict rs ->
    Py.dict_get rs "serverNames" (VList []) = VList (VStr "example.com" :: more_names) ->
    Py.dict_get rs "shortIds" (VList []) = VList (VStr "ab" :: more_ids) ->
    Py.dict_get rs "publicKey" (VStr EmptyString) = VStr K ->
    _build_vless_link settings client inbound stream_settings port network (VStr "reality")
    = Ok link ->
    exists (uuid email server : value) (fragment : string) (parts : list string),
      Py.get client "id" VNone = Ok uuid
      /\ Py.get client "email" (VStr EmptyString) = Ok email
      /\ server_address settings inbound = Ok server
      /\ Urllib.quote_value "/" email = Ok fragment
      /\ link = "vless://" ++ py_str uuid ++ "@" ++ py_str server ++ ":" ++ py_str port
                ++ "?" ++ String.concat "&" parts ++ "#" ++ fragment
      /\ Forall (fun part => parameter part = true) parts
      /\ In "sni=example.com" parts
      /\ In "sid=ab" parts
      /\ Forall (fun part => String.prefix "alpn=" part = false) parts
      /\ (K <> EmptyString ->
          In ("pbk=" ++ Urllib.quote_plus "/:," K) parts
          /\ (PyStr.all unreserved K = true -> In ("pbk=" ++ K) parts))
      /\ (K = EmptyString -> Forall (fun part => String.prefix "pbk=" part = false) parts).
Proof.
  intros client inbound stream_settings port network ss rs K link more_names more_ids
         -> Hrs Hnames Hids Hkey H.
  destruct (vless_link_text settings client inbound (VDict ss) port network (VStr "reality")
              link H)
    as [uuid [email [flow [server [fragment [query [Huuid [Hemail [_ [Hserver [Hfragment
       [Hparams Hlink]]]]]]]]]]]].
  destruct (vless_params_shape flow (VDict ss) network (VStr "reality") query Hparams)
    as [_ Hkeys].
  unfold vless_params in Hparams. step Hparams.
  match goal with
  | Hs : vless_security_params _ _ _ = Ok ?p |- _ =>
      rename Hs into Hsec; rename p into secured
  end.
  destruct (vless_reality_params ss rs network K more_names more_ids secured
              Hrs Hnames Hids Hkey Hsec) as [Hsni [Hsid [Hpbk Halpn]]].
  assert (Hkeep : forall k,
             String.eqb "flow" k = false ->
             String.eqb "path" k = false -> String.eqb "host" k = false ->
             String.eqb "serviceName" k = false -> String.eqb "headerType" k = false ->
             Py.lookup k query = Py.lookup k secured)
    by (intros k; apply (vless_params_keep flow (VDict ss) network); exact Hparams).
  assert (Qsni : Py.lookup "sni" query = Some (VStr "example.com"))
    by (rewrite Hkeep; [exact Hsni | reflexivity ..]).
  assert (Qsid : Py.lookup "sid" query = Some (VStr "ab"))
    by (rewrite Hkeep; [exact Hsid | reflexivity ..]).
  assert (Qpbk : Py.lookup "pbk" query
                 = if String.eqb K EmptyString then None else Some (VStr K))
    by (rewrite Hkeep; [exact Hpbk | reflexivity ..]).
  assert (Qalpn : Py.lookup "alpn" query = None)
    by (rewrite Hkeep; [exact Halpn | reflexivity ..]).
  exists uuid, email, server, fragment, (map (Urllib.urlencode_pair "/:,") query).
  do 5 (split; [assumption|]).
  split; [apply parameters_of_query|].
  split.
  { apply (present_in_text query "sni" "example.com"); [simpl; tauto | exact Qsni]. }
  split.
  { apply (present_in_text query "sid" "ab"); [simpl; tauto | exact Qsid]. }
  split.
  { apply (absent_from_text query "alpn" Hkeys); [simpl; tauto | exact Qalpn]. }
  split.
  - intros HK.
    assert (Ipbk : In ("pbk=" ++ Urllib.quote_plus "/:," K)
                      (map (Urllib.urlencode_pair "/:,") query)).
    { apply (present_in_text query "pbk" K); [simpl; tauto|].
      rewrite Qpbk. destruct (String.eqb K EmptyString) eqn:E; [|reflexivity].
      apply String.eqb_eq in E. contradiction. }
    split; [exact Ipbk|].
    intros Hplain.
    rewrite <- (quote_plus_query_safe K (unreserved_query_safe K Hplain)) at 1. exact Ipbk.
  - intros ->. apply (absent_from_text query "pbk" Hkeys); [simpl; tauto | exact Qpbk].
Qed.

Lemma eq_str_true (v : value) (s : string) : Py.eq_str v s = true -> v = VStr s.
Proof.
  destruct v; simpl; try discriminate. intros H. apply String.eqb_eq in H. now subst.
Qed.



(** The first client with the email is one of the clients and carries
    the email. *)
Lemma first_client_found (email : string) (items : list value) (client : value) :
  first_client_with_email email items = Ok (Some client) ->
  In client items /\ has_email email client = true.
Proof.
  induction items as [|y items IH]; simpl; intros H; [discriminate|].
  destruct (Py.get y "email" VNone) as [em|e] eqn:Hy; simpl in H; [|discriminate].
  destruct (Py.eq_str em email) eqn:He.
  - injection H as <-. split; [now left|].
    destruct y; try discriminate. simpl in Hy. injection Hy as Hy. simpl. now rewrite Hy.
  - destruct (IH H) as [Hin Hhas]. split; [now right | exact Hhas].
Qed.

(** A link comes out of a fetched inbound only when the fetch
    succeeded, the inbound has an object, a listed client carries the
    email and the protocol is one of the three. *)
Lemma link_of_inbound_some (inbound_data : value) (email link : string) :
  link_of_inbound settings inbound_data email = Ok (Some link) ->
  success_flag inbound_data = true
  /\ Py.truthy (envelope_object inbound_data) = true
  /\ existsb (has_email email) (listed_clients (envelope_object inbound_data)) = true
  /\ supported_protocol (protocol_of (envelope_object inbound_data)) = true.
Proof.
  intros H. unfold link_of_inbound in H.
  destruct inbound_data as [| | | | |d]; try discriminate H.
  cbn [Py.get rbind] in H. cbn [success_flag envelope_object].
  destruct (Py.truthy (Py.dict_get d "success" VNone)); cbn [negb] in H; [|discriminate H].
  destruct (Py.truthy (Py.dict_get d "obj" VNone)) eqn:Hobj; cbn [negb] in H; [|discriminate H].
  destruct (Py.dict_get d "obj" VNone) as [| | | | |o]; try discriminate H.
  cbn [Py.get rbind] in H.
  unfold listed_clients, settings_text, protocol_of.
  destruct (Py.dict_get o "settings" (VStr "{}")) as [| | |s| |]; try discriminate H.
  cbn [py_json_loads] in H.
  destruct (json_loads s) as [msg|doc]; cbn [rbind] in H; [discriminate H|].
  destruct doc as [| | | | |sd]; try discriminate H.
  cbn [Py.get rbind] in H.
  destruct (Py.iter (Py.dict_get sd "clients" (VList []))) as [items|e];
    cbn [rbind] in H; [|discriminate H].
  destruct (first_client_with_email email items) as [[client|]|e] eqn:Hfind;
    cbn [rbind] in H; try discriminate H.
  destruct (first_client_found email items client Hfind) as [Hin Hhas].
  destruct (Py.truthy client); cbn [negb] in H; [|discriminate H].
  destruct (Py.dict_get o "protocol" (VStr EmptyString)) as [| | |tag| |]; try discriminate H.
  cbn [Py.lower rbind] in H.
  repeat split.
  - apply existsb_exists. exists client. now split.
  - unfold supported_protocol.
    destruct (String.eqb (PyStr.lower tag) "vless"); [reflexivity|].
    destruct (String.eqb (PyStr.lower tag) "vmess"); [reflexivity|].
    destruct (String.eqb (PyStr.lower tag) "trojan"); [reflexivity|].
    repeat step H. discriminate H.
Qed.

End Links.

Section LinkLookup.

Context `{RT : Runtime}.
Variable settings : Settings.
Variable panel : transport.

(** C9.  [get_client_link] never raises, and it returns [None] when
    the fetch of the inbound raises or comes back without a true success
    flag, when the envelope carries no object, when no client listed in
    the decoded settings carries the email, and when the protocol tag
    (compared in lower case) is none of vless, vmess and trojan. *)
Theorem C9_no_link_is_a_value :
  forall (st : state) (inbound_id : Z) (email : string),
    exists r : option string,
      get_client_link settings panel inbound_id email st
      = (Ok r, snd (get_inbound settings panel inbound_id st))
      /\ ((forall data, fst (get_inbound settings panel inbound_id st) <> Ok data) -> r = None)
      /\ (forall data : value,
             fst (get_inbound settings panel inbound_id st) = Ok data ->
             (success_flag data = false -> r = None)
             /\ (Py.truthy (envelope_object data) = false -> r = None)
             /\ (existsb (has_email email) (listed_clients (envelope_object data)) = false ->
                 r = None)
             /\ (supported_protocol (protocol_of (envelope_object data)) = false -> r = None)).
Proof.
  intros st inbound_id email. unfold get_client_link, catch, bind.
  destruct (get_inbound settings panel inbound_id st) as [[data | e] st'] eqn:Hfetch.
  - unfold lift.
    destruct (link_of_inbound settings data email) as [[link|]|e] eqn:Hlink.
    + destruct (link_of_inbound_some settings data email link Hlink) as [H1 [H2 [H3 H4]]].
      exists (Some link). split; [reflexivity|]. split.
      * intros Hno. exfalso. now apply (Hno data).
      * intros data' Hd. simpl in Hd. injection Hd as <-.
        rewrite H1, H2, H3, H4. repeat split; discriminate.
    + exists None. repeat split; auto.
    + exists None. repeat split; auto.
  - exists None. repeat split; auto.
Qed.

End LinkLookup.

(** *** The server address *)

(** Neither scheme starts inside a host that is followed by a colon and
    a digit. *)
Lemma no_scheme_in_host (h r : string) (d : ascii) :
  PyStr.all (fun c => negb (ends_host c)) h = true ->
  port_digit d = true ->
  PyStr.startswith "https://" (h ++ String ":" (String d r)) = false
  /\ PyStr.startswith "http://" (h ++ String ":" (String d r)) = false.
Proof.
  intros Hh Hd.
  assert (Hslash : d <> "/"%char) by (intros ->; discriminate Hd).
  unfold PyStr.startswith.
  split.
  - do 6 (destruct h as [|? h];
          [cbn [append String.prefix];
           repeat match goal with
                  | |- context [ascii_dec ?x ?y] =>
                      destruct (ascii_dec x y); [subst; try discriminate|reflexivity]
                  end; try congruence
          | cbn [append String.prefix];
            match goal with
            | |- context [ascii_dec ?x ?y] =>
                destruct (ascii_dec x y); [subst|reflexivity]
            end]).
    cbn in Hh. discriminate Hh.
  - do 5 (destruct h as [|? h];
          [cbn [append String.prefix];
           repeat match goal with
                  | |- context [ascii_dec ?x ?y] =>
                      destruct (ascii_dec x y); [subst; try discriminate|reflexivity]
                  end; try congruence
          | cbn [append String.prefix];
            match goal with
            | |- context [ascii_dec ?x ?y] =>
                destruct (ascii_dec x y); [subst|reflexivity]
            end]).
    cbn in Hh. discriminate Hh.
Qed.

Lemma digit_is_not_h (d : ascii) : port_digit d = true -> d <> "h"%char.
Proof. intros H ->. discriminate H. Qed.

(** Removing a scheme leaves such a host, its colon and the digit in
    place. *)
Lemma replace_keeps_host (p h r : string) (d : ascii) :
  p = "https://" \/ p = "http://" ->
  PyStr.all (fun c => negb (ends_host c)) h = true ->
  port_digit d = true ->
  PyStr.replace p EmptyString (h ++ String ":" (String d r))
  = h ++ String ":" (String d (PyStr.replace p EmptyString r)).
Proof.
  intros Hp Hh Hd. unfold PyStr.replace.
  induction h as [|c h IH].
  - destruct (no_scheme_in_host EmptyString r d eq_refl Hd) as [H1 H2].
    pose proof (digit_is_not_h d Hd) as Hne.
    cbn [append] in *. cbn [PyStr.replace_from].
    destruct Hp as [-> | ->].
    + rewrite H1. f_equal. cbn [PyStr.replace_from].
      unfold PyStr.startswith. cbn [String.prefix].
      destruct (ascii_dec "h" d) as [E|_]; [now subst|reflexivity].
    + rewrite H2. f_equal. cbn [PyStr.replace_from].
      unfold PyStr.startswith. cbn [String.prefix].
      destruct (ascii_dec "h" d) as [E|_]; [now subst|reflexivity].
  - destruct (no_scheme_in_host (String c h) r d Hh Hd) as [H1 H2].
    cbn [PyStr.all] in Hh. apply andb_true_iff in Hh as [_ Hh].
    cbn [append] in *. cbn [PyStr.replace_from].
    destruct Hp as [-> | ->].
    + rewrite H1. f_equal. apply IH; auto.
    + rewrite H2. f_equal. apply IH; auto.
Qed.

Lemma rstrip_keeps_port (a r : string) (d : ascii) :
  port_digit d = true ->
  PyStr.rstrip_char "/" (a ++ String d r) = a ++ String d (PyStr.rstrip_char "/" r).
Proof.
  intros Hd. induction a as [|x a IH]; cbn [append PyStr.rstrip_char].
  - destruct (Ascii.eqb d "/") eqn:E.
    + apply Ascii.eqb_eq in E. subst. discriminate Hd.
    + now rewrite andb_false_r.
  - rewrite IH. destruct a; reflexivity.
Qed.

Lemma split_head_host (h rest : string) :
  PyStr.all (fun c => negb (ends_host c)) h = true ->
  PyStr.split_head ":" (h ++ String ":" rest) = h.
Proof.
  induction h as [|c h IH]; cbn [append PyStr.split_head PyStr.all]; intros H.
  - reflexivity.
  - apply andb_true_iff in H as [Hc Hh].
    destruct (Ascii.eqb c ":") eqn:E.
    + apply Ascii.eqb_eq in E. subst. discriminate Hc.
    + now rewrite IH.
Qed.

Lemma until_delimiter_host (h rest : string) :
  PyStr.all (fun c => negb (ends_host c)) h = true ->
  until_delimiter (h ++ String ":" rest) = h.
Proof.
  induction h as [|c h IH]; cbn [append until_delimiter PyStr.all]; intros H.
  - reflexivity.
  - apply andb_true_iff in H as [Hc Hh]. apply negb_true_iff in Hc. rewrite Hc.
    now rewrite IH.
Qed.

Lemma prefix_empty (s : string) : String.prefix EmptyString s = true.
Proof. now destruct s. Qed.

(** The scheme at the head of an address. *)
Lemma replace_https_after_https (x : string) :
  PyStr.replace "https://" EmptyString ("https://" ++ x)
  = PyStr.replace "https://" EmptyString x.
Proof. unfold PyStr.replace. cbn. now destruct x. Qed.

Lemma replace_https_after_http (x : string) :
  PyStr.replace "https://" EmptyString ("http://" ++ x)
  = "http://" ++ PyStr.replace "https://" EmptyString x.
Proof. reflexivity. Qed.

Lemma replace_http_after_http (x : string) :
  PyStr.replace "http://" EmptyString ("http://" ++ x)
  = PyStr.replace "http://" EmptyString x.
Proof. unfold PyStr.replace. cbn. now destruct x. Qed.

Section ServerAddress.

Context `{RT : Runtime}.
Variable settings : Settings.

(** An inbound with a listen address other than the empty one and
    [0.0.0.0] is reached at that address. *)
Lemma server_address_listen (inbound : list (string * value)) (listen : string) :
  Py.dict_get inbound "listen" (VStr "0.0.0.0") = VStr listen ->
  listen <> "0.0.0.0" -> listen <> EmptyString ->
  server_address settings (VDict inbound) = Ok (VStr listen).
Proof.
  intros Hl H1 H2. unfold server_address. cbn [Py.get rbind]. rewrite Hl. cbn [Py.eq_str].
  destruct (String.eqb listen "0.0.0.0") eqn:E1; [apply String.eqb_eq in E1; contradiction|].
  destruct (String.eqb listen EmptyString) eqn:E2; [apply String.eqb_eq in E2; contradiction|].
  reflexivity.
Qed.

(** X24.  For an inbound that listens on every address ([0.0.0.0] or
    the empty string), when the base address is [http://] or [https://],
    a host, a colon and a port, possibly followed by a path, the server
    is the host portion of the base address. *)
Lemma server_address_with_port (inbound : list (string * value)) (scheme h r : string)
    (d : ascii) :
  scheme = "https://" \/ scheme = "http://" ->
  XUI_BASE_URL settings = scheme ++ h ++ String ":" (String d r) ->
  PyStr.all (fun c => negb (ends_host c)) h = true ->
  port_digit d = true ->
  Py.dict_get inbound "listen" (VStr "0.0.0.0") = VStr "0.0.0.0"
  \/ Py.dict_get inbound "listen" (VStr "0.0.0.0") = VStr EmptyString ->
  server_address settings (VDict inbound) = Ok (VStr h)
  /\ host_portion (XUI_BASE_URL settings) = h.
Proof.
  intros Hs Hbase Hh Hd Hl.
  assert (Hfallback :
            PyStr.split_head ":"
              (PyStr.replace "http://" EmptyString
                 (PyStr.replace "https://" EmptyString (base_url settings))) = h).
  { unfold base_url. rewrite Hbase.
    replace (scheme ++ h ++ String ":" (String d r))
      with ((scheme ++ h ++ ":") ++ String d r)
      by (rewrite !append_assoc; reflexivity).
    rewrite (rstrip_keeps_port _ r d Hd). rewrite !append_assoc.
    change (":" ++ String d (PyStr.rstrip_char "/" r))
      with (String ":" (String d (PyStr.rstrip_char "/" r))).
    destruct Hs as [-> | ->].
    - rewrite replace_https_after_https.
      rewrite (replace_keeps_host "https://" h _ d (or_introl eq_refl) Hh Hd).
      rewrite (replace_keeps_host "http://" h _ d (or_intror eq_refl) Hh Hd).
      now apply split_head_host.
    - rewrite replace_https_after_http.
      rewrite (replace_keeps_host "https://" h _ d (or_introl eq_refl) Hh Hd).
      rewrite replace_http_after_http.
      rewrite (replace_keeps_host "http://" h _ d (or_intror eq_refl) Hh Hd).
      now apply split_head_host. }
  split.
  - unfold server_address. cbn [Py.get rbind].
    destruct Hl as [-> | ->]; cbn [Py.eq_str String.eqb orb]; now rewrite Hfallback.
  - unfold host_portion. rewrite Hbase.
    destruct Hs as [-> | ->]; cbn; rewrite ?prefix_empty; now apply until_delimiter_host.
Qed.

End ServerAddress.

(** ** More on the session manager and the request executor *)

Section Session.

Context `{RT : Runtime}.
Variable settings : Settings.
Variable panel : transport.

(** X1.  A method that is neither GET nor POST, in any letter case, is
    refused before anything is sent: [_make_request], with either value
    of [retry_on_auth_error], raises [XUIClientError] with the message
    [Unsupported HTTP method: ] and the method as given; the [except]
    clauses let it through, no request goes out and the session is
    untouched.  (For a method in ASCII, where [upper] maps the letters
    [a] to [z] only.) *)
Theorem unsupported_method_is_refused :
  forall (st : state) (method endpoint : string) (data : option value)
         (retry_on_auth_error : bool),
    http_client st = true ->
    isascii method = true ->
    PyStr.upper method <> "GET" ->
    PyStr.upper method <> "POST" ->
    _make_request settings panel method endpoint data retry_on_auth_error st
    = (Raise (XUIClientError ("Unsupported HTTP method: " ++ method)), st).
Proof.
  intros st method endpoint data retry Hc _ Hget Hpost.
  assert (Hreq : api_request settings st method endpoint data = None).
  { unfold api_request.
    destruct (String.eqb_spec (PyStr.upper method) "GET") as [E|_]; [contradiction|].
    destruct (String.eqb_spec (PyStr.upper method) "POST") as [E|_]; [contradiction|].
    reflexivity. }
  assert (Hattempt : forall on_expiry,
             attempt settings panel on_expiry method endpoint data st
             = (Raise (XUIClientError ("Unsupported HTTP method: " ++ method)), st)).
  { intros on_expiry. unfold attempt. rewrite Hc. cbn [negb].
    unfold catch, bind. rewrite Hreq. reflexivity. }
  unfold _make_request. destruct retry; apply Hattempt.
Qed.

(** X2.  Only a 401 is retried.  When the first answer to a call is a
    network error, or a response with a status of 400 or more other than
    401, the call raises at once: one request has gone out, no login, and
    the session cookie is the one it had. *)
Theorem other_failures_are_not_retried :
  forall (st : state) (method endpoint : string) (data : option value) (req1 : request),
    http_client st = true ->
    api_request settings st method endpoint data = Some req1 ->
    (forall (kind : request_error_kind) (class_name msg : string),
        panel (sent st) req1 = Failed kind class_name msg ->
        call settings panel method endpoint data st
        = (Raise (XUIClientError ("Network error: " ++ msg)), sending req1 st))
    /\ (forall r1 : response,
           panel (sent st) req1 = Responded r1 ->
           status_code r1 >= 400 ->
           status_code r1 <> 401 ->
           call settings panel method endpoint data st
           = (Raise (XUIClientError
                       ("API request failed with status " ++ PyStr.of_int (status_code r1))),
              sending req1 st)).
Proof.
  intros st method endpoint data req1 Hc Hreq. unfold call. split.
  - intros kind cls msg Hresp.
    rewrite (make_request_direct settings panel st method endpoint data req1 Hc Hreq).
    2: { intros r Hr. rewrite Hresp in Hr. discriminate Hr. }
    rewrite (attempt_once settings panel st method endpoint data req1 Hc Hreq), Hresp.
    reflexivity.
  - intros r1 Hresp Hge Hne.
    rewrite (make_request_direct settings panel st method endpoint data req1 Hc Hreq).
    2: { intros r Hr. rewrite Hresp in Hr. injection Hr as <-. exact Hne. }
    rewrite (attempt_once settings panel st method endpoint data req1 Hc Hreq), Hresp.
    destruct (status_code r1 >=? 400) eqn:E; [reflexivity|].
    rewrite Z.geb_leb in E. apply Z.leb_gt in E. lia.
Qed.

Lemma cookie_pair_not_empty (name v : string) : name ++ "=" ++ v <> EmptyString.
Proof. destruct name; discriminate. Qed.

(** A response with a cookie gives a cookie header that is not empty. *)
Lemma cookie_of_not_empty (r : response) : cookies r <> [] -> cookie_of r <> EmptyString.
Proof.
  unfold cookie_of, PyStr.join. destruct (cookies r) as [|[name v] rest]; [contradiction|].
  intros _. cbn [map String.concat].
  destruct (map (fun '(name0, v0) => name0 ++ "=" ++ v0) rest).
  - apply cookie_pair_not_empty.
  - destruct name; discriminate.
Qed.

(** [login] on a client with its HTTP client: the cookie is replaced
    when the login is accepted, and only then. *)
Lemma login_result (st : state) :
  http_client st = true ->
  login settings panel st =
    match panel (sent st) (login_request settings) with
    | Responded r =>
        if accepted (Responded r) then
          (Ok true,
           {| session_cookie := Some (cookie_of r); http_client := true;
              sent := (sent st ++ [login_request settings])%list |})
        else
          (Raise (XUIClientError
                    ("Login failed: XUIClientError - " ++
                     if status_code r =? 200 then "No session cookie received"
                     else "Authentication failed with status " ++ PyStr.of_int (status_code r))),
           sending (login_request settings) st)
    | Failed kind class_name msg =>
        (Raise (XUIClientError
                  match kind with
                  | ConnectError => "Connection failed: Cannot connect to " ++ login_url settings
                  | TimeoutException => "Connection timeout to " ++ login_url settings
                  | OtherRequestError => "Login failed: " ++ class_name ++ " - " ++ msg
                  end),
         sending (login_request settings) st)
    end.
Proof.
  intros Hc. unfold login, catch, login_attempt. rewrite Hc. simpl.
  unfold bind, send.
  destruct (panel (sent st) (login_request settings)) as [r | kind cls msg].
  - unfold accepted, cookie_of. destruct (status_code r =? 200).
    + destruct (cookies r) as [|c cs]; simpl; [reflexivity|].
      unfold set_session_cookie, ret. simpl. rewrite Hc. reflexivity.
    + reflexivity.
  - destruct kind; reflexivity.
Qed.

(** X3.  [login] replaces the session cookie exactly when the panel
    answers its request with status 200 and at least one cookie: the new
    cookie is then the [name=value] pairs of the response joined by
    ["; "], and [login] returns [True].  Every other answer, and every
    network error, raises an [XUIClientError] and leaves the stored
    cookie as it was. *)
Theorem login_replaces_cookie_only_when_accepted :
  forall st : state,
    http_client st = true ->
    (forall r : response,
        panel (sent st) (login_request settings) = Responded r ->
        status_code r = 200 ->
        cookies r <> [] ->
        fst (login settings panel st) = Ok true
        /\ session_cookie (snd (login settings panel st)) = Some (cookie_of r))
    /\ (accepted (panel (sent st) (login_request settings)) = false ->
        (exists msg : string, fst (login settings panel st) = Raise (XUIClientError msg))
        /\ session_cookie (snd (login settings panel st)) = session_cookie st).
Proof.
  intros st Hc. rewrite (login_result st Hc). split.
  - intros r Hr H200 Hcookies. rewrite Hr. unfold accepted. rewrite H200.
    destruct (cookies r); [contradiction|]. split; reflexivity.
  - intros Hno. destruct (panel (sent st) (login_request settings)) as [r | kind cls msg].
    + rewrite Hno. split; [eexists|]; reflexivity.
    + split; [eexists|]; reflexivity.
Qed.

(** X4.  After a 401 and an accepted re-login the call goes out again
    with the cookie of the login response in its [Cookie] header, not the
    expired one, and otherwise as before: same method, address and body.
    The new cookie is the one the client keeps. *)
Theorem retried_call_carries_new_cookie :
  forall (st : state) (method endpoint : string) (data : option value)
         (req1 : request) (r1 rl : response),
    http_client st = true ->
    api_request settings st method endpoint data = Some req1 ->
    panel (sent st) req1 = Responded r1 ->
    status_code r1 = 401 ->
    panel (sent st ++ [req1])%list (login_request settings) = Responded rl ->
    status_code rl = 200 ->
    cookies rl <> [] ->
    let final := call settings panel method endpoint data st in
    let req2 := {| req_method := req_method req1; req_url := req_url req1;
                   req_headers := [("Cookie", cookie_of rl)]; req_body := req_body req1 |} in
    sent (snd final) = (sent st ++ [req1; login_request settings; req2])%list
    /\ session_cookie (snd final) = Some (cookie_of rl).
Proof.
  intros st method endpoint data req1 r1 rl Hc Hreq Hresp H401 Hlogin H200 Hcookies final req2.
  subst final. unfold call.
  rewrite (make_request_expired settings panel st method endpoint data req1 r1 Hc Hreq Hresp H401).
  rewrite (login_result (sending req1 st) Hc). cbn [sending sent]. rewrite Hlogin.
  unfold accepted. rewrite H200.
  destruct (cookies rl) as [|c cs] eqn:Hcs; [contradiction|].
  change (200 =? 200) with true. cbn [andb].
  assert (Hreq2 : api_request settings
                    {| session_cookie := Some (cookie_of rl); http_client := true;
                       sent := ((sent st ++ [req1]) ++ [login_request settings])%list |}
                    method endpoint data = Some req2).
  { subst req2. unfold api_request in *. unfold cookie_header. cbn [session_cookie].
    assert (Hne : cookie_of rl <> EmptyString) by (apply cookie_of_not_empty; now rewrite Hcs).
    destruct (String.eqb (cookie_of rl) EmptyString) eqn:E;
      [apply String.eqb_eq in E; contradiction|].
    destruct (String.eqb (PyStr.upper method) "GET");
      [|destruct (String.eqb (PyStr.upper method) "POST")];
      inversion Hreq; reflexivity. }
  cbv iota beta.
  rewrite (attempt_once settings panel
             {| session_cookie := Some (cookie_of rl); http_client := true;
                sent := ((sent st ++ [req1]) ++ [login_request settings])%list |}
             method endpoint data req2 eq_refl Hreq2).
  cbn [snd sending sent session_cookie]. rewrite <- !app_assoc. split; reflexivity.
Qed.

End Session.

(** ** The client outside and inside [async with] *)

Section ContextManager.

Context `{RT : Runtime}.
Variable settings : Settings.
Variable panel : transport.

Lemma call_not_initialised (st : state) (method endpoint : string) (data : option value) :
  http_client st = false ->
  call settings panel method endpoint data st
  = (Raise (XUIClientError "Client not initialized. Use async context manager."), st).
Proof. intros Hc. unfold call, _make_request, attempt. now rewrite Hc. Qed.

(** X5.  A client used outside [async with] has no HTTP client, and
    sends nothing: every operation raises the
    ["Client not initialized"] error before a request is made, except
    [get_client_link], which returns [None], and [login], whose failure
    to reach the missing client is reported as a failed login. *)
Theorem client_outside_context_sends_nothing :
  forall st : state,
    http_client st = false ->
    let e := XUIClientError "Client not initialized. Use async context manager." in
    (forall (method endpoint : string) (data : option value) (retry_on_auth_error : bool),
        _make_request settings panel method endpoint data retry_on_auth_error st = (Raise e, st))
    /\ get_inbound_list settings panel st = (Raise e, st)
    /\ (forall email : string,
           find_client_in_all_inbounds settings panel email st = (Raise e, st)
           /\ get_client_traffic settings panel email st = (Raise e, st)
           /\ delete_client_from_all_inbounds settings panel email st = (Raise e, st))
    /\ (forall (email uuid : string) (inbound_id : Z) (enable : bool),
           create_client settings panel email uuid inbound_id enable st = (Raise e, st)
           /\ update_client_status settings panel email uuid inbound_id enable st = (Raise e, st))
    /\ (forall uuid inbound_id : value,
           delete_client settings panel uuid inbound_id st = (Raise e, st))
    /\ (forall (inbound_id : Z) (email : string),
           get_client_link settings panel inbound_id email st = (Ok None, st))
    /\ login settings panel st
       = (Raise (XUIClientError
                   "Login failed: AttributeError - 'NoneType' object has no attribute 'post'"),
          st).
Proof.
  intros st Hc e. subst e.
  assert (Hlist : get_inbound_list settings panel st
                  = (Raise (XUIClientError "Client not initialized. Use async context manager."),
                     st)).
  { unfold get_inbound_list, bind. now rewrite call_not_initialised. }
  assert (Hfind : forall email,
             find_client_in_all_inbounds settings panel email st
             = (Raise (XUIClientError "Client not initialized. Use async context manager."),
                st)).
  { intros email. unfold find_client_in_all_inbounds, bind. now rewrite Hlist. }
  split.
  { intros method endpoint data [|]; unfold _make_request, attempt; now rewrite Hc. }
  split; [exact Hlist|]. split.
  { intros email. split; [apply Hfind|]. split.
    - unfold get_client_traffic, bind. now rewrite call_not_initialised.
    - unfold delete_client_from_all_inbounds, bind. now rewrite Hfind. }
  split.
  { intros email uuid inbound_id enable. split.
    - unfold create_client, bind. now rewrite Hfind.
    - unfold update_client_status, bind, get_inbound. now rewrite call_not_initialised. }
  split.
  { intros uuid inbound_id. unfold delete_client, bind. now rewrite call_not_initialised. }
  split.
  { intros inbound_id email. unfold get_client_link, catch, bind, get_inbound.
    now rewrite call_not_initialised. }
  unfold login, catch, login_attempt. now rewrite Hc.
Qed.

(** The state of a new client once [__aenter__] has set its HTTP
    client. *)
Lemma aenter_login (st : state) :
  aenter settings panel st =
    match login settings panel
            {| session_cookie := session_cookie st; http_client := true; sent := sent st |} with
    | (Ok _, st') => (Ok tt, st')
    | (Raise e, st') => (Raise e, st')
    end.
Proof.
  unfold aenter, bind.
  destruct (login settings panel _) as [[b | e] st']; reflexivity.
Qed.

(** The block when the panel accepts the login, and when it does not. *)
Lemma with_client_accepted {A : Type} (body : M A) (r : response) :
  panel [] (login_request settings) = Responded r ->
  status_code r = 200 ->
  cookies r <> [] ->
  with_client settings panel body
  = body {| session_cookie := Some (cookie_of r); http_client := true;
            sent := [login_request settings] |}.
Proof.
  intros Hr H200 Hcookies. unfold with_client, bind. rewrite aenter_login.
  rewrite (login_result settings panel
             {| session_cookie := session_cookie init; http_client := true; sent := sent init |}
             eq_refl).
  cbn [init sent session_cookie app]. rewrite Hr. unfold accepted. rewrite H200.
  destruct (cookies r); [contradiction|]. reflexivity.
Qed.

Lemma with_client_refused {A : Type} (body : M A) :
  accepted (panel [] (login_request settings)) = false ->
  exists msg : string,
    with_client settings panel body
    = (Raise (XUIClientError msg),
       {| session_cookie := None; http_client := true; sent := [login_request settings] |}).
Proof.
  intros Hno. unfold with_client, bind. rewrite aenter_login.
  rewrite (login_result settings panel
             {| session_cookie := session_cookie init; http_client := true; sent := sent init |}
             eq_refl).
  cbn [init sent session_cookie app].
  destruct (panel [] (login_request settings)) as [r | kind cls msg].
  - rewrite Hno. eexists. reflexivity.
  - eexists. reflexivity.
Qed.

(** X6.  Every [async with XUIClient()] block opens with one login
    request, sent without a [Cookie] header.  When the panel accepts it,
    the body runs with the cookie of the response; when it does not, the
    block raises an [XUIClientError], the body is not run and the login
    is the only request sent. *)
Theorem block_opens_with_login :
  forall (A : Type) (body : M A),
    req_headers (login_request settings)
    = [("Content-Type", "application/x-www-form-urlencoded")]
    /\ (forall r : response,
           panel [] (login_request settings) = Responded r ->
           status_code r = 200 ->
           cookies r <> [] ->
           with_client settings panel body
           = body {| session_cookie := Some (cookie_of r); http_client := true;
                     sent := [login_request settings] |})
    /\ (accepted (panel [] (login_request settings)) = false ->
        exists msg : string,
          with_client settings panel body
          = (Raise (XUIClientError msg),
             {| session_cookie := None; http_client := true;
                sent := [login_request settings] |})).
Proof.
  intros A body. split; [reflexivity|]. split.
  - apply with_client_accepted.
  - apply with_client_refused.
Qed.

End ContextManager.

(** ** [update_client_status] *)

Section UpdateStatus.

Context `{RT : Runtime}.
Variable settings : Settings.
Variable panel : transport.

(** On a list of objects the loop finds the first client with the email
    or the id. *)
Lemma first_match_of_dicts (email uuid : string) (enable : bool) (cs : list value) :
  forallb is_dict cs = true ->
  first_match_enabled email uuid enable cs =
    match List.find (email_or_id email uuid) cs with
    | Some client =>
        rbind (setitem client "enable" (VBool enable)) (fun updated => Ok (Some updated))
    | None => Ok None
    end.
Proof.
  induction cs as [|c cs IH]; simpl; intros H; [reflexivity|].
  apply andb_true_iff in H as [Hc Hcs].
  destruct c as [| | | | |d]; try discriminate. unfold email_or_id at 1. simpl.
  destruct (Py.eq_str (Py.dict_get d "email" VNone) email); simpl; [reflexivity|].
  destruct (Py.eq_str (Py.dict_get d "id" VNone) uuid); simpl; [reflexivity|].
  exact (IH Hcs).
Qed.

Lemma find_email_or_id (email uuid : string) (cs : list value) :
  forallb is_dict cs = true ->
  match List.find (email_or_id email uuid) cs with
  | Some client => existsb (email_or_id email uuid) cs = true /\ is_dict client = true
  | None => existsb (email_or_id email uuid) cs = false
  end.
Proof.
  induction cs as [|c cs IH]; simpl; intros H; [reflexivity|].
  apply andb_true_iff in H as [Hc Hcs].
  destruct (email_or_id email uuid c); simpl; [auto|]. exact (IH Hcs).
Qed.

(** What [update_client_status] does once a well-formed inbound is
    fetched. *)
Lemma update_after_fetch (st st' : state) (email uuid : string) (inbound_id : Z)
    (enable : bool) (d o : list (string * value)) (cs : list value) :
  get_inbound settings panel inbound_id st = (Ok (VDict d), st') ->
  Py.truthy (Py.dict_get d "success" VNone) = true ->
  Py.dict_get d "obj" VNone = VDict o ->
  decoded_clients (VDict o) = Some cs ->
  update_client_status settings panel email uuid inbound_id enable st =
    if existsb (email_or_id email uuid) cs
    then push_client_status settings panel uuid inbound_id enable st'
    else (Raise (XUIClientError ("Client not found: " ++ email)), st').
Proof.
  intros Hfetch Hs Ho Hcs. unfold update_client_status, bind. rewrite Hfetch.
  cbn [lift Py.get]. rewrite Hs. cbn [negb]. rewrite Ho. cbn [Py.get].
  unfold decoded_clients, settings_text in Hcs.
  destruct (Py.dict_get o "settings" (VStr "{}")) as [| | |s| |]; try discriminate.
  cbn [py_json_loads].
  destruct (json_loads s) as [msg|doc]; try discriminate.
  destruct doc as [| | | | |sd]; try discriminate. cbn [Py.get].
  destruct (Py.dict_get sd "clients" (VList [])) as [| | | |items|]; try discriminate.
  cbn [Py.iter].
  destruct (forallb is_dict items) eqn:Hd; try discriminate.
  injection Hcs as <-.
  rewrite (first_match_of_dicts email uuid enable items Hd).
  pose proof (find_email_or_id email uuid items Hd) as Hfind.
  destruct (List.find (email_or_id email uuid) items) as [client|].
  - destruct Hfind as [-> Hdict]. destruct client; try discriminate. reflexivity.
  - rewrite Hfind. reflexivity.
Qed.

(** The requests of a fetch do not go to the update endpoint. *)
Lemma fetch_requests (st : state) (inbound_id : Z) (uuid : string) :
  exists new : list request,
    sent (snd (get_inbound settings panel inbound_id st)) = (sent st ++ new)%list
    /\ Forall (fun r => req_url r <> base_url settings ++ update_client_endpoint uuid) new.
Proof.
  unfold get_inbound.
  destruct (call_requests settings panel st "GET"
              ("/panel/api/inbounds/get/" ++ PyStr.of_int inbound_id) None) as [new [Hnew Hall]].
  exists new. split; [exact Hnew|].
  eapply Forall_impl; [|exact Hall]. intros q [Hq | Hq] Habs; rewrite Hq in Habs.
  - apply append_cancel_l in Habs. discriminate.
  - unfold login_url in Habs. apply append_cancel_l in Habs. discriminate.
Qed.

(** X7.  [update_client_status] sends nothing to the update endpoint
    unless the fetched inbound lists the client.  When the fetch comes
    back without a true success flag it raises
    ["Failed to get inbound configuration"]; when the decoded client
    list holds no client with the email or the id it raises
    ["Client not found: <email>"]; in both cases the only requests made
    are those of the fetch. *)
Theorem update_needs_a_listed_client :
  forall (st st' : state) (email uuid : string) (inbound_id : Z) (enable : bool)
         (d : list (string * value)),
    get_inbound settings panel inbound_id st = (Ok (VDict d), st') ->
    (Py.truthy (Py.dict_get d "success" VNone) = false ->
     update_client_status settings panel email uuid inbound_id enable st
     = (Raise (XUIClientError "Failed to get inbound configuration"), st'))
    /\ (forall (o : list (string * value)) (cs : list value),
           Py.truthy (Py.dict_get d "success" VNone) = true ->
           Py.dict_get d "obj" VNone = VDict o ->
           decoded_clients (VDict o) = Some cs ->
           existsb (email_or_id email uuid) cs = false ->
           update_client_status settings panel email uuid inbound_id enable st
           = (Raise (XUIClientError ("Client not found: " ++ email)), st'))
    /\ exists new : list request,
         sent st' = (sent st ++ new)%list
         /\ Forall (fun r => req_url r <> base_url settings ++ update_client_endpoint uuid) new.
Proof.
  intros st st' email uuid inbound_id enable d Hfetch. split; [|split].
  - intros Hs. unfold update_client_status, bind. rewrite Hfetch.
    cbn [lift Py.get]. rewrite Hs. reflexivity.
  - intros o cs Hs Ho Hcs Hno.
    rewrite (update_after_fetch st st' email uuid inbound_id enable d o cs Hfetch Hs Ho Hcs).
    now rewrite Hno.
  - destruct (fetch_requests st inbound_id uuid) as [new Hnew].
    rewrite Hfetch in Hnew. exists new. exact Hnew.
Qed.

(** X8.  When the fetched inbound lists a client with the email, or
    with the id (a client found by its id alone is enough, whatever its
    email), [update_client_status] posts the object
    [{"id": uuid, "inboundId": inbound_id, "enable": enable}] to
    [/panel/api/inbounds/updateClient/<uuid>] and nothing of the fetched
    settings.  It returns [True] when the answer has a true success flag
    and raises ["Failed to update client: <msg>"] otherwise. *)
Theorem update_posts_the_status :
  forall (st st' : state) (email uuid : string) (inbound_id : Z) (enable : bool)
         (d o : list (string * value)) (cs : list value),
    get_inbound settings panel inbound_id st = (Ok (VDict d), st') ->
    Py.truthy (Py.dict_get d "success" VNone) = true ->
    Py.dict_get d "obj" VNone = VDict o ->
    decoded_clients (VDict o) = Some cs ->
    existsb (has_email email) cs = true \/ existsb (has_id uuid) cs = true ->
    forall (answer : list (string * value)) (st2 : state),
      call settings panel "POST" ("/panel/api/inbounds/updateClient/" ++ uuid)
        (Some (VDict [("id", VStr uuid); ("inboundId", VInt inbound_id);
                      ("enable", VBool enable)])) st'
      = (Ok (VDict answer), st2) ->
      update_client_status settings panel email uuid inbound_id enable st
      = (if Py.truthy (Py.dict_get answer "success" VNone) then Ok true
         else Raise (XUIClientError
                       ("Failed to update client: "
                        ++ py_str (Py.dict_get answer "msg" (VStr "Unknown error")))),
         st2).
Proof.
  intros st st' email uuid inbound_id enable d o cs Hfetch Hs Ho Hcs Hlisted answer st2 Hcall.
  rewrite (update_after_fetch st st' email uuid inbound_id enable d o cs Hfetch Hs Ho Hcs).
  assert (Hany : existsb (email_or_id email uuid) cs = true).
  { apply existsb_exists.
    destruct Hlisted as [H | H]; apply existsb_exists in H as [c [Hin Hc]];
      exists c; (split; [exact Hin|]); unfold email_or_id; rewrite Hc;
      [reflexivity | apply orb_true_r]. }
  rewrite Hany. unfold push_client_status, bind, update_client_endpoint, status_data.
  rewrite Hcall. cbn [lift Py.get].
  destruct (Py.truthy (Py.dict_get answer "success" VNone)); reflexivity.
Qed.

(** X9.  Unlike the scan over the inbounds, [update_client_status] does
    not pass over settings it cannot read.  A settings text that is not
    JSON raises the [JSONDecodeError] of the decoder, and an envelope
    that succeeds without an object raises an [AttributeError]; neither
    is an [XUIClientError], and in both cases nothing is sent after the
    fetch. *)
Theorem update_does_not_skip_unreadable_settings :
  forall (st st' : state) (email uuid : string) (inbound_id : Z) (enable : bool)
         (d : list (string * value)),
    get_inbound settings panel inbound_id st = (Ok (VDict d), st') ->
    Py.truthy (Py.dict_get d "success" VNone) = true ->
    (forall (o : list (string * value)) (s msg : string),
        Py.dict_get d "obj" VNone = VDict o ->
        settings_text (VDict o) = Some s ->
        json_loads s = inl msg ->
        malformed_settings (VDict o) = true
        /\ update_client_status settings panel email uuid inbound_id enable st
           = (Raise (JSONDecodeError msg), st'))
    /\ (Py.dict_get d "obj" VNone = VNone ->
        update_client_status settings panel email uuid inbound_id enable st
        = (Raise (AttributeError "'NoneType' object has no attribute 'get'"), st')).
Proof.
  intros st st' email uuid inbound_id enable d Hfetch Hs. split.
  - intros o s msg Ho Htext Hjson. split.
    + unfold malformed_settings. now rewrite Htext, Hjson.
    + unfold update_client_status, bind. rewrite Hfetch.
      cbn [lift Py.get]. rewrite Hs. cbn [negb]. rewrite Ho. cbn [Py.get].
      unfold settings_text in Htext.
      destruct (Py.dict_get o "settings" (VStr "{}")) as [| | |s0| |]; try discriminate.
      injection Htext as ->. cbn [py_json_loads]. now rewrite Hjson.
  - intros Ho. unfold update_client_status, bind. rewrite Hfetch.
    cbn [lift Py.get]. rewrite Hs. cbn [negb]. rewrite Ho. reflexivity.
Qed.

End UpdateStatus.

(** ** More on the lifecycle operations *)

Section Operations.

Context `{RT : Runtime}.
Variable settings : Settings.
Variable panel : transport.

(** The scan is the listing followed by a computation that sends
    nothing. *)
Lemma find_after_listing (st : state) (email : string) (info : value) (st' : state) :
  find_client_in_all_inbounds settings panel email st = (Ok info, st') ->
  exists inbounds items,
    get_inbound_list settings panel st = (Ok inbounds, st')
    /\ Py.iter inbounds = Ok items
    /\ scan_inbounds email items = Ok info.
Proof.
  unfold find_client_in_all_inbounds, bind. intros H.
  destruct (get_inbound_list settings panel st) as [[inbounds | e] st0]; [|discriminate].
  unfold lift in H. injection H as Hscan <-.
  destruct (Py.iter inbounds) as [items|e] eqn:Hiter; simpl in Hscan; [|discriminate].
  exists inbounds, items. split; [reflexivity|]. split; [exact Hiter | exact Hscan].
Qed.

(** X10.  What [find_client_in_all_inbounds] returns is [None] or an
    object with exactly the keys [inbound_id], [inbound_remark] and
    [client], in this order, whose client is an object carrying the
    email; this holds for every listing, well formed or not.  So the
    subscripts [existing_client['inbound_remark']],
    [client_info["inbound_id"]] and [client_info["client"]] of its
    callers find their key. *)
Theorem found_client_has_three_keys :
  forall (st st' : state) (email : string) (info : value),
    find_client_in_all_inbounds settings panel email st = (Ok info, st') ->
    info = VNone
    \/ exists (inbound_id inbound_remark : value) (fields : list (string * value)),
         info = VDict [("inbound_id", inbound_id); ("inbound_remark", inbound_remark);
                       ("client", VDict fields)]
         /\ Py.dict_get fields "email" VNone = VStr email
         /\ Py.truthy info = true.
Proof.
  intros st st' email info H.
  destruct (find_after_listing st email info st' H) as [inbounds [items [_ [_ Hscan]]]].
  destruct (scan_inbounds_shape email items info Hscan) as [-> | [i [r [c [-> Hc]]]]];
    [now left | right].
  destruct c as [| | | | |fields]; try discriminate Hc.
  exists i, r, fields. split; [reflexivity|]. split; [|reflexivity].
  simpl in Hc. now apply eq_str_true.
Qed.

(** X11.  [delete_client_from_all_inbounds] deletes the client from one
    inbound only, the first that holds the email: the requests it makes
    after the scan go to the delete endpoint of that inbound and of that
    client's id (or to the login endpoint).  It returns [True] when that
    deletion succeeds and [False] when it raises, whatever the error, and
    [False] without a further request when the scan finds nothing; once
    the scan has returned, it does not raise. *)
Theorem delete_everywhere_deletes_first_match :
  forall (st st1 : state) (email : string) (info : value),
    find_client_in_all_inbounds settings panel email st = (Ok info, st1) ->
    (info = VNone ->
     delete_client_from_all_inbounds settings panel email st = (Ok false, st1))
    /\ (forall (inbound_id inbound_remark : value) (fields : list (string * value)),
           info = VDict [("inbound_id", inbound_id); ("inbound_remark", inbound_remark);
                         ("client", VDict fields)] ->
           let uuid := Py.dict_get fields "id" VNone in
           let deletion := delete_client settings panel uuid inbound_id st1 in
           delete_client_from_all_inbounds settings panel email st
           = (Ok (match fst deletion with Ok _ => true | Raise _ => false end), snd deletion)
           /\ exists new : list request,
                sent (snd deletion) = (sent st1 ++ new)%list
                /\ Forall (fun r =>
                             req_url r = base_url settings ++ "/panel/api/inbounds/"
                                         ++ py_str inbound_id ++ "/delClient/" ++ py_str uuid
                             \/ req_url r = login_url settings) new).
Proof.
  intros st st1 email info Hfind. split.
  - intros ->. unfold delete_client_from_all_inbounds, bind. rewrite Hfind. reflexivity.
  - intros inbound_id inbound_remark fields -> uuid deletion. split.
    + unfold delete_client_from_all_inbounds, bind at 1. rewrite Hfind.
      cbn [Py.truthy negb]. unfold bind at 1. cbn [lift Py.getitem Py.lookup String.eqb
        Ascii.eqb Bool.eqb]. unfold bind at 1. cbn [lift Py.getitem Py.lookup String.eqb Ascii.eqb Bool.eqb].
      unfold bind at 1. cbn [lift Py.get]. unfold catch, bind at 1.
      fold uuid. fold deletion.
      destruct deletion as [[b | e] st2]; reflexivity.
    + subst deletion. unfold delete_client, bind.
      destruct (call_requests settings panel st1 "POST"
                  ("/panel/api/inbounds/" ++ py_str inbound_id ++ "/delClient/" ++ py_str uuid)
                  (Some (VDict []))) as [new [Hnew Hall]].
      exists new. split; [|exact Hall].
      destruct (call settings panel "POST" _ (Some (VDict [])) st1) as [[res | e] st2];
        [|exact Hnew].
      simpl in Hnew. unfold lift.
      destruct (Py.get res "success" VNone) as [s|e]; [|exact Hnew].
      destruct (Py.truthy s); [exact Hnew|].
      destruct (Py.get res "msg" (VStr "Unknown error")); exact Hnew.
Qed.

(** X12.  The default [[]] of [result.get("obj", [])] only stands in for
    a missing key.  When the list call succeeds with [obj] present and
    null, [get_inbound_list] returns [None], and the loop of
    [find_client_in_all_inbounds] over it raises a [TypeError], which
    [create_client] and [delete_client_from_all_inbounds] pass on. *)
Theorem null_listing_is_not_iterable :
  forall (st st' : state) (d : list (string * value)),
    call settings panel "GET" list_endpoint None st = (Ok (VDict d), st') ->
    Py.truthy (Py.dict_get d "success" VNone) = true ->
    Py.lookup "obj" d = Some VNone ->
    get_inbound_list settings panel st = (Ok VNone, st')
    /\ forall email : string,
         find_client_in_all_inbounds settings panel email st = (Raise TypeError, st')
         /\ delete_client_from_all_inbounds settings panel email st = (Raise TypeError, st')
         /\ forall (uuid : string) (inbound_id : Z) (enable : bool),
              create_client settings panel email uuid inbound_id enable st
              = (Raise TypeError, st').
Proof.
  intros st st' d Hcall Hs Hobj.
  assert (Hl : get_inbound_list settings panel st = (Ok VNone, st')).
  { rewrite (get_inbound_list_of_envelope settings panel st st' d Hcall), Hs.
    unfold Py.dict_get. now rewrite Hobj. }
  split; [exact Hl|]. intros email.
  assert (Hf : find_client_in_all_inbounds settings panel email st = (Raise TypeError, st')).
  { unfold find_client_in_all_inbounds, bind. rewrite Hl. reflexivity. }
  split; [exact Hf|]. split.
  - unfold delete_client_from_all_inbounds, bind. now rewrite Hf.
  - intros uuid inbound_id enable. unfold create_client, bind. now rewrite Hf.
Qed.

(** A message that does not mention ["Duplicate email"] does not match
    the pattern. *)
Lemma search_needs_mention (m : string) :
  PyStr.contains "Duplicate email" m = false -> Re.search_duplicate_email m = None.
Proof.
  intros H. destruct (Re.search_duplicate_email m) as [g|] eqn:E; [|reflexivity].
  rewrite (search_duplicate_mentions m g E) in H. discriminate H.
Qed.

(** X13.  How [create_client] reads the answer of the create endpoint,
    once its scan has found nothing.  A true success flag gives [True].
    For a refusal whose message is text: when [Duplicate email: (.+)]
    matches, the error names the matched label, trimmed; otherwise, also
    when the message says ["Duplicate email"] with no label after it, the
    error is ["Failed to create client: "] followed by the message as it
    came. *)
Theorem create_reads_the_refusal :
  forall (st st1 st2 : state) (email uuid : string) (inbound_id : Z) (enable : bool)
         (d : list (string * value)),
    find_client_in_all_inbounds settings panel email st = (Ok VNone, st1) ->
    call settings panel "POST" add_client_endpoint
      (Some (request_data email uuid inbound_id enable)) st1 = (Ok (VDict d), st2) ->
    (Py.truthy (Py.dict_get d "success" VNone) = true ->
     create_client settings panel email uuid inbound_id enable st = (Ok true, st2))
    /\ (forall m : string,
           Py.truthy (Py.dict_get d "success" VNone) = false ->
           Py.dict_get d "msg" (VStr "Unknown error") = VStr m ->
           create_client settings panel email uuid inbound_id enable st
           = (Raise (XUIClientError
                       match Re.search_duplicate_email m with
                       | Some group1 => duplicate_email_message (PyStr.strip group1)
                       | None => "Failed to create client: " ++ m
                       end), st2)).
Proof.
  intros st st1 st2 email uuid inbound_id enable d Hfind Hcall.
  assert (Hcreate : create_client settings panel email uuid inbound_id enable st
                    = add_client settings panel email uuid inbound_id enable st1).
  { unfold create_client, bind. rewrite Hfind. reflexivity. }
  rewrite Hcreate. split.
  - intros Hs. unfold add_client, bind. rewrite Hcall. cbn [lift Py.get]. now rewrite Hs.
  - intros m Hs Hm. unfold add_client, bind. rewrite Hcall. cbn [lift Py.get].
    rewrite Hs, Hm. cbn [Py.contains search_duplicate].
    destruct (PyStr.contains "Duplicate email" m) eqn:Hmention.
    + destruct (Re.search_duplicate_email m); reflexivity.
    + rewrite (search_needs_mention m Hmention). reflexivity.
Qed.

End Operations.

(** ** The operations that only read *)

Section Reading.

Context `{RT : Runtime}.
Variable settings : Settings.
Variable panel : transport.

Lemma api_request_get (st : state) (endpoint : string) :
  api_request settings st "GET" endpoint None
  = Some {| req_method := "GET"; req_url := base_url settings ++ endpoint;
            req_headers := cookie_header st; req_body := NoBody |}.
Proof. reflexivity. Qed.

Lemma reads_get (st : state) (endpoint : string) :
  reads settings endpoint
    {| req_method := "GET"; req_url := base_url settings ++ endpoint;
       req_headers := cookie_header st; req_body := NoBody |}.
Proof. right. repeat split. Qed.

(** A GET call sends GET requests to its endpoint and, after a 401, the
    login. *)
Lemma call_get_reads (st : state) (endpoint : string) :
  only_reads settings endpoint st (snd (call settings panel "GET" endpoint None st)).
Proof.
  unfold only_reads, call.
  destruct (http_client st) eqn:Hc.
  2: { exists []. unfold _make_request, attempt. rewrite Hc. simpl.
       rewrite app_nil_r. auto. }
  pose proof (api_request_get st endpoint) as Hreq.
  set (req1 := {| req_method := "GET"; req_url := base_url settings ++ endpoint;
                  req_headers := cookie_header st; req_body := NoBody |}) in *.
  assert (Hdirect :
            (forall r1, panel (sent st) req1 = Responded r1 -> status_code r1 <> 401) ->
            exists new : list request,
              sent (snd (_make_request settings panel "GET" endpoint None true st))
              = (sent st ++ new)%list
              /\ Forall (reads settings endpoint) new).
  { intros Hne. rewrite (make_request_direct settings panel st "GET" endpoint None req1 Hc Hreq Hne).
    rewrite (attempt_once settings panel st "GET" endpoint None req1 Hc Hreq). simpl.
    exists [req1]. split; [reflexivity|]. constructor; [apply reads_get | constructor]. }
  destruct (panel (sent st) req1) as [r1 | kind cls msg] eqn:Hresp.
  2: { apply Hdirect. intros r Hr. discriminate Hr. }
  destruct (Z.eq_dec (status_code r1) 401) as [H401 | Hne].
  2: { apply Hdirect. intros r Hr. injection Hr as <-. exact Hne. }
  rewrite (make_request_expired settings panel st "GET" endpoint None req1 r1 Hc Hreq Hresp H401).
  destruct (login_sent settings panel (sending req1 st) Hc) as [Hsent Hc2].
  destruct (login settings panel (sending req1 st)) as [[b | e] st2]; simpl in Hsent, Hc2;
    rewrite <- app_assoc in Hsent; simpl in Hsent.
  - rewrite (attempt_once settings panel st2 "GET" endpoint None _ Hc2
               (api_request_get st2 endpoint)). simpl.
    exists [req1; login_request settings;
            {| req_method := "GET"; req_url := base_url settings ++ endpoint;
               req_headers := cookie_header st2; req_body := NoBody |}].
    rewrite Hsent, <- app_assoc. split; [reflexivity|].
    constructor; [apply reads_get|].
    constructor; [now left|].
    constructor; [apply reads_get | constructor].
  - exists [req1; login_request settings]. simpl. rewrite Hsent. split; [reflexivity|].
    constructor; [apply reads_get|]. constructor; [now left | constructor].
Qed.

Lemma get_inbound_list_state (st : state) :
  snd (get_inbound_list settings panel st) = snd (call settings panel "GET" list_endpoint None st).
Proof.
  unfold get_inbound_list, bind.
  destruct (call settings panel "GET" list_endpoint None st) as [[res | e] st']; [|reflexivity].
  unfold lift. destruct (Py.get res "success" VNone) as [s|e]; [|reflexivity].
  destruct (Py.truthy s); [|reflexivity].
  destruct (Py.get res "obj" (VList [])); reflexivity.
Qed.

(** X14.  Looking things up changes nothing on the panel.
    [get_inbound], [get_client_link], [get_inbound_list],
    [find_client_in_all_inbounds] and [get_client_traffic] send GET
    requests without a body to their one endpoint and, when the session
    has expired, the login; whatever they return or raise, they send
    nothing else. *)
Theorem lookups_only_read :
  forall st : state,
    (forall inbound_id : Z,
        only_reads settings ("/panel/api/inbounds/get/" ++ PyStr.of_int inbound_id) st
          (snd (get_inbound settings panel inbound_id st)))
    /\ (forall (inbound_id : Z) (email : string),
           only_reads settings ("/panel/api/inbounds/get/" ++ PyStr.of_int inbound_id) st
             (snd (get_client_link settings panel inbound_id email st)))
    /\ only_reads settings "/panel/api/inbounds/list" st (snd (get_inbound_list settings panel st))
    /\ (forall email : string,
           only_reads settings "/panel/api/inbounds/list" st
             (snd (find_client_in_all_inbounds settings panel email st)))
    /\ (forall email : string,
           only_reads settings ("/panel/api/inbounds/getClientTraffics/" ++ email) st
             (snd (get_client_traffic settings panel email st))).
Proof.
  intros st. split; [|split; [|split; [|split]]].
  - intros inbound_id. apply call_get_reads.
  - intros inbound_id email.
    assert (Hst : snd (get_client_link settings panel inbound_id email st)
                  = snd (get_inbound settings panel inbound_id st)).
    { unfold get_client_link, catch, bind.
      destruct (get_inbound settings panel inbound_id st) as [[data | e] st']; [|reflexivity].
      unfold lift. destruct (link_of_inbound settings data email) as [[link|]|e]; reflexivity. }
    rewrite Hst. apply call_get_reads.
  - rewrite get_inbound_list_state. apply call_get_reads.
  - intros email.
    assert (Hst : snd (find_client_in_all_inbounds settings panel email st)
                  = snd (get_inbound_list settings panel st)).
    { unfold find_client_in_all_inbounds, bind.
      destruct (get_inbound_list settings panel st) as [[inbounds | e] st']; [|reflexivity].
      unfold lift. reflexivity. }
    rewrite Hst, get_inbound_list_state. apply call_get_reads.
  - intros email.
    assert (Hst : snd (get_client_traffic settings panel email st)
                  = snd (call settings panel "GET"
                           ("/panel/api/inbounds/getClientTraffics/" ++ email) None st)).
    { unfold get_client_traffic, bind, lift, ret.
      destruct (call settings panel "GET" _ None st) as [[res | e] st']; [|reflexivity].
      repeat match goal with
             | |- context [if ?b then _ else _] => destruct b
             | |- context [match ?x with Ok _ => _ | Raise _ => _ end] => destruct x
             end; reflexivity. }
    rewrite Hst. apply call_get_reads.
Qed.

End Reading.

(** ** More on the links *)

Lemma startswith_append (p s : string) : PyStr.startswith p (p ++ s) = true.
Proof.
  unfold PyStr.startswith. induction p as [|c p IH]; cbn [append String.prefix].
  - apply prefix_empty.
  - destruct (ascii_dec c c); [exact IH | contradiction].
Qed.

Section MoreLinks.

Context `{RT : Runtime}.
Variable settings : Settings.

(** Reading a result equation one binding at a time. *)
Ltac bound H :=
  match type of H with
  | rbind ?r _ = Ok _ =>
      let a := fresh "x" in
      let E := fresh "E" in
      destruct r as [a|] eqn:E; cbn [rbind] in H; [|discriminate H]
  end.

(** The three builders put their scheme first. *)
Lemma vless_link_scheme (client inbound stream_settings port network security : value)
    (link : string) :
  _build_vless_link settings client inbound stream_settings port network security = Ok link ->
  PyStr.startswith "vless://" link = true.
Proof.
  intros H. unfold _build_vless_link in H. repeat bound H. injection H as <-.
  apply (startswith_append "vless://").
Qed.

Lemma vmess_link_scheme (client inbound stream_settings port network security : value)
    (link : string) :
  _build_vmess_link settings client inbound stream_settings port network security = Ok link ->
  PyStr.startswith "vmess://" link = true.
Proof.
  intros H. unfold _build_vmess_link in H. repeat bound H. injection H as <-.
  apply (startswith_append "vmess://").
Qed.

Lemma trojan_link_scheme (client inbound stream_settings port network security : value)
    (link : string) :
  _build_trojan_link settings client inbound stream_settings port network security = Ok link ->
  PyStr.startswith "trojan://" link = true.
Proof.
  intros H. unfold _build_trojan_link in H. repeat bound H. injection H as <-.
  apply (startswith_append "trojan://").
Qed.

(** A link that comes out of a fetched inbound starts with the protocol
    of the inbound. *)
Lemma link_of_inbound_scheme (inbound_data : value) (email link : string) :
  link_of_inbound settings inbound_data email = Ok (Some link) ->
  PyStr.startswith (protocol_of (envelope_object inbound_data) ++ "://") link = true.
Proof.
  intros H. unfold link_of_inbound in H.
  destruct inbound_data as [| | | | |d]; try discriminate H.
  cbn [Py.get rbind] in H. cbn [envelope_object].
  destruct (Py.truthy (Py.dict_get d "success" VNone)); cbn [negb] in H; [|discriminate H].
  destruct (Py.truthy (Py.dict_get d "obj" VNone)); cbn [negb] in H; [|discriminate H].
  destruct (Py.dict_get d "obj" VNone) as [| | | | |o]; try discriminate H.
  cbn [Py.get rbind] in H. unfold protocol_of.
  repeat bound H.
  match goal with
  | Hf : first_client_with_email _ _ = Ok ?f |- _ => destruct f as [target|]
  end; cbn [Py.truthy negb] in H; [|discriminate H].
  destruct (Py.truthy target); cbn [negb] in H; [|discriminate H].
  destruct (Py.dict_get o "protocol" (VStr EmptyString)) as [| | |tag| |]; try discriminate H.
  cbn [Py.lower rbind] in H. repeat bound H.
  destruct (String.eqb (PyStr.lower tag) "vless") eqn:Evless.
  { apply String.eqb_eq in Evless. rewrite Evless. bound H. injection H as <-.
    eapply vless_link_scheme. eassumption. }
  destruct (String.eqb (PyStr.lower tag) "vmess") eqn:Evmess.
  { apply String.eqb_eq in Evmess. rewrite Evmess. bound H. injection H as <-.
    eapply vmess_link_scheme. eassumption. }
  destruct (String.eqb (PyStr.lower tag) "trojan") eqn:Etrojan.
  { apply String.eqb_eq in Etrojan. rewrite Etrojan. bound H. injection H as <-.
    eapply trojan_link_scheme. eassumption. }
  discriminate H.
Qed.

Lemma startswith_not_empty (p s : string) :
  p <> EmptyString -> PyStr.startswith p s = true -> s <> EmptyString.
Proof.
  intros Hp H ->. destruct p; [contradiction | discriminate H].
Qed.

Lemma link_of_inbound_not_empty (inbound_data : value) (email link : string) :
  link_of_inbound settings inbound_data email = Ok (Some link) -> link <> EmptyString.
Proof.
  intros H. apply link_of_inbound_scheme in H.
  eapply startswith_not_empty; [|exact H].
  destruct (protocol_of (envelope_object inbound_data)); discriminate.
Qed.

End MoreLinks.

Section LinkSchemes.

Context `{RT : Runtime}.
Variable settings : Settings.
Variable panel : transport.

(** X15.  A link returned by [get_client_link] starts with the protocol
    of the fetched inbound, in lower case, and [://]: a vless inbound
    gives a [vless://] link, a vmess inbound a [vmess://] link, a trojan
    inbound a [trojan://] link, also when the panel writes the tag in
    upper case. *)
Theorem link_scheme_is_the_protocol :
  forall (st : state) (inbound_id : Z) (email link : string),
    fst (get_client_link settings panel inbound_id email st) = Ok (Some link) ->
    exists data : value,
      fst (get_inbound settings panel inbound_id st) = Ok data
      /\ PyStr.startswith (protocol_of (envelope_object data) ++ "://") link = true.
Proof.
  intros st inbound_id email link. unfold get_client_link, catch, bind.
  destruct (get_inbound settings panel inbound_id st) as [[data | e] st']; [|discriminate].
  unfold lift. destruct (link_of_inbound settings data email) as [[l|]|e] eqn:Hlink;
    cbn [fst ret]; try discriminate.
  intros H. injection H as <-. exists data. split; [reflexivity|].
  exact (link_of_inbound_scheme settings data email l Hlink).
Qed.

End LinkSchemes.

Section LinkParameters.

Context `{RT : Runtime}.
Variable settings : Settings.

Ltac bound H :=
  match type of H with
  | rbind ?r _ = Ok _ =>
      let a := fresh "x" in
      let E := fresh "E" in
      destruct r as [a|] eqn:E; cbn [rbind] in H; [|discriminate H]
  end.

(** X16.  A trojan link is
    [trojan://<password>@<server>:<port>?<query>#<email>], the email
    percent-encoded.  Its query always holds [type] and [security], in
    this order, and holds [sni] after them exactly when the security is
    tls and the tls settings name a server; it is encoded with no
    character kept safe, with [+] for a space. *)
Theorem trojan_link_parameters :
  forall (client inbound stream_settings port network security : value) (link : string),
    _build_trojan_link settings client inbound stream_settings port network security = Ok link ->
    exists (password email server : value) (fragment : string) (query : params),
      Py.get client "password" (VStr EmptyString) = Ok password
      /\ Py.get client "email" (VStr EmptyString) = Ok email
      /\ server_address settings inbound = Ok server
      /\ Urllib.quote_value "/" email = Ok fragment
      /\ link = "trojan://" ++ py_str password ++ "@" ++ py_str server ++ ":" ++ py_str port
                ++ "?" ++ Urllib.urlencode query EmptyString ++ "#" ++ fragment
      /\ (Py.eq_str security "tls" = false ->
          query = [("type", network); ("security", security)])
      /\ (Py.eq_str security "tls" = true ->
          exists tls_settings : list (string * value),
            Py.get stream_settings "tlsSettings" (VDict []) = Ok (VDict tls_settings)
            /\ let sni := Py.dict_get tls_settings "serverName" (VStr EmptyString) in
               query = if Py.truthy sni
                       then [("type", network); ("security", security); ("sni", sni)]
                       else [("type", network); ("security", security)]).
Proof.
  intros client inbound stream_settings port network security link H.
  unfold _build_trojan_link in H.
  do 3 bound H.
  destruct (Py.eq_str security "tls") eqn:Htls.
  - bound H.
    match goal with
    | Hq : rbind (Py.get stream_settings _ _) _ = Ok ?q |- _ =>
        rename Hq into Hquery; rename q into query
    end.
    bound H. injection H as <-.
    do 2 bound Hquery. injection Hquery as Hquery.
    match goal with
    | Ht : Py.get stream_settings "tlsSettings" _ = Ok ?t,
      Hs : Py.get ?t "serverName" _ = Ok ?s |- _ =>
        rename Ht into Gtls; rename Hs into Gsni; rename t into tlsv; rename s into sni
    end.
    destruct tlsv as [| | | | |tls_settings]; try discriminate Gsni.
    cbn [Py.get] in Gsni. injection Gsni as Gsni.
    eexists _, _, _, _, query. do 5 (split; [eassumption || reflexivity|]).
    split; [discriminate|]. intros _. exists tls_settings. split; [reflexivity|].
    cbn zeta. rewrite Gsni, <- Hquery.
    destruct (Py.truthy sni); reflexivity.
  - cbn [rbind] in H. bound H. injection H as <-.
    eexists _, _, _, _, [("type", network); ("security", security)].
    do 5 (split; [eassumption || reflexivity|]).
    split; [reflexivity | discriminate].
Qed.

(** The [tls] branch of a vless link. *)
Lemma vless_tls_params (ss ts : list (string * value)) (name : string)
    (parts : list value) (names : list string) (p0 p : params) :
  Py.dict_get ss "tlsSettings" (VDict []) = VDict ts ->
  Py.dict_get ts "serverName" (VStr EmptyString) = VStr name ->
  name <> EmptyString ->
  Py.dict_get ts "alpn" (VList []) = VList parts ->
  parts <> [] ->
  Py.strings_of parts = Ok names ->
  vless_security_params (VDict ss) (VStr "tls") p0 = Ok p ->
  p = Py.dict_set (Py.dict_set (Py.dict_set p0 "security" (VStr "tls")) "sni" (VStr name))
        "alpn" (VStr (PyStr.join "," names)).
Proof.
  intros Hts Hname Hne Halpn Hparts Hnames H.
  unfold vless_security_params in H.
  change (Py.eq_str (VStr "tls") "tls") with true in H.
  cbn [Py.get rbind] in H. rewrite Hts in H. cbn [Py.get rbind] in H.
  rewrite Hname, Halpn in H.
  assert (Ht : Py.truthy (VStr name) = true).
  { simpl. destruct (String.eqb name EmptyString) eqn:E; [|reflexivity].
    apply String.eqb_eq in E. contradiction. }
  rewrite Ht in H.
  destruct parts as [|part parts]; [contradiction|].
  cbn [Py.truthy] in H. unfold Py.join in H. cbn [Py.iter rbind] in H.
  rewrite Hnames in H. cbn [rbind] in H. now injection H as <-.
Qed.

(** The flow and the transport add none of the security parameters. *)
(** X17.  For a vless inbound with [security=tls] whose tls settings
    name a server and list ALPN protocols, the parameters of the query
    of the link, the pieces between [&] (none of them holds an [&]),
    include [security=tls], [sni=] with the server name and [alpn=]
    with the protocols joined by commas, each percent-encoded, and none
    of the REALITY parameters [pbk], [fp], [sid] and [spx].  Unreserved characters and [/:,] are
    kept as they are, so that a server [vpn.example.com] and the
    protocols [h2] and [http/1.1] read [sni=vpn.example.com] and
    [alpn=h2,http/1.1]. *)
Theorem vless_tls_link_parameters :
  forall (client inbound stream_settings port network : value)
         (ss ts : list (string * value)) (name link : string)
         (protocols : list value) (names : list string),
    stream_settings = VDict ss ->
    Py.dict_get ss "tlsSettings" (VDict []) = VDict ts ->
    Py.dict_get ts "serverName" (VStr EmptyString) = VStr name ->
    name <> EmptyString ->
    Py.dict_get ts "alpn" (VList []) = VList protocols ->
    protocols <> [] ->
    Py.strings_of protocols = Ok names ->
    _build_vless_link settings client inbound stream_settings port network (VStr "tls")
    = Ok link ->
    exists (uuid email server : value) (fragment : string) (parts : list string),
      Py.get client "id" VNone = Ok uuid
      /\ Py.get client "email" (VStr EmptyString) = Ok email
      /\ server_address settings inbound = Ok server
      /\ Urllib.quote_value "/" email = Ok fragment
      /\ link = "vless://" ++ py_str uuid ++ "@" ++ py_str server ++ ":" ++ py_str port
                ++ "?" ++ String.concat "&" parts ++ "#" ++ fragment
      /\ Forall (fun part => parameter part = true) parts
      /\ In "security=tls" parts
      /\ In ("sni=" ++ Urllib.quote_plus "/:," name) parts
      /\ In ("alpn=" ++ Urllib.quote_plus "/:," (String.concat "," names)) parts
      /\ (PyStr.all query_safe name = true -> In ("sni=" ++ name) parts)
      /\ (PyStr.all query_safe (String.concat "," names) = true ->
          In ("alpn=" ++ String.concat "," names) parts)
      /\ Forall (fun part =>
                   String.prefix "pbk=" part = false /\ String.prefix "fp=" part = false
                   /\ String.prefix "sid=" part = false /\ String.prefix "spx=" part = false)
           parts.
Proof.
  intros client inbound stream_settings port network ss ts name link protocols names
         -> Hts Hname Hne Halpn Hprotocols Hnames H.
  destruct (vless_link_text settings client inbound (VDict ss) port network (VStr "tls")
              link H)
    as [uuid [email [flow [server [fragment [query [Huuid [Hemail [_ [Hserver [Hfragment
       [Hparams Hlink]]]]]]]]]]]].
  destruct (vless_params_shape flow (VDict ss) network (VStr "tls") query Hparams)
    as [_ Hkeys].
  unfold vless_params in Hparams.
  destruct (vless_security_params (VDict ss) (VStr "tls")
              [("type", network); ("encryption", VStr "none")]) as [secured|] eqn:Hsec;
    cbn [rbind] in Hparams; [|discriminate Hparams].
  pose proof (vless_tls_params ss ts name protocols names _ secured
                Hts Hname Hne Halpn Hprotocols Hnames Hsec) as Hsecured.
  cbn in Hsecured.
  assert (Hkeep : forall k,
             String.eqb "flow" k = false ->
             String.eqb "path" k = false -> String.eqb "host" k = false ->
             String.eqb "serviceName" k = false -> String.eqb "headerType" k = false ->
             Py.lookup k query = Py.lookup k secured)
    by (intros k; apply (vless_params_keep flow (VDict ss) network); exact Hparams).
  assert (Isni : In ("sni=" ++ Urllib.quote_plus "/:," name)
                    (map (Urllib.urlencode_pair "/:,") query)).
  { apply (present_in_text query "sni" name); [simpl; tauto|].
    rewrite Hkeep; [rewrite Hsecured; reflexivity | reflexivity ..]. }
  assert (Ialpn : In ("alpn=" ++ Urllib.quote_plus "/:," (String.concat "," names))
                     (map (Urllib.urlencode_pair "/:,") query)).
  { apply (present_in_text query "alpn" (String.concat "," names)); [simpl; tauto|].
    rewrite Hkeep; [rewrite Hsecured; reflexivity | reflexivity ..]. }
  assert (Habsent : forall k,
             In k ["pbk"; "fp"; "sid"; "spx"] ->
             Forall (fun part => named k part = false)
               (map (Urllib.urlencode_pair "/:,") query)).
  { intros k Hk. apply (absent_from_text query k Hkeys).
    - simpl in Hk. simpl. tauto.
    - simpl in Hk. decompose [or] Hk; try contradiction; subst k;
        (rewrite Hkeep; [rewrite Hsecured; reflexivity | reflexivity ..]). }
  exists uuid, email, server, fragment, (map (Urllib.urlencode_pair "/:,") query).
  do 5 (split; [assumption|]).
  split; [apply parameters_of_query|].
  split.
  { apply (present_in_text query "security" "tls"); [simpl; tauto|].
    rewrite Hkeep; [rewrite Hsecured; reflexivity | reflexivity ..]. }
  split; [exact Isni|]. split; [exact Ialpn|].
  split.
  { intros Hsafe. rewrite <- (quote_plus_query_safe name Hsafe) at 1. exact Isni. }
  split.
  { intros Hsafe. rewrite <- (quote_plus_query_safe _ Hsafe) at 1. exact Ialpn. }
  apply Forall_forall. intros part Hpart.
  pose proof (Habsent "pbk") as Hpbk. pose proof (Habsent "fp") as Hfp.
  pose proof (Habsent "sid") as Hsid. pose proof (Habsent "spx") as Hspx.
  rewrite Forall_forall in Hpbk, Hfp, Hsid, Hspx.
  repeat split;
    [apply Hpbk | apply Hfp | apply Hsid | apply Hspx]; (simpl; tauto) || exact Hpart.
Qed.

(** X18.  The query of every vless link begins with [type=] and the
    transport (here one named in unreserved characters, as [tcp], [ws]
    and [grpc] are), followed by [encryption=none].  When the security
    is neither tls nor reality, the parameters after them, the pieces
    between [&], name no security at all: none is named [security],
    [sni], [alpn], [pbk], [fp], [sid] or [spx]. *)
Theorem vless_plain_link_parameters :
  forall (client inbound stream_settings port network security : value)
         (transport link : string),
    network = VStr transport ->
    PyStr.all unreserved transport = true ->
    _build_vless_link settings client inbound stream_settings port network security = Ok link ->
    exists (uuid email server : value) (fragment : string) (rest : list string),
      Py.get client "id" VNone = Ok uuid
      /\ Py.get client "email" (VStr EmptyString) = Ok email
      /\ server_address settings inbound = Ok server
      /\ Urllib.quote_value "/" email = Ok fragment
      /\ link = "vless://" ++ py_str uuid ++ "@" ++ py_str server ++ ":" ++ py_str port
                ++ "?"
                ++ String.concat "&" (("type=" ++ transport) :: "encryption=none" :: rest)
                ++ "#" ++ fragment
      /\ Forall (fun part => parameter part = true) rest
      /\ (Py.eq_str security "tls" = false ->
          Py.eq_str security "reality" = false ->
          Forall (fun part =>
                    Forall (fun name => String.prefix (name ++ "=") part = false)
                      ["security"; "sni"; "alpn"; "pbk"; "fp"; "sid"; "spx"])
            rest).
Proof.
  intros client inbound stream_settings port network security transport link
         -> Hplain H.
  destruct (vless_link_text settings client inbound stream_settings port (VStr transport)
              security link H)
    as [uuid [email [flow [server [fragment [query [Huuid [Hemail [_ [Hserver [Hfragment
       [Hparams Hlink]]]]]]]]]]]].
  destruct (vless_params_shape flow stream_settings (VStr transport) security query Hparams)
    as [[rest Hrest] Hkeys].
  exists uuid, email, server, fragment, (map (Urllib.urlencode_pair "/:,") rest).
  do 4 (split; [assumption|]).
  split.
  { rewrite Hlink, Hrest. cbn [map].
    rewrite (parameter_text "type" (VStr transport)) by (simpl; tauto). cbn [py_str].
    rewrite (quote_plus_query_safe transport (unreserved_query_safe transport Hplain)).
    reflexivity. }
  split; [apply parameters_of_query|].
  intros Htls Hreality.
  unfold vless_params, vless_security_params in Hparams.
  rewrite Htls, Hreality in Hparams. cbn [rbind] in Hparams.
  assert (Hkeep : forall k,
             String.eqb "flow" k = false ->
             String.eqb "path" k = false -> String.eqb "host" k = false ->
             String.eqb "serviceName" k = false -> String.eqb "headerType" k = false ->
             Py.lookup k query
             = Py.lookup k [("type", VStr transport); ("encryption", VStr "none")])
    by (intros k; apply (vless_params_keep flow stream_settings (VStr transport));
        exact Hparams).
  assert (Habsent : forall k,
             In k ["security"; "sni"; "alpn"; "pbk"; "fp"; "sid"; "spx"] ->
             Forall (fun part => named k part = false)
               (map (Urllib.urlencode_pair "/:,") query)).
  { intros k Hk. apply (absent_from_text query k Hkeys).
    - simpl in Hk. simpl. tauto.
    - simpl in Hk. decompose [or] Hk; try contradiction; subst k;
        (rewrite Hkeep; reflexivity). }
  apply Forall_forall. intros part Hpart. apply Forall_forall. intros k Hk.
  specialize (Habsent k Hk). rewrite Forall_forall in Habsent. apply Habsent.
  rewrite Hrest. cbn [map]. right. right. exact Hpart.
Qed.

(** *** Percent-encoding twice *)

Lemma lookup_dict_set_same (d : list (string * value)) (k : string) (v : value) :
  Py.lookup k (Py.dict_set d k v) = Some v.
Proof.
  induction d as [|[k0 v0] d IH]; simpl.
  - now rewrite String.eqb_refl.
  - destruct (String.eqb k0 k) eqn:E; simpl; rewrite E; [reflexivity | exact IH].
Qed.

Lemma contains_empty (a : ascii) : PyStr.contains (String a EmptyString) EmptyString = false.
Proof. reflexivity. Qed.

Lemma contains_char_cons (a c : ascii) (s : string) :
  PyStr.contains (String a EmptyString) (String c s)
  = Ascii.eqb a c || PyStr.contains (String a EmptyString) s.
Proof.
  cbn [PyStr.contains]. f_equal. unfold PyStr.startswith. cbn [String.prefix].
  destruct (ascii_dec a c) as [->|Hne].
  - rewrite Ascii.eqb_refl. apply prefix_empty.
  - symmetry. now apply Ascii.eqb_neq.
Qed.

Lemma contains_char_append (a : ascii) (x y : string) :
  PyStr.contains (String a EmptyString) (x ++ y)
  = PyStr.contains (String a EmptyString) x || PyStr.contains (String a EmptyString) y.
Proof.
  induction x as [|c x IH]; cbn [append].
  - now rewrite contains_empty.
  - now rewrite !contains_char_cons, IH, orb_assoc.
Qed.

Lemma contains_of_startswith (p s : string) :
  PyStr.startswith p s = true -> PyStr.contains p s = true.
Proof. intros H. destruct s; cbn [PyStr.contains]; now rewrite H. Qed.

Lemma contains_append_r (p x y : string) :
  PyStr.contains p y = true -> PyStr.contains p (x ++ y) = true.
Proof.
  intros H. induction x as [|c x IH]; cbn [append]; [exact H|].
  cbn [PyStr.contains]. rewrite IH. apply orb_true_r.
Qed.

(** What [quote] writes for one byte holds no space, and is a percent
    sign only for the percent sign. *)
Lemma quoted_byte_has_no_space (safe : string) (c : ascii) :
  Urllib.is_safe safe " " = false ->
  PyStr.contains " "
    (if Urllib.is_safe safe c then String c EmptyString
     else "%" ++ Hex.byte_upper (N_of_ascii c)) = false.
Proof.
  intros Hspace. destruct (Urllib.is_safe safe c) eqn:Hc.
  - rewrite contains_char_cons, contains_empty, orb_false_r.
    apply Ascii.eqb_neq. intros <-. rewrite Hspace in Hc. discriminate Hc.
  - clear. destruct c as [[] [] [] [] [] [] [] []]; reflexivity.
Qed.

Lemma quote_has_no_space (safe s : string) :
  Urllib.is_safe safe " " = false -> PyStr.contains " " (Urllib.quote safe s) = false.
Proof.
  intros Hspace. induction s as [|c s IH]; [reflexivity|].
  cbn [Urllib.quote]. rewrite contains_char_append, IH, orb_false_r.
  now apply quoted_byte_has_no_space.
Qed.

(** A byte outside the safe set leaves a percent sign. *)
Lemma quote_leaves_percent (safe s : string) :
  PyStr.all (Urllib.is_safe safe) s = false -> PyStr.contains "%" (Urllib.quote safe s) = true.
Proof.
  induction s as [|c s IH]; cbn [PyStr.all Urllib.quote]; [discriminate|].
  destruct (Urllib.is_safe safe c); cbn [andb]; intros H.
  - apply contains_append_r. now apply IH.
  - rewrite contains_char_append. cbn [append]. now rewrite contains_char_cons.
Qed.

(** A percent sign is encoded as [%25] wherever it is not safe. *)
Lemma quote_percent (safe s : string) :
  Urllib.is_safe safe "%" = false ->
  PyStr.contains "%" s = true -> PyStr.contains "%25" (Urllib.quote safe s) = true.
Proof.
  intros Hsafe. induction s as [|c s IH]; [discriminate|].
  rewrite contains_char_cons. cbn [Urllib.quote].
  destruct (Ascii.eqb "%" c) eqn:E; cbn [orb]; intros H.
  - apply Ascii.eqb_eq in E. subst c. rewrite Hsafe.
    change ("%" ++ Hex.byte_upper (N_of_ascii "%")) with "%25".
    apply contains_of_startswith. apply (startswith_append "%25").
  - apply contains_append_r. now apply IH.
Qed.

Lemma safe_in_path_is_safe_in_query (c : ascii) :
  Urllib.is_safe "/" c = true -> Urllib.is_safe "/:," c = true.
Proof.
  destruct c as [[] [] [] [] [] [] [] []]; vm_compute; intros H; congruence.
Qed.

Lemma safe_path_is_safe_query (s : string) :
  PyStr.all (Urllib.is_safe "/") s = true -> PyStr.all (Urllib.is_safe "/:,") s = true.
Proof.
  induction s as [|c s IH]; cbn [PyStr.all]; [reflexivity|].
  intros H. apply andb_true_iff in H as [Hc Hs].
  now rewrite (safe_in_path_is_safe_in_query c Hc), IH.
Qed.

Lemma prefix_split (p s : string) :
  String.prefix p s = true -> exists after : string, s = p ++ after.
Proof.
  revert s. induction p as [|c p IH]; intros s H.
  - exists s. reflexivity.
  - destruct s as [|a s]; [discriminate H|]. cbn [String.prefix] in H.
    destruct (ascii_dec c a) as [->|]; [|discriminate H].
    destruct (IH s H) as [after ->]. exists after. reflexivity.
Qed.

(** Text that contains a pattern is some text, the pattern, some
    text. *)
Lemma contains_split (p s : string) :
  PyStr.contains p s = true -> exists before after : string, s = before ++ p ++ after.
Proof.
  induction s as [|c s IH]; cbn [PyStr.contains]; intros H.
  - rewrite orb_false_r in H. destruct (prefix_split p _ H) as [after ->].
    exists EmptyString, after. reflexivity.
  - apply orb_true_iff in H as [H | H].
    + destruct (prefix_split p _ H) as [after ->]. exists EmptyString, after. reflexivity.
    + destruct (IH H) as [before [after ->]]. exists (String c before), after. reflexivity.
Qed.

(** X19.  The path of a websocket transport is percent-encoded twice in
    a vless link: once by the builder, with [/] kept, and once more with
    the rest of the query.  The parameter [path=] of the link, one of
    the pieces between [&] of its query, holds the result.  A path of unreserved characters and slashes is written as
    it is; in any other path each [%] of the first encoding is written
    [%25], so that a client decoding the query once reads the encoded
    path, not the path (a space arrives as [%20]). *)
Theorem vless_ws_path_is_encoded_twice :
  forall (client inbound stream_settings port security : value)
         (ss ws : list (string * value)) (path link : string),
    stream_settings = VDict ss ->
    Py.dict_get ss "wsSettings" (VDict []) = VDict ws ->
    Py.dict_get ws "path" (VStr "/") = VStr path ->
    _build_vless_link settings client inbound stream_settings port (VStr "ws") security
    = Ok link ->
    exists (uuid email server : value) (fragment : string) (parts : list string),
      Py.get client "id" VNone = Ok uuid
      /\ Py.get client "email" (VStr EmptyString) = Ok email
      /\ server_address settings inbound = Ok server
      /\ Urllib.quote_value "/" email = Ok fragment
      /\ link = "vless://" ++ py_str uuid ++ "@" ++ py_str server ++ ":" ++ py_str port
                ++ "?" ++ String.concat "&" parts ++ "#" ++ fragment
      /\ Forall (fun part => parameter part = true) parts
      /\ In ("path=" ++ Urllib.quote "/:," (Urllib.quote "/" path)) parts
      /\ (PyStr.all path_safe path = true -> In ("path=" ++ path) parts)
      /\ (PyStr.all path_safe path = false ->
          exists before after : string, In ("path=" ++ before ++ "%25" ++ after) parts).
Proof.
  intros client inbound stream_settings port security ss ws path link -> Hws Hpath H.
  destruct (vless_link_text settings client inbound (VDict ss) port (VStr "ws") security
              link H)
    as [uuid [email [flow [server [fragment [query [Huuid [Hemail [_ [Hserver [Hfragment
       [Hparams Hlink]]]]]]]]]]]].
  unfold vless_params in Hparams.
  destruct (vless_security_params (VDict ss) security
              [("type", VStr "ws"); ("encryption", VStr "none")]) as [secured|];
    cbn [rbind] in Hparams; [|discriminate Hparams].
  unfold vless_network_params in Hparams.
  change (Py.eq_str (VStr "ws") "ws") with true in Hparams.
  cbn [Py.get rbind] in Hparams. rewrite Hws in Hparams. cbn [Py.get rbind] in Hparams.
  rewrite Hpath in Hparams. cbn [Urllib.quote_value rbind] in Hparams.
  destruct (Py.get (Py.dict_get ws "headers" (VDict [])) "Host" (VStr EmptyString))
    as [host|]; cbn [rbind] in Hparams; [|discriminate Hparams].
  injection Hparams as Hquery.
  assert (Qpath : Py.lookup "path" query = Some (VStr (Urllib.quote "/" path))).
  { rewrite <- Hquery.
    destruct (Py.truthy host);
      [rewrite lookup_dict_set_other by reflexivity|]; apply lookup_dict_set_same. }
  assert (Ipath : In ("path=" ++ Urllib.quote "/:," (Urllib.quote "/" path))
                     (map (Urllib.urlencode_pair "/:,") query)).
  { replace (Urllib.quote "/:," (Urllib.quote "/" path))
      with (Urllib.quote_plus "/:," (Urllib.quote "/" path)).
    - apply (present_in_text query "path"); [simpl; tauto | exact Qpath].
    - unfold Urllib.quote_plus. now rewrite (quote_has_no_space "/" path eq_refl). }
  exists uuid, email, server, fragment, (map (Urllib.urlencode_pair "/:,") query).
  do 5 (split; [assumption|]).
  split; [apply parameters_of_query|].
  split; [exact Ipath|]. split.
  - intros Hsafe.
    assert (Hpath_safe : PyStr.all (Urllib.is_safe "/") path = true)
      by (now rewrite (all_ext (Urllib.is_safe "/") path_safe path is_safe_path)).
    rewrite (quote_safe_text "/" path Hpath_safe) in Ipath.
    rewrite (quote_safe_text "/:," path (safe_path_is_safe_query path Hpath_safe)) in Ipath.
    exact Ipath.
  - intros Hunsafe.
    assert (Hpath_unsafe : PyStr.all (Urllib.is_safe "/") path = false)
      by (now rewrite (all_ext (Urllib.is_safe "/") path_safe path is_safe_path)).
    destruct (contains_split "%25" (Urllib.quote "/:," (Urllib.quote "/" path)))
      as [before [after Hsplit]].
    { apply quote_percent; [reflexivity|]. now apply quote_leaves_percent. }
    exists before, after. rewrite <- Hsplit. exact Ipath.
Qed.

End LinkParameters.

(** ** The client in the handlers *)

Section Handlers.

Context `{RT : Runtime}.
Variable settings : Settings.
Variable panel : transport.
Variable format_traffic_gb : value -> result string.
Variable generate_vless_link : string -> string -> result string.

(** X20.  The traffic line of the profile and of the user card never
    fails the handler.  It reads ["Недоступно"] when the login of the
    block is not accepted and when the traffic call raises; when the
    panel has no data for the label it is the formatting of 0, not
    ["Недоступно"]; with data it is the formatting of [up + down]. *)
Theorem traffic_line_of_the_handlers :
  forall email : string,
    (accepted (panel [] (login_request settings)) = false ->
     traffic_text settings panel format_traffic_gb email = "Недоступно")
    /\ forall r : response,
         panel [] (login_request settings) = Responded r ->
         status_code r = 200 ->
         cookies r <> [] ->
         let logged_in := {| session_cookie := Some (cookie_of r); http_client := true;
                             sent := [login_request settings] |} in
         let answer := call settings panel "GET"
                         ("/panel/api/inbounds/getClientTraffics/" ++ email) None logged_in in
         let shown (total : Z) := match format_traffic_gb (VInt total) with
                                  | Ok formatted => formatted
                                  | Raise _ => "Недоступно"
                                  end in
         ((exists e : exn, fst answer = Raise e) ->
          traffic_text settings panel format_traffic_gb email = "Недоступно")
         /\ (forall d : list (string * value),
                fst answer = Ok (VDict d) ->
                Py.truthy (Py.dict_get d "success" VNone) = false
                \/ Py.truthy (Py.dict_get d "obj" VNone) = false ->
                traffic_text settings panel format_traffic_gb email = shown 0)
         /\ (forall (d o : list (string * value)) (up down : Z),
                fst answer = Ok (VDict d) ->
                Py.truthy (Py.dict_get d "success" VNone) = true ->
                Py.dict_get d "obj" VNone = VDict o ->
                o <> [] ->
                Py.dict_get o "up" (VInt 0) = VInt up ->
                Py.dict_get o "down" (VInt 0) = VInt down ->
                traffic_text settings panel format_traffic_gb email = shown (up + down)).
Proof.
  intros email. split.
  - intros Hno. unfold traffic_text.
    destruct (with_client_refused settings panel
                (bind (get_client_traffic settings panel email)
                   (fun traffic =>
                      bind (lift (Py.getitem traffic "total"))
                        (fun total => lift (format_traffic_gb total)))) Hno) as [msg ->].
    reflexivity.
  - intros r Hr H200 Hcookies logged_in answer shown. subst answer shown.
    unfold traffic_text. rewrite (with_client_accepted settings panel _ r Hr H200 Hcookies).
    fold logged_in. unfold get_client_traffic, bind.
    destruct (call settings panel "GET" ("/panel/api/inbounds/getClientTraffics/" ++ email)
                None logged_in) as [[res | e] st2]; cbn [fst].
    + split; [intros [e He]; discriminate He|]. split.
      * intros d Hd Hnone. injection Hd as ->. simpl.
        destruct (Py.truthy (Py.dict_get d "success" VNone)) eqn:Hs; simpl.
        -- destruct Hnone as [Hnone | Hnone]; [discriminate|]. rewrite Hnone. reflexivity.
        -- rewrite Hs. reflexivity.
      * intros d o up down Hd Hs Ho Hne Hup Hdown. injection Hd as ->. simpl.
        rewrite Hs. simpl. rewrite Ho. destruct o as [|kv o']; [contradiction|]. simpl.
        assert (Hl : Py.lookup "obj" d = Some (VDict (kv :: o'))).
        { unfold Py.dict_get in Ho. destruct (Py.lookup "obj" d); [now subst | discriminate]. }
        unfold Py.getitem at 1. rewrite Hl. simpl. rewrite Hup, Hdown. reflexivity.
    + split; [reflexivity|]. split.
      * intros d Hd. discriminate Hd.
      * intros d o up down Hd. discriminate Hd.
Qed.

(** X21.  The link [show_connection] sends.  For a user without an
    inbound it is the locally generated one, and the panel is not
    asked.  Otherwise the handler opens a block on the panel: when the
    login is not accepted the [XUIClientError] leaves the handler's
    [try], so the user gets the error answer and no link, although
    [get_client_link] itself never raises; when it is accepted, the link
    is the one of [get_client_link], and the locally generated one when
    that returns [None]. *)
Theorem connection_link_of_the_handler :
  forall (uuid email : string),
    connection_link settings panel generate_vless_link None uuid email
    = generate_vless_link uuid email
    /\ connection_link settings panel generate_vless_link (Some 0) uuid email
       = generate_vless_link uuid email
    /\ forall inbound_id : Z,
         inbound_id <> 0 ->
         (accepted (panel [] (login_request settings)) = false ->
          exists msg : string,
            connection_link settings panel generate_vless_link (Some inbound_id) uuid email
            = Raise (XUIClientError msg))
         /\ forall r : response,
              panel [] (login_request settings) = Responded r ->
              status_code r = 200 ->
              cookies r <> [] ->
              let logged_in := {| session_cookie := Some (cookie_of r); http_client := true;
                                  sent := [login_request settings] |} in
              connection_link settings panel generate_vless_link (Some inbound_id) uuid email
              = match fst (get_client_link settings panel inbound_id email logged_in) with
                | Ok (Some link) => Ok link
                | _ => generate_vless_link uuid email
                end.
Proof.
  intros uuid email. split; [reflexivity|]. split; [reflexivity|].
  intros inbound_id Hid. unfold connection_link.
  destruct (inbound_id =? 0) eqn:E; [apply Z.eqb_eq in E; contradiction|]. split.
  - intros Hno.
    destruct (with_client_refused settings panel
                (get_client_link settings panel inbound_id email) Hno) as [msg ->].
    exists msg. reflexivity.
  - intros r Hr H200 Hcookies. cbv zeta.
    rewrite (with_client_accepted settings panel _ r Hr H200 Hcookies).
    set (logged_in := {| session_cookie := Some (cookie_of r); http_client := true;
                         sent := [login_request settings] |}).
    unfold get_client_link, catch, bind.
    destruct (get_inbound settings panel inbound_id logged_in) as [[data | e] st2];
      [|reflexivity].
    unfold lift. destruct (link_of_inbound settings data email) as [[link|]|e] eqn:Hlink;
      [|reflexivity..].
    cbn [fst rbind].
    pose proof (link_of_inbound_not_empty settings data email link Hlink) as Hne.
    destruct (String.eqb link EmptyString) eqn:Eempty; [|reflexivity].
    apply String.eqb_eq in Eempty. contradiction.
Qed.

End Handlers.

(** ** Settings that decode to something else than an object *)

Section OddSettings.

Context `{RT : Runtime}.
Variable settings : Settings.
Variable panel : transport.

(** X22.  The scan passes over settings that are not JSON, but not over
    settings that are JSON for something else than an object: at the
    first inbound whose settings decode to a list, a string, a number,
    [true], [false] or [null], [find_client_in_all_inbounds] raises the
    [AttributeError] of the missing [get], even when a later inbound
    holds the email; and [create_client] and
    [delete_client_from_all_inbounds] raise with it. *)
Theorem non_object_settings_stop_the_scan :
  forall (st st' : state) (email : string) (pre post : list value)
         (d : list (string * value)) (s : string) (doc : value),
    get_inbound_list settings panel st = (Ok (VList (pre ++ VDict d :: post)), st') ->
    forallb (fun x => malformed_settings x
                      || (well_formed_inbound x && negb (lists_email email x))) pre = true ->
    Py.dict_get d "settings" (VStr "{}") = VStr s ->
    json_loads s = inr doc ->
    is_dict doc = false ->
    let e := AttributeError ("'" ++ Py.type_name doc ++ "' object has no attribute 'get'") in
    find_client_in_all_inbounds settings panel email st = (Raise e, st')
    /\ delete_client_from_all_inbounds settings panel email st = (Raise e, st')
    /\ forall (uuid : string) (inbound_id : Z) (enable : bool),
         create_client settings panel email uuid inbound_id enable st = (Raise e, st').
Proof.
  intros st st' email pre post d s doc Hl Hpre Hs Hdoc Hnot e. subst e.
  assert (Hf : find_client_in_all_inbounds settings panel email st
               = (Raise (Py.no_attribute doc "get"), st')).
  { rewrite (find_of_listing settings panel st st' email _ Hl). f_equal.
    rewrite scan_inbounds_app_skipped.
    2: { intros x Hx. rewrite forallb_forall in Hpre. specialize (Hpre x Hx).
         apply orb_true_iff in Hpre as [Hm | Hw].
         - now apply scan_inbound_malformed.
         - apply andb_true_iff in Hw as [Hw Hno]. apply negb_true_iff in Hno.
           now apply scan_inbound_without_email. }
    cbn [scan_inbounds]. unfold scan_inbound. cbn [Py.get rbind]. rewrite Hs.
    cbn [py_json_loads]. rewrite Hdoc. cbn [rbind].
    destruct doc; try discriminate Hnot; reflexivity. }
  split; [exact Hf|]. split.
  - unfold delete_client_from_all_inbounds, bind. now rewrite Hf.
  - intros uuid inbound_id enable. unfold create_client, bind. now rewrite Hf.
Qed.

End OddSettings.

(** ** The alert of [approve_request] *)

(** A pattern without the character [q] does not reach across it. *)
Lemma prefix_stops_at (q : ascii) (p x y : string) :
  PyStr.contains (String q EmptyString) p = false ->
  String.prefix p (x ++ String q y) = String.prefix p x.
Proof.
  revert x. induction p as [|a p IH]; intros x Hq.
  - now rewrite !prefix_empty.
  - rewrite contains_char_cons in Hq. apply orb_false_iff in Hq as [Ha Hp].
    destruct x as [|c x]; cbn [append String.prefix].
    + destruct (ascii_dec a q) as [->|_]; [|reflexivity].
      rewrite Ascii.eqb_refl in Ha. discriminate Ha.
    + destruct (ascii_dec a c); [now apply IH | reflexivity].
Qed.

Lemma contains_across (q : ascii) (p x y : string) :
  p <> EmptyString ->
  PyStr.contains (String q EmptyString) p = false ->
  PyStr.contains p (x ++ String q y) = PyStr.contains p x || PyStr.contains p y.
Proof.
  intros Hp Hq. induction x as [|c x IH].
  - cbn [append PyStr.contains]. unfold PyStr.startswith.
    change (String q y) with (EmptyString ++ String q y) at 1.
    rewrite (prefix_stops_at q p EmptyString y Hq).
    destruct p as [|a p]; [contradiction|]. reflexivity.
  - change (String c x ++ String q y) with (String c (x ++ String q y)).
    cbn [PyStr.contains]. rewrite IH. unfold PyStr.startswith.
    change (String c (x ++ String q y)) with (String c x ++ String q y).
    rewrite (prefix_stops_at q p (String c x) y Hq). now rewrite orb_assoc.
Qed.

Lemma lower_append (x y : string) : PyStr.lower (x ++ y) = PyStr.lower x ++ PyStr.lower y.
Proof.
  unfold PyStr.lower. induction x as [|c x IH]; cbn [append PyStr.map_chars];
    [reflexivity | now rewrite IH].
Qed.

Lemma prefix_lower (p s : string) :
  String.prefix p s = true -> String.prefix (PyStr.lower p) (PyStr.lower s) = true.
Proof.
  unfold PyStr.lower. revert s. induction p as [|a p IH]; intros s H.
  - apply prefix_empty.
  - destruct s as [|c s]; [discriminate H|]. cbn [String.prefix PyStr.map_chars] in *.
    destruct (ascii_dec a c) as [->|]; [|discriminate H].
    destruct (ascii_dec (PyStr.lower_ascii c) (PyStr.lower_ascii c)); [|contradiction].
    now apply IH.
Qed.

Lemma contains_lower (p s : string) :
  PyStr.contains p s = true -> PyStr.contains (PyStr.lower p) (PyStr.lower s) = true.
Proof.
  induction s as [|c s IH]; cbn [PyStr.contains]; intros H.
  - rewrite orb_false_r in H. apply contains_of_startswith. now apply prefix_lower.
  - apply orb_true_iff in H as [H | H].
    + apply contains_of_startswith. now apply prefix_lower.
    + change (PyStr.lower (String c s)) with (String (PyStr.lower_ascii c) (PyStr.lower s)).
      cbn [PyStr.contains]. rewrite (IH H). apply orb_true_r.
Qed.

Lemma contains_shorter (p q s : string) :
  PyStr.contains (p ++ q) s = true -> PyStr.contains p s = true.
Proof.
  induction s as [|c s IH]; cbn [PyStr.contains]; intros H.
  - rewrite orb_false_r in H. now rewrite (prefix_of_longer p q _ H).
  - apply orb_true_iff in H as [H | H].
    + now rewrite (prefix_of_longer p q _ H).
    + rewrite (IH H). apply orb_true_r.
Qed.

(** The first test of the handler is implied by the second. *)
Lemma approval_alert_test (user_email error_msg : string) :
  approval_error_alert user_email error_msg
  = if PyStr.contains "duplicate" (PyStr.lower error_msg)
    then duplicate_alert user_email
    else creation_error_alert error_msg.
Proof.
  unfold approval_error_alert.
  destruct (PyStr.contains "Duplicate email" error_msg) eqn:E; [|reflexivity].
  apply contains_lower in E. apply (contains_shorter "duplicate" " email") in E.
  now rewrite E.
Qed.

(** X23.  Which alert the administrator sees when [create_client]
    fails during an approval.  The two errors with which the client
    reports a duplicate, the one of its own scan and the one it reads in
    the answer of the panel, show the general creation error with the
    start of the message, not the alert for an existing client, unless
    the inbound remark or the reported label itself contains
    ["duplicate"] in some case.  The alert for an existing client is
    shown for a refusal passed on as ["Failed to create client: <msg>"]
    exactly when the message of the panel contains ["duplicate"] in some
    case. *)
Theorem approval_alert_for_client_errors :
  forall user_email text : string,
    approval_error_alert user_email (client_exists_message text)
    = (if PyStr.contains "duplicate" (PyStr.lower text)
       then duplicate_alert user_email
       else creation_error_alert (client_exists_message text))
    /\ approval_error_alert user_email (duplicate_email_message text)
       = (if PyStr.contains "duplicate" (PyStr.lower text)
          then duplicate_alert user_email
          else creation_error_alert (duplicate_email_message text))
    /\ approval_error_alert user_email ("Failed to create client: " ++ text)
       = (if PyStr.contains "duplicate" (PyStr.lower text)
          then duplicate_alert user_email
          else creation_error_alert ("Failed to create client: " ++ text)).
Proof.
  intros user_email text.
  assert (Hquoted : forall before after : string,
             PyStr.contains "duplicate" (PyStr.lower before) = false ->
             PyStr.contains "duplicate" (PyStr.lower after) = false ->
             PyStr.contains "duplicate"
               (PyStr.lower (before ++ String "'" (text ++ String "'" after)))
             = PyStr.contains "duplicate" (PyStr.lower text)).
  { intros before after Hb Ha. rewrite lower_append.
    change (PyStr.lower (String "'" (text ++ String "'" after)))
      with (String "'" (PyStr.lower (text ++ String "'" after))).
    rewrite (contains_across "'" "duplicate"); [|discriminate | reflexivity].
    rewrite Hb, lower_append. cbn [orb].
    change (PyStr.lower (String "'" after)) with (String "'" (PyStr.lower after)).
    rewrite (contains_across "'" "duplicate"); [|discriminate | reflexivity].
    now rewrite Ha, orb_false_r. }
  rewrite !approval_alert_test. split; [|split].
  - unfold client_exists_message.
    rewrite <- (Hquoted "Клиент с таким именем уже существует в инбаунде "
                  ". Попросите пользователя выбрать другое имя.") at 1;
      [reflexivity | reflexivity | reflexivity].
  - unfold duplicate_email_message.
    rewrite <- (Hquoted "В 3x-ui уже существует клиент с email "
                  ". Удалите его через панель 3x-ui.") at 1;
      [reflexivity | reflexivity | reflexivity].
  - change ("Failed to create client: " ++ text)
      with ("Failed to create client:" ++ String " " text).
    rewrite lower_append.
    change (PyStr.lower (String " " text)) with (String " " (PyStr.lower text)).
    rewrite (contains_across " " "duplicate"); [|discriminate | reflexivity].
    reflexivity.
Qed.

(** * Worked examples

    The client run against scripted panels, with the runtime of the
    examples. *)

#[local] Existing Instance Fragment.runtime.

Import Example.

(** Closed equations are settled by running both sides. *)
Ltac run := vm_compute; reflexivity.

Lemma C1_session_expiry_single_relogin_witness :
  let panel := scripted [session_expired; logged_in; session_expired] in
  let final := _make_request settings panel "GET" list_endpoint None true ready in
  fst final = Raise (XUIClientError "API request failed with status 401")
  /\ map req_url (sent (snd final))
     = ["https://panel.example.com:2053/panel/api/inbounds/list";
        "https://panel.example.com:2053/login";
        "https://panel.example.com:2053/panel/api/inbounds/list"].
Proof.
  intros panel final.
  pose proof (C1_session_expiry_single_relogin settings panel ready "GET" list_endpoint None
                _ _ eq_refl eq_refl eq_refl eq_refl) as H.
  cbv zeta in H.
  change (login settings panel (sending _ ready))
    with (login settings panel
            (sending {| req_method := "GET";
                        req_url := base_url settings ++ list_endpoint;
                        req_headers := cookie_header ready;
                        req_body := NoBody |} ready)) in H.
  destruct (login settings panel
              (sending {| req_method := "GET";
                          req_url := base_url settings ++ list_endpoint;
                          req_headers := cookie_header ready;
                          req_body := NoBody |} ready)) as [[b | e] st2] eqn:Hlogin;
    [|vm_compute in Hlogin; discriminate Hlogin].
  destruct H as [req2 [Hreq [Hsent Hraise]]].
  split.
  - apply (Hraise {| status_code := 401; cookies := []; text := EmptyString |});
      [|reflexivity].
    vm_compute in Hlogin. injection Hlogin as _ <-.
    vm_compute in Hreq. injection Hreq as <-. reflexivity.
  - fold final in Hsent. rewrite Hsent.
    vm_compute in Hlogin. injection Hlogin as _ <-.
    vm_compute in Hreq. injection Hreq as <-. reflexivity.
Defined.

(** The retry rule as the specification words it: a first response
    with status 401 is followed by one re-login and one retried call.
    It fails when the re-login is refused: the login error propagates
    and nothing is retried. *)
Lemma C1_refused_relogin_is_not_retried :
  let panel := scripted [session_expired; login_refused] in
  let final := _make_request settings panel "GET" list_endpoint None true ready in
  (exists (req1 : request) (r1 : response),
      api_request settings ready "GET" list_endpoint None = Some req1
      /\ panel (sent ready) req1 = Responded r1
      /\ status_code r1 = 401)
  /\ fst final
     = Raise (XUIClientError "Login failed: XUIClientError - No session cookie received")
  /\ map req_url (sent (snd final))
     = ["https://panel.example.com:2053/panel/api/inbounds/list";
        "https://panel.example.com:2053/login"]
  /\ ~ (exists req1 req2 : request,
           sent (snd final) = [req1; login_request settings; req2]).
Proof.
  intros panel final. split; [|split; [|split]].
  - eexists _, _. repeat split; reflexivity.
  - reflexivity.
  - reflexivity.
  - intros [req1 [req2 H]]. apply (f_equal (@List.length request)) in H.
    vm_compute in H. discriminate H.
Qed.

Lemma C2_duplicate_client_errors_witness :
  (* the scan finds carol in the second inbound *)
  (let panel := scripted [listing [main_inbound; backup_inbound]] in
   let final := create_client settings panel "carol" "44444444-dddd" 1 true ready in
   fst final = Raise (XUIClientError (client_exists_message "backup"))
   /\ map req_url (sent (snd final))
      = ["https://panel.example.com:2053/panel/api/inbounds/list"])
  /\
  (* the scan finds nothing and the panel reports the duplicate *)
  (let panel := scripted [listing [main_inbound];
                          answers 200 (failure "Something went wrong Failed: Duplicate email: carol ")] in
   fst (create_client settings panel "carol" "44444444-dddd" 1 true ready)
   = Raise (XUIClientError (duplicate_email_message "carol"))).
Proof.
  split.
  - intros panel final.
    destruct (C2_duplicate_client_errors settings panel ready "carol" "44444444-dddd" 1 true)
      as [Hscan _].
    assert (Hfind : find_client_in_all_inbounds settings panel "carol" ready
                    = (Ok (found_info backup_inbound (client_entry "carol" "33333333-cccc")),
                       snd (find_client_in_all_inbounds settings panel "carol" ready)))
      by run.
    destruct (Hscan _ _ Hfind eq_refl) as [remark [new [Hremark [Hcreate [Hsent Hnew]]]]].
    injection Hremark as <-. fold final in Hcreate. rewrite Hcreate. split; run.
  - intros panel.
    destruct (C2_duplicate_client_errors settings panel ready "carol" "44444444-dddd" 1 true)
      as [_ Hprovider].
    assert (Hfind : find_client_in_all_inbounds settings panel "carol" ready
                    = (Ok VNone, snd (find_client_in_all_inbounds settings panel "carol" ready)))
      by run.
    assert (Hcall : call settings panel "POST" add_client_endpoint
                      (Some (request_data "carol" "44444444-dddd" 1 true))
                      (snd (find_client_in_all_inbounds settings panel "carol" ready))
                    = (Ok (failure "Something went wrong Failed: Duplicate email: carol "),
                       snd (call settings panel "POST" add_client_endpoint
                              (Some (request_data "carol" "44444444-dddd" 1 true))
                              (snd (find_client_in_all_inbounds settings panel "carol" ready)))))
      by run.
    rewrite (Hprovider _ _ _ "Something went wrong Failed: Duplicate email: carol " "carol "
               Hfind Hcall); [run | run | run | run].
Defined.

(** The duplicate rule as the specification words it: the second of
    two [create_client] calls with one label fails with an error
    carrying that label.  Here alice is created in inbound 1, then asked
    for in inbound 2: the second call fails, and its message names the
    inbound [main], not alice. *)
Lemma C2_scan_error_names_the_inbound :
  let panel := scripted [listing [backup_inbound];
                         answers 200 (envelope VNone);
                         listing [main_inbound; backup_inbound]] in
  let first := create_client settings panel "alice" "11111111-aaaa" 1 true ready in
  let second := create_client settings panel "alice" "55555555-eeee" 2 true (snd first) in
  fst first = Ok true
  /\ exists msg : string,
       fst second = Raise (XUIClientError msg)
       /\ msg = client_exists_message "main"
       /\ PyStr.contains "alice" msg = false.
Proof.
  intros panel first second. split; [run|].
  exists (client_exists_message "main"). split; [run|]. split; [reflexivity | run].
Qed.

Lemma C3_first_match_in_list_order_witness :
  let panel := scripted [listing [main_inbound; backup_inbound]] in
  fst (find_client_in_all_inbounds settings panel "carol" ready)
  = Ok (found_info backup_inbound (client_entry "carol" "33333333-cccc"))
  /\ fst (find_client_in_all_inbounds settings panel "erin" ready) = Ok VNone.
Proof.
  intros panel.
  assert (Hl : get_inbound_list settings panel ready
               = (Ok (VList [main_inbound; backup_inbound]),
                  snd (get_inbound_list settings panel ready))) by run.
  assert (Hwf : forallb well_formed_inbound [main_inbound; backup_inbound] = true) by run.
  split.
  - destruct (C3_first_match_in_list_order settings panel ready _ "carol" _ Hl Hwf)
      as [Hfound _].
    assert (Hpre : forallb (fun x => negb (lists_email "carol" x)) [main_inbound] = true)
      by run.
    assert (Hin : lists_email "carol" backup_inbound = true) by run.
    destruct (Hfound [main_inbound] [] backup_inbound eq_refl Hpre Hin)
      as [cs [client [Hcs [Hclient Hfind]]]].
    rewrite Hfind. vm_compute in Hcs. injection Hcs as <-.
    vm_compute in Hclient. injection Hclient as <-. reflexivity.
  - destruct (C3_first_match_in_list_order settings panel ready _ "erin" _ Hl Hwf)
      as [_ Hnone].
    rewrite Hnone; [reflexivity | run].
Defined.

Lemma C4_malformed_settings_skipped_witness :
  let panel := scripted [listing [broken_inbound; main_inbound; backup_inbound]] in
  fst (find_client_in_all_inbounds settings panel "carol" ready)
  = Ok (found_info backup_inbound (client_entry "carol" "33333333-cccc")).
Proof.
  intros panel.
  assert (Hl : get_inbound_list settings panel ready
               = (Ok (VList [broken_inbound; main_inbound; backup_inbound]),
                  snd (get_inbound_list settings panel ready))) by run.
  destruct (C4_malformed_settings_skipped settings panel ready _ "carol" _ Hl)
    as [_ [Hlater _]].
  assert (Hpre : forallb (fun x => malformed_settings x
                                   || (well_formed_inbound x && negb (lists_email "carol" x)))
                   [broken_inbound; main_inbound] = true) by run.
  assert (Hin : lists_email "carol" backup_inbound = true) by run.
  destruct (Hlater [broken_inbound; main_inbound] [] backup_inbound eq_refl Hpre Hin)
    as [cs [client [Hcs [Hclient Hfind]]]].
  rewrite Hfind. vm_compute in Hcs. injection Hcs as <-.
  vm_compute in Hclient. injection Hclient as <-. reflexivity.
Defined.

(** Only a settings text that is not JSON is passed over: one that
    decodes to something other than an object stops the scan with the
    [AttributeError] of its [get]. *)
Example scan_stops_at_settings_that_are_no_object :
  let panel := scripted [listing [inbound_entry 5 "odd" "vless" "[]"; main_inbound]] in
  fst (find_client_in_all_inbounds settings panel "alice" ready)
  = Raise (AttributeError "'list' object has no attribute 'get'").
Proof. run. Qed.

Lemma C5_traffic_zero_or_sum_witness :
  (let panel := scripted [answers 200 (failure "record not found")] in
   fst (get_client_traffic settings panel "alice" ready)
   = Ok (VDict [("up", VInt 0); ("down", VInt 0); ("total", VInt 0)]))
  /\
  (let panel := scripted [answers 200 (envelope (VDict [("email", VStr "alice");
                                                       ("up", VInt 1024);
                                                       ("down", VInt 4096)]))] in
   fst (get_client_traffic settings panel "alice" ready)
   = Ok (VDict [("up", VInt 1024); ("down", VInt 4096); ("total", VInt 5120)])).
Proof.
  split; intros panel.
  - assert (Hcall : call settings panel "GET"
                      ("/panel/api/inbounds/getClientTraffics/" ++ "alice") None ready
                    = (Ok (failure "record not found"),
                       snd (call settings panel "GET"
                              ("/panel/api/inbounds/getClientTraffics/" ++ "alice") None ready)))
      by run.
    destruct (C5_traffic_zero_or_sum settings panel ready _ "alice" _ Hcall) as [Hzero _].
    rewrite Hzero; [reflexivity | left; run].
  - assert (Hcall : call settings panel "GET"
                      ("/panel/api/inbounds/getClientTraffics/" ++ "alice") None ready
                    = (Ok (envelope (VDict [("email", VStr "alice"); ("up", VInt 1024);
                                            ("down", VInt 4096)])),
                       snd (call settings panel "GET"
                              ("/panel/api/inbounds/getClientTraffics/" ++ "alice") None ready)))
      by run.
    destruct (C5_traffic_zero_or_sum settings panel ready _ "alice" _ Hcall) as [_ Hsum].
    rewrite (Hsum [("email", VStr "alice"); ("up", VInt 1024); ("down", VInt 4096)] 1024 4096);
      [reflexivity | run | run | discriminate | run | run].
Defined.

(** C6, at a panel whose base address has a path and no port (it sits
    behind a reverse proxy) and an inbound that listens on every
    address: the server put in the three links is the host with the path
    still attached, [vpn.example.com/panel], where the host portion of
    the base address is [vpn.example.com].  With a port in the base
    address the same lines give the host portion. *)
Theorem C6_server_address_keeps_base_path :
  host_portion (XUI_BASE_URL proxied_settings) = "vpn.example.com"
  /\ server_address proxied_settings main_inbound = Ok (VStr "vpn.example.com/panel")
  /\ _build_vless_link proxied_settings alice main_inbound (VDict reality_stream)
       (VInt 443) (VStr "tcp") (VStr "none")
     = Ok "vless://11111111-aaaa@vpn.example.com/panel:443?type=tcp&encryption=none#alice"
  /\ _build_trojan_link proxied_settings trojan_client main_inbound (VDict ws_stream)
       (VInt 443) (VStr "ws") (VStr "tls")
     = Ok "trojan://s3same@vpn.example.com/panel:443?type=ws&security=tls#dave"
  /\ (exists config : list (string * value),
         vmess_config proxied_settings alice main_inbound (VDict ws_stream)
           (VInt 443) (VStr "ws") (VStr "tls") = Ok (VDict config)
         /\ Py.lookup "add" config = Some (VStr "vpn.example.com/panel"))
  /\ host_portion (XUI_BASE_URL settings) = "panel.example.com"
  /\ server_address settings main_inbound = Ok (VStr "panel.example.com").
Proof.
  split; [run|]. split; [run|]. split; [run|]. split; [run|]. split; [|split; run].
  eexists. split; [run | reflexivity].
Qed.

(** Reads the id, the email, the server and the fragment of a link of
    the worked examples off the equations that fix them. *)
Ltac fix_link Huuid Hemail Hserver Hfragment :=
  vm_compute in Huuid; injection Huuid as <-;
  vm_compute in Hemail; injection Hemail as <-;
  vm_compute in Hserver; injection Hserver as <-;
  vm_compute in Hfragment; injection Hfragment as <-.

Lemma C7_reality_link_parameters_witness :
  let link := "vless://11111111-aaaa@panel.example.com:443?type=tcp&encryption=none"
              ++ "&security=reality&pbk=qpo0PCKZtjw4yRmo1bYg5BUWGyL1cfYzIr8yoWxq3TM"
              ++ "&fp=chrome&sni=example.com&sid=ab&spx=/#alice" in
  _build_vless_link settings alice main_inbound (VDict reality_stream)
    (VInt 443) (VStr "tcp") (VStr "reality") = Ok link
  /\ exists parts : list string,
       link = "vless://11111111-aaaa@panel.example.com:443?" ++ String.concat "&" parts
              ++ "#alice"
       /\ Forall (fun part => parameter part = true) parts
       /\ In "sni=example.com" parts
       /\ In "sid=ab" parts
       /\ In "pbk=qpo0PCKZtjw4yRmo1bYg5BUWGyL1cfYzIr8yoWxq3TM" parts
       /\ Forall (fun part => String.prefix "alpn=" part = false) parts.
Proof.
  intros link.
  assert (Hlink : _build_vless_link settings alice main_inbound (VDict reality_stream)
                    (VInt 443) (VStr "tcp") (VStr "reality") = Ok link) by run.
  split; [exact Hlink|].
  assert (Hkey : reality_key <> EmptyString) by discriminate.
  destruct (C7_reality_link_parameters settings alice main_inbound (VDict reality_stream)
              (VInt 443) (VStr "tcp") reality_stream reality_settings reality_key link [] []
              eq_refl eq_refl eq_refl eq_refl eq_refl Hlink)
    as [uuid [email [server [fragment [parts [Huuid [Hemail [Hserver [Hfragment [Hshape
       [Hparts [Hsni [Hsid [Halpn [Hpbk _]]]]]]]]]]]]]]].
  fix_link Huuid Hemail Hserver Hfragment.
  exists parts.
  split; [exact Hshape|]. split; [exact Hparts|]. split; [exact Hsni|]. split; [exact Hsid|].
  split; [|exact Halpn].
  destruct (Hpbk Hkey) as [_ Hplain]. apply Hplain. run.
Defined.

(** C7, where it fails as first stated.  A key with a character that is
    reserved in a query is not written as it is: [k+y=] reads
    [pbk=k%2By%3D], and the link does not contain [pbk=k+y=].  With an
    empty key the link has no [pbk] at all. *)
Lemma C7_reserved_key_is_percent_encoded :
  let reality (key : string) : value :=
    VDict [("network", VStr "tcp"); ("security", VStr "reality");
           ("realitySettings",
            VDict [("publicKey", VStr key); ("serverNames", VList [VStr "example.com"]);
                   ("shortIds", VList [VStr "ab"])])] in
  let link := "vless://11111111-aaaa@panel.example.com:443?type=tcp&encryption=none"
              ++ "&security=reality&pbk=k%2By%3D&sni=example.com&sid=ab#alice" in
  let keyless := "vless://11111111-aaaa@panel.example.com:443?type=tcp&encryption=none"
                 ++ "&security=reality&sni=example.com&sid=ab#alice" in
  _build_vless_link settings alice main_inbound (reality "k+y=")
    (VInt 443) (VStr "tcp") (VStr "reality") = Ok link
  /\ PyStr.contains "pbk=k+y=" link = false
  /\ _build_vless_link settings alice main_inbound (reality EmptyString)
       (VInt 443) (VStr "tcp") (VStr "reality") = Ok keyless
  /\ PyStr.contains "pbk=" keyless = false.
Proof. repeat split; run. Qed.


Lemma C9_no_link_is_a_value_witness :
  (* the inbound speaks a protocol the builders do not know *)
  (let panel := scripted [answers 200 (envelope (inbound_entry 4 "socks" "socks"
                                                  (clients_blob [alice])))] in
   fst (get_client_link settings panel 4 "alice" ready) = Ok None)
  /\
  (* the panel answers with an error status *)
  (let panel := scripted [answers 404 VNone] in
   fst (get_client_link settings panel 9 "alice" ready) = Ok None).
Proof.
  split; intros panel.
  - destruct (C9_no_link_is_a_value settings panel ready 4 "alice") as [r [Hr [_ Hdata]]].
    rewrite Hr. cbn [fst]. f_equal.
    assert (Hfetch : fst (get_inbound settings panel 4 ready)
                     = Ok (envelope (inbound_entry 4 "socks" "socks" (clients_blob [alice]))))
      by run.
    destruct (Hdata _ Hfetch) as [_ [_ [_ Hprotocol]]]. apply Hprotocol. run.
  - destruct (C9_no_link_is_a_value settings panel ready 9 "alice") as [r [Hr [Hraise _]]].
    rewrite Hr. cbn [fst]. f_equal. apply Hraise.
    intros data Hdata.
    assert (Hfetch : fst (get_inbound settings panel 9 ready)
                     = Raise (XUIClientError "API request failed with status 404")) by run.
    rewrite Hfetch in Hdata. discriminate Hdata.
Defined.

Lemma C10_failed_listing_reads_as_empty_witness :
  let panel := scripted [answers 200 (failure "database is locked")] in
  fst (get_inbound_list settings panel ready) = Ok (VList [])
  /\ fst (find_client_in_all_inbounds settings panel "alice" ready) = Ok VNone
  /\ fst (delete_client_from_all_inbounds settings panel "alice" ready) = Ok false.
Proof.
  intros panel.
  assert (Hcall : call settings panel "GET" list_endpoint None ready
                  = (Ok (failure "database is locked"),
                     snd (call settings panel "GET" list_endpoint None ready))) by run.
  assert (Hfailed : Py.truthy (Py.dict_get [("success", VBool false);
                                            ("msg", VStr "database is locked");
                                            ("obj", VNone)] "success" VNone) = false) by run.
  destruct (C10_failed_listing_reads_as_empty settings panel ready _ _ Hcall
              (or_introl Hfailed)) as [Hlist Hrest].
  destruct (Hrest "alice") as [Hfind [Hdelete _]].
  rewrite Hlist, Hfind, Hdelete. repeat split.
Defined.

(** ** More worked examples *)

Lemma unsupported_method_is_refused_witness :
  let panel := scripted [] in
  _make_request settings panel "put" list_endpoint None true ready
  = (Raise (XUIClientError "Unsupported HTTP method: put"), ready).
Proof.
  intros panel.
  assert (Hget : PyStr.upper "put" <> "GET") by (vm_compute; discriminate).
  assert (Hpost : PyStr.upper "put" <> "POST") by (vm_compute; discriminate).
  exact (unsupported_method_is_refused settings panel ready "put" list_endpoint None true
           eq_refl eq_refl Hget Hpost).
Defined.

Lemma other_failures_are_not_retried_witness :
  let request := {| req_method := "GET";
                    req_url := "https://panel.example.com:2053/panel/api/inbounds/list";
                    req_headers := [("Cookie", "3x-ui=0ld")]; req_body := NoBody |} in
  call settings (scripted [answers 503 VNone]) "GET" list_endpoint None ready
  = (Raise (XUIClientError "API request failed with status 503"), sending request ready)
  /\ call settings (scripted []) "GET" list_endpoint None ready
     = (Raise (XUIClientError "Network error: All connection attempts failed"),
        sending request ready).
Proof.
  intros request. split.
  - destruct (other_failures_are_not_retried settings (scripted [answers 503 VNone]) ready
                "GET" list_endpoint None request eq_refl eq_refl) as [_ Hstatus].
    apply (Hstatus {| status_code := 503; cookies := []; text := Json.dumps VNone |});
      [reflexivity | discriminate | discriminate].
  - destruct (other_failures_are_not_retried settings (scripted []) ready
                "GET" list_endpoint None request eq_refl eq_refl) as [Hnetwork _].
    apply (Hnetwork ConnectError "ConnectError"). reflexivity.
Defined.

Lemma login_replaces_cookie_only_when_accepted_witness :
  (let panel := scripted [logged_in] in
   fst (login settings panel ready) = Ok true
   /\ session_cookie (snd (login settings panel ready)) = Some "3x-ui=s3cr3t")
  /\
  (let panel := scripted [login_refused] in
   (exists msg : string, fst (login settings panel ready) = Raise (XUIClientError msg))
   /\ session_cookie (snd (login settings panel ready)) = Some "3x-ui=0ld").
Proof.
  split; intros panel.
  - destruct (login_replaces_cookie_only_when_accepted settings panel ready eq_refl)
      as [Haccepted _].
    apply (Haccepted {| status_code := 200; cookies := [("3x-ui", "s3cr3t")];
                        text := Json.dumps (VDict [("success", VBool true)]) |});
      [reflexivity | reflexivity | discriminate].
  - destruct (login_replaces_cookie_only_when_accepted settings panel ready eq_refl)
      as [_ Hrefused].
    apply Hrefused. reflexivity.
Defined.

Lemma retried_call_carries_new_cookie_witness :
  let panel := scripted [session_expired; logged_in; listing []] in
  let final := call settings panel "GET" list_endpoint None ready in
  map req_headers (sent (snd final))
  = [[("Cookie", "3x-ui=0ld")];
     [("Content-Type", "application/x-www-form-urlencoded")];
     [("Cookie", "3x-ui=s3cr3t")]]
  /\ session_cookie (snd final) = Some "3x-ui=s3cr3t".
Proof.
  intros panel final.
  destruct (retried_call_carries_new_cookie settings panel ready "GET" list_endpoint None
              {| req_method := "GET";
                 req_url := "https://panel.example.com:2053/panel/api/inbounds/list";
                 req_headers := [("Cookie", "3x-ui=0ld")]; req_body := NoBody |}
              {| status_code := 401; cookies := []; text := EmptyString |}
              {| status_code := 200; cookies := [("3x-ui", "s3cr3t")];
                 text := Json.dumps (VDict [("success", VBool true)]) |}
              eq_refl eq_refl eq_refl eq_refl eq_refl eq_refl)
    as [Hsent Hcookie]; [discriminate|].
  fold final in Hsent, Hcookie. rewrite Hsent, Hcookie. split; reflexivity.
Defined.

Lemma client_outside_context_sends_nothing_witness :
  let panel := scripted [listing [main_inbound]] in
  get_inbound_list settings panel init
  = (Raise (XUIClientError "Client not initialized. Use async context manager."), init)
  /\ get_client_link settings panel 1 "alice" init = (Ok None, init).
Proof.
  intros panel.
  destruct (client_outside_context_sends_nothing settings panel init eq_refl)
    as [_ [Hlist [_ [_ [_ [Hlink _]]]]]].
  split; [exact Hlist | apply Hlink].
Defined.

Lemma update_needs_a_listed_client_witness :
  let panel := scripted [answers 200 (envelope main_inbound)] in
  let final := update_client_status settings panel "erin" "55555555-eeee" 1 false ready in
  fst final = Raise (XUIClientError "Client not found: erin")
  /\ map req_url (sent (snd final))
     = ["https://panel.example.com:2053/panel/api/inbounds/get/1"].
Proof.
  intros panel final.
  assert (Hfetch : get_inbound settings panel 1 ready
                   = (Ok (envelope main_inbound), snd (get_inbound settings panel 1 ready)))
    by run.
  destruct (update_needs_a_listed_client settings panel ready _ "erin" "55555555-eeee" 1 false
              _ Hfetch) as [_ [Hmissing _]].
  assert (Hclients : decoded_clients main_inbound
                     = Some [client_entry "alice" "11111111-aaaa";
                             client_entry "bob" "22222222-bbbb"]) by run.
  fold final in Hmissing. rewrite (Hmissing _ _ eq_refl eq_refl Hclients eq_refl).
  split; run.
Defined.

(** bob is found by his id, under another email. *)
Lemma update_posts_the_status_witness :
  let panel := scripted [answers 200 (envelope main_inbound); answers 200 (envelope VNone)] in
  let final := update_client_status settings panel "robert" "22222222-bbbb" 1 false ready in
  fst final = Ok true
  /\ map req_body (sent (snd final))
     = [NoBody;
        JsonBody (Some (VDict [("id", VStr "22222222-bbbb"); ("inboundId", VInt 1);
                               ("enable", VBool false)]))].
Proof.
  intros panel final.
  assert (Hfetch : get_inbound settings panel 1 ready
                   = (Ok (envelope main_inbound), snd (get_inbound settings panel 1 ready)))
    by run.
  assert (Hclients : decoded_clients main_inbound
                     = Some [client_entry "alice" "11111111-aaaa";
                             client_entry "bob" "22222222-bbbb"]) by run.
  assert (Hcall : call settings panel "POST"
                    ("/panel/api/inbounds/updateClient/" ++ "22222222-bbbb")
                    (Some (VDict [("id", VStr "22222222-bbbb"); ("inboundId", VInt 1);
                                  ("enable", VBool false)]))
                    (snd (get_inbound settings panel 1 ready))
                  = (Ok (envelope VNone),
                     snd (call settings panel "POST"
                            ("/panel/api/inbounds/updateClient/" ++ "22222222-bbbb")
                            (Some (VDict [("id", VStr "22222222-bbbb"); ("inboundId", VInt 1);
                                          ("enable", VBool false)]))
                            (snd (get_inbound settings panel 1 ready))))) by run.
  pose proof (update_posts_the_status settings panel ready _ "robert" "22222222-bbbb" 1 false
                _ _ _ Hfetch eq_refl eq_refl Hclients (or_intror eq_refl) _ _ Hcall) as H.
  fold final in H. rewrite H. split; run.
Defined.

Lemma update_does_not_skip_unreadable_settings_witness :
  let panel := scripted [answers 200 (envelope broken_inbound)] in
  fst (update_client_status settings panel "alice" "11111111-aaaa" 3 false ready)
  = Raise (JSONDecodeError "Expecting value")
  /\ fst (find_client_in_all_inbounds settings (scripted [listing [broken_inbound]]) "alice"
            ready) = Ok VNone.
Proof.
  intros panel.
  assert (Hfetch : get_inbound settings panel 3 ready
                   = (Ok (envelope broken_inbound), snd (get_inbound settings panel 3 ready)))
    by run.
  destruct (update_does_not_skip_unreadable_settings settings panel ready _
              "alice" "11111111-aaaa" 3 false _ Hfetch eq_refl) as [Hmalformed _].
  assert (Hjson : json_loads "{not json" = inl "Expecting value") by run.
  destruct (Hmalformed _ "{not json" "Expecting value" eq_refl eq_refl Hjson) as [_ Hraise].
  rewrite Hraise. split; [reflexivity | run].
Defined.

Lemma found_client_has_three_keys_witness :
  let panel := scripted [listing [main_inbound; backup_inbound]] in
  exists (inbound_id inbound_remark : value) (fields : list (string * value)),
    fst (find_client_in_all_inbounds settings panel "carol" ready)
    = Ok (VDict [("inbound_id", inbound_id); ("inbound_remark", inbound_remark);
                 ("client", VDict fields)])
    /\ Py.dict_get fields "email" VNone = VStr "carol".
Proof.
  intros panel.
  assert (Hfind : find_client_in_all_inbounds settings panel "carol" ready
                  = (Ok (found_info backup_inbound (client_entry "carol" "33333333-cccc")),
                     snd (find_client_in_all_inbounds settings panel "carol" ready)))
    by run.
  destruct (found_client_has_three_keys settings panel ready _ "carol" _ Hfind)
    as [Hnone | [inbound_id [inbound_remark [fields [Hinfo [Hemail _]]]]]].
  - discriminate Hnone.
  - exists inbound_id, inbound_remark, fields. rewrite Hfind. cbn [fst].
    rewrite Hinfo. split; [reflexivity | exact Hemail].
Defined.

(** carol is deleted from the inbound that holds her, and the refusal of
    the panel is reported as [False]. *)
Lemma delete_everywhere_deletes_first_match_witness :
  let panel := scripted [listing [main_inbound; backup_inbound];
                         answers 200 (failure "delete failed")] in
  let final := delete_client_from_all_inbounds settings panel "carol" ready in
  fst final = Ok false
  /\ map req_url (sent (snd final))
     = ["https://panel.example.com:2053/panel/api/inbounds/list";
        "https://panel.example.com:2053/panel/api/inbounds/2/delClient/33333333-cccc"].
Proof.
  intros panel final.
  assert (Hfind : find_client_in_all_inbounds settings panel "carol" ready
                  = (Ok (found_info backup_inbound (client_entry "carol" "33333333-cccc")),
                     snd (find_client_in_all_inbounds settings panel "carol" ready)))
    by run.
  destruct (delete_everywhere_deletes_first_match settings panel ready _ "carol" _ Hfind)
    as [_ Hfound].
  destruct (Hfound _ _ _ eq_refl) as [Hdelete _].
  fold final in Hdelete. rewrite Hdelete. split; run.
Defined.

Lemma null_listing_is_not_iterable_witness :
  let panel := scripted [answers 200 (envelope VNone)] in
  fst (get_inbound_list settings panel ready) = Ok VNone
  /\ fst (find_client_in_all_inbounds settings panel "alice" ready) = Raise TypeError.
Proof.
  intros panel.
  assert (Hcall : call settings panel "GET" list_endpoint None ready
                  = (Ok (envelope VNone),
                     snd (call settings panel "GET" list_endpoint None ready))) by run.
  destruct (null_listing_is_not_iterable settings panel ready _ _ Hcall eq_refl eq_refl)
    as [Hlist Hrest].
  destruct (Hrest "alice") as [Hfind _]. rewrite Hlist, Hfind. split; reflexivity.
Defined.

(** A refusal that says ["Duplicate email"] and names no label. *)
Lemma create_reads_the_refusal_witness :
  let panel := scripted [listing [main_inbound]; answers 200 (failure "Duplicate email")] in
  fst (create_client settings panel "carol" "44444444-dddd" 1 true ready)
  = Raise (XUIClientError "Failed to create client: Duplicate email").
Proof.
  intros panel.
  assert (Hfind : find_client_in_all_inbounds settings panel "carol" ready
                  = (Ok VNone, snd (find_client_in_all_inbounds settings panel "carol" ready)))
    by run.
  assert (Hcall : call settings panel "POST" add_client_endpoint
                    (Some (request_data "carol" "44444444-dddd" 1 true))
                    (snd (find_client_in_all_inbounds settings panel "carol" ready))
                  = (Ok (failure "Duplicate email"),
                     snd (call settings panel "POST" add_client_endpoint
                            (Some (request_data "carol" "44444444-dddd" 1 true))
                            (snd (find_client_in_all_inbounds settings panel "carol" ready)))))
    by run.
  destruct (create_reads_the_refusal settings panel ready _ _ "carol" "44444444-dddd" 1 true
              _ Hfind Hcall) as [_ Hrefused].
  rewrite (Hrefused "Duplicate email" eq_refl eq_refl). reflexivity.
Defined.

Lemma link_scheme_is_the_protocol_witness :
  let panel := scripted [answers 200 (envelope (inbound_entry 1 "main" "VLESS"
                                                  (clients_blob [alice])))] in
  exists link : string,
    fst (get_client_link settings panel 1 "alice" ready) = Ok (Some link)
    /\ PyStr.startswith "vless://" link = true.
Proof.
  intros panel.
  assert (Hlink : fst (get_client_link settings panel 1 "alice" ready)
                  = Ok (Some "vless://11111111-aaaa@panel.example.com:443?type=tcp&encryption=none#alice"))
    by run.
  eexists. split; [exact Hlink|].
  destruct (link_scheme_is_the_protocol settings panel ready 1 "alice" _ Hlink)
    as [data [Hfetch Hscheme]].
  assert (Hdata : fst (get_inbound settings panel 1 ready)
                  = Ok (envelope (inbound_entry 1 "main" "VLESS" (clients_blob [alice]))))
    by run.
  rewrite Hdata in Hfetch. injection Hfetch as <-. exact Hscheme.
Defined.

Import Example2.

Lemma trojan_link_parameters_witness :
  _build_trojan_link settings trojan_client main_inbound (VDict tls_stream)
    (VInt 443) (VStr "tcp") (VStr "tls")
  = Ok "trojan://s3same@panel.example.com:443?type=tcp&security=tls&sni=vpn.example.com#dave"
  /\ exists query : params,
       query = [("type", VStr "tcp"); ("security", VStr "tls");
                ("sni", VStr "vpn.example.com")]
       /\ Urllib.urlencode query EmptyString = "type=tcp&security=tls&sni=vpn.example.com".
Proof.
  assert (Hlink : _build_trojan_link settings trojan_client main_inbound (VDict tls_stream)
                    (VInt 443) (VStr "tcp") (VStr "tls")
                  = Ok "trojan://s3same@panel.example.com:443?type=tcp&security=tls&sni=vpn.example.com#dave")
    by run.
  split; [exact Hlink|].
  destruct (trojan_link_parameters settings trojan_client main_inbound (VDict tls_stream)
              (VInt 443) (VStr "tcp") (VStr "tls") _ Hlink)
    as [password [email [server [fragment [query [_ [_ [_ [_ [_ [_ Htls]]]]]]]]]]].
  destruct (Htls eq_refl) as [tls [Hget Hquery]].
  injection Hget as <-. exists query. split; [exact Hquery|]. rewrite Hquery. run.
Defined.

Lemma vless_tls_link_parameters_witness :
  let link := "vless://11111111-aaaa@panel.example.com:443?type=tcp&encryption=none"
              ++ "&security=tls&sni=vpn.example.com&alpn=h2,http/1.1#alice" in
  _build_vless_link settings alice main_inbound (VDict tls_stream)
    (VInt 443) (VStr "tcp") (VStr "tls") = Ok link
  /\ exists parts : list string,
       link = "vless://11111111-aaaa@panel.example.com:443?" ++ String.concat "&" parts
              ++ "#alice"
       /\ Forall (fun part => parameter part = true) parts
       /\ In "security=tls" parts
       /\ In "sni=vpn.example.com" parts
       /\ In "alpn=h2,http/1.1" parts
       /\ Forall (fun part =>
                    String.prefix "pbk=" part = false /\ String.prefix "fp=" part = false
                    /\ String.prefix "sid=" part = false /\ String.prefix "spx=" part = false)
            parts.
Proof.
  intros link.
  assert (Hlink : _build_vless_link settings alice main_inbound (VDict tls_stream)
                    (VInt 443) (VStr "tcp") (VStr "tls") = Ok link) by run.
  split; [exact Hlink|].
  assert (Hname : "vpn.example.com" <> EmptyString) by discriminate.
  assert (Hlisted : [VStr "h2"; VStr "http/1.1"] <> []) by discriminate.
  destruct (vless_tls_link_parameters settings alice main_inbound (VDict tls_stream)
              (VInt 443) (VStr "tcp") tls_stream tls_settings "vpn.example.com" link
              [VStr "h2"; VStr "http/1.1"] ["h2"; "http/1.1"]
              eq_refl eq_refl eq_refl Hname eq_refl Hlisted eq_refl Hlink)
    as [uuid [email [server [fragment [parts [Huuid [Hemail [Hserver [Hfragment [Hshape
       [Hparts [Hsecurity [_ [_ [Hsni [Halpn Hnone]]]]]]]]]]]]]]]].
  fix_link Huuid Hemail Hserver Hfragment.
  exists parts.
  split; [exact Hshape|]. split; [exact Hparts|]. split; [exact Hsecurity|].
  split; [apply Hsni; run|]. split; [apply Halpn; run | exact Hnone].
Defined.

Lemma vless_plain_link_parameters_witness :
  let link := "vless://11111111-aaaa@panel.example.com:443?type=ws&encryption=none"
              ++ "&path=/a%2520b#alice" in
  _build_vless_link settings alice main_inbound (VDict spaced_ws_stream)
    (VInt 443) (VStr "ws") (VStr "none") = Ok link
  /\ exists rest : list string,
       link = "vless://11111111-aaaa@panel.example.com:443?"
              ++ String.concat "&" ("type=ws" :: "encryption=none" :: rest) ++ "#alice"
       /\ Forall (fun part => parameter part = true) rest
       /\ Forall (fun part =>
                    Forall (fun name => String.prefix (name ++ "=") part = false)
                      ["security"; "sni"; "alpn"; "pbk"; "fp"; "sid"; "spx"])
            rest.
Proof.
  intros link.
  assert (Hlink : _build_vless_link settings alice main_inbound (VDict spaced_ws_stream)
                    (VInt 443) (VStr "ws") (VStr "none") = Ok link) by run.
  split; [exact Hlink|].
  destruct (vless_plain_link_parameters settings alice main_inbound (VDict spaced_ws_stream)
              (VInt 443) (VStr "ws") (VStr "none") "ws" link eq_refl eq_refl Hlink)
    as [uuid [email [server [fragment [rest [Huuid [Hemail [Hserver [Hfragment [Hshape
       [Hparts Hnone]]]]]]]]]]].
  fix_link Huuid Hemail Hserver Hfragment.
  exists rest. split; [exact Hshape|]. split; [exact Hparts | exact (Hnone eq_refl eq_refl)].
Defined.

Lemma vless_ws_path_is_encoded_twice_witness :
  let link := "vless://11111111-aaaa@panel.example.com:443?type=ws&encryption=none"
              ++ "&path=/a%2520b#alice" in
  _build_vless_link settings alice main_inbound (VDict spaced_ws_stream)
    (VInt 443) (VStr "ws") (VStr "none") = Ok link
  /\ exists parts : list string,
       link = "vless://11111111-aaaa@panel.example.com:443?" ++ String.concat "&" parts
              ++ "#alice"
       /\ Forall (fun part => parameter part = true) parts
       /\ In "path=/a%2520b" parts.
Proof.
  intros link.
  assert (Hlink : _build_vless_link settings alice main_inbound (VDict spaced_ws_stream)
                    (VInt 443) (VStr "ws") (VStr "none") = Ok link) by run.
  split; [exact Hlink|].
  destruct (vless_ws_path_is_encoded_twice settings alice main_inbound
              (VDict spaced_ws_stream) (VInt 443) (VStr "none")
              spaced_ws_stream spaced_ws_settings "/a b" link
              eq_refl eq_refl eq_refl Hlink)
    as [uuid [email [server [fragment [parts [Huuid [Hemail [Hserver [Hfragment [Hshape
       [Hparts [Hpath _]]]]]]]]]]]].
  fix_link Huuid Hemail Hserver Hfragment.
  exists parts. split; [exact Hshape|]. split; [exact Hparts | exact Hpath].
Defined.

Lemma non_object_settings_stop_the_scan_witness :
  let panel := scripted [listing [broken_inbound; inbound_entry 5 "odd" "vless" "[]";
                                  main_inbound]] in
  fst (find_client_in_all_inbounds settings panel "alice" ready)
  = Raise (AttributeError "'list' object has no attribute 'get'").
Proof.
  intros panel.
  assert (Hl : get_inbound_list settings panel ready
               = (Ok (VList ([broken_inbound] ++ inbound_entry 5 "odd" "vless" "[]"
                                :: [main_inbound])),
                  snd (get_inbound_list settings panel ready))) by run.
  assert (Hpre : forallb (fun x => malformed_settings x
                                   || (well_formed_inbound x && negb (lists_email "alice" x)))
                   [broken_inbound] = true) by run.
  assert (Hjson : json_loads "[]" = inr (VList [])) by run.
  destruct (non_object_settings_stop_the_scan settings panel ready _ "alice" [broken_inbound]
              [main_inbound] _ "[]" (VList []) Hl Hpre eq_refl Hjson eq_refl) as [Hfind _].
  rewrite Hfind. reflexivity.
Defined.

Lemma server_address_with_port_witness :
  server_address settings main_inbound = Ok (VStr "panel.example.com")
  /\ host_portion (XUI_BASE_URL settings) = "panel.example.com".
Proof.
  assert (Hhost : PyStr.all (fun c => negb (ends_host c)) "panel.example.com" = true) by run.
  exact (server_address_with_port settings
           (match main_inbound with VDict fields => fields | _ => [] end)
           "https://" "panel.example.com" "053/" "2"
           (or_introl eq_refl) eq_refl Hhost eq_refl (or_intror eq_refl)).
Defined.
